(** * Code Execution API installer: a model of the installation workflow

    The installer (code_execution_api_installer.py) is a sequential script
    that talks to the operating system: it probes the registry, downloads
    files, runs installers, unpacks an archive into the installation
    directory and starts services.

    The model below threads an explicit machine state (filesystem, process
    environment, working directory, console trace) through every function,
    and reads every answer of the outside world (registry, network,
    subprocess exit statuses, operator input) from a [world] record.
    Python exceptions are an explicit outcome of every computation.

    What the model leaves out:
    - child processes are opaque: they have an exit status and captured
      output, and no effect on the modelled filesystem;
    - entry names are compared exactly (no case folding), and paths are
      lists of components; [..] is not resolved;
    - [readsofar * 100 / totalsize] is kept as an exact rational, where
      Python computes a float and prints it with one decimal;
    - open files are not locked (Windows refuses to rename or remove a
      file that a process holds open);
    - [KeyboardInterrupt] and a closed standard input are not modelled. *)

From Stdlib Require Import Ascii QArith.
From stdpp Require Import gmap strings list fin_maps pretty.

Set Warnings "-register-all".

(** ** Strings *)

Module Str.

(** [c * n] for a one-character string. *)
Fixpoint repeat (c : ascii) (n : nat) : string :=
  match n with
  | O => EmptyString
  | S n' => String c (repeat c n')
  end.

(** Python's [s * k]: a count below one gives the empty string. *)
Definition times (c : ascii) (k : Z) : string := repeat c (Z.to_nat k).

(** [sep.join(l)]. *)
Fixpoint join (sep : string) (l : list string) : string :=
  match l with
  | [] => EmptyString
  | [x] => x
  | x :: r => x +:+ sep +:+ join sep r
  end.

(** [s.split(c)]. *)
Fixpoint split (c : ascii) (s : string) : list string :=
  match s with
  | EmptyString => [EmptyString]
  | String a s' =>
      if Ascii.eqb a c then EmptyString :: split c s'
      else match split c s' with
           | [] => [String a EmptyString]
           | w :: ws => String a w :: ws
           end
  end.

(** [s.endswith(c)]. *)
Fixpoint endswith (c : ascii) (s : string) : bool :=
  match s with
  | EmptyString => false
  | String a EmptyString => Ascii.eqb a c
  | String _ s' => endswith c s'
  end.

(** [needle in hay]. *)
Fixpoint contains (needle hay : string) : bool :=
  String.prefix needle hay ||
  match hay with
  | EmptyString => false
  | String _ h => contains needle h
  end.

(** Longest common prefix of two strings, character by character. *)
Fixpoint lcp (a b : string) : string :=
  match a, b with
  | String x a', String y b' =>
      if Ascii.eqb x y then String x (lcp a' b') else EmptyString
  | _, _ => EmptyString
  end.

(** [os.path.commonprefix]: character-wise, not component-wise. *)
Definition commonprefix (l : list string) : string :=
  match l with
  | [] => EmptyString
  | x :: r => foldl lcp x r
  end.

(** [s.lower()] on ASCII letters. *)
Definition lower_ascii (a : ascii) : ascii :=
  let n := nat_of_ascii a in
  if (65 <=? n)%nat && (n <=? 90)%nat then ascii_of_nat (n + 32) else a.

Fixpoint lower (s : string) : string :=
  match s with
  | EmptyString => EmptyString
  | String a s' => String (lower_ascii a) (lower s')
  end.

End Str.

(** ** Paths and the filesystem tree *)

(** A path is the list of its components below the filesystem root. *)
Definition path := list string.

(** The text form used in messages and generated scripts. *)
Definition path_str (p : path) : string := Str.join "\" p.

(** Components of a [/]-separated relative name, as the operating system
    resolves it: empty components and [.] are skipped. *)
Definition components (s : string) : path :=
  filter (λ c, c ≠ EmptyString ∧ c ≠ ".") (Str.split "/"%char s).

(** What a regular file holds.  A downloaded zip archive is kept as the
    list of its members (name and data, in archive order); a member whose
    name ends in [/] is a directory entry. *)
Inductive payload :=
| Text (s : string)
| Zip (members : list (string * string)).

Inductive node :=
| File (c : payload)
| Dir (entries : gmap string node).

Module FS.

Fixpoint resolve (p : path) (n : node) : option node :=
  match p with
  | [] => Some n
  | c :: p' =>
      match n with
      | Dir m => m !! c ≫= resolve p'
      | File _ => None
      end
  end.

(** [os.path.exists] and [os.path.isdir]. *)
Definition pathexists (p : path) (n : node) : bool :=
  match resolve p n with Some _ => true | None => false end.

Definition isdir (p : path) (n : node) : bool :=
  match resolve p n with Some (Dir _) => true | _ => false end.

(** Replace ([Some]) or unlink ([None]) the entry at [p].  The parent
    of [p] must be an existing directory; the root cannot be unlinked. *)
Fixpoint store (p : path) (v : option node) (n : node) : option node :=
  match p with
  | [] => v
  | c :: p' =>
      match n with
      | File _ => None
      | Dir m =>
          match p' with
          | [] => Some (Dir (partial_alter (λ _, v) c m))
          | _ :: _ =>
              child ← m !! c;
              child' ← store p' v child;
              Some (Dir (<[c := child']> m))
          end
      end
  end.

(** [open(p, "w")] followed by the writes and the close. *)
Definition write_file (p : path) (c : payload) (n : node) : option node :=
  if isdir p n then None else store p (Some (File c)) n.

(** [os.mkdir]. *)
Definition mkdir (p : path) (n : node) : option node :=
  if pathexists p n then None else store p (Some (Dir ∅)) n.

(** [os.makedirs(p, exist_ok=True)]: every missing directory on the way
    is created; a regular file on the way (or at [p]) is an error. *)
Fixpoint makedirs (p : path) (n : node) : option node :=
  match n with
  | File _ => None
  | Dir m =>
      match p with
      | [] => Some n
      | c :: p' =>
          child' ← makedirs p' (default (Dir ∅) (m !! c));
          Some (Dir (<[c := child']> m))
      end
  end.

(** [os.remove]: regular files only. *)
Definition remove (p : path) (n : node) : option node :=
  match resolve p n with
  | Some (File _) => store p None n
  | _ => None
  end.

(** [shutil.rmtree]: directories only. *)
Definition rmtree (p : path) (n : node) : option node :=
  match p with
  | [] => None
  | _ :: _ => if isdir p n then store p None n else None
  end.

(** [os.listdir]: the names in a directory, in the directory's order. *)
Definition listdir (p : path) (n : node) : option (list string) :=
  match resolve p n with
  | Some (Dir m) => Some (map_to_list m).*1
  | _ => None
  end.

Definition basename (p : path) : string := default EmptyString (last p).

(** [shutil.move]: into [dst] when [dst] is a directory, onto [dst]
    otherwise; a directory never replaces an existing entry. *)
Definition move (src dst : path) (n : node) : option node :=
  x ← resolve src n;
  let real_dst := if isdir dst n then dst ++ [basename src] else dst in
  if isdir dst n && pathexists real_dst n then None
  else
    match x, resolve real_dst n with
    | Dir _, Some _ => None
    | _, _ => n1 ← store src None n; store real_dst (Some x) n1
    end.

End FS.

(** ** Exceptions and outcomes *)

(** The exceptions the script can meet.  Everything in [exception] derives
    from Python's [Exception]; [OSError] stands for the whole family
    (WindowsError, FileNotFoundError, PermissionError, URLError,
    shutil.Error).  [SystemExit] is raised by [sys.exit] and is not an
    [Exception]. *)
Inductive exception :=
| OSError (msg : string)
| KeyError (key : string)
| BadZipFile (msg : string)
| OtherError (msg : string).

Inductive raised :=
| Exc (e : exception)
| SystemExit (code : Z).

Inductive outcome (A : Type) :=
| Ok (a : A)
| Raise (e : raised).
Arguments Ok {A} a.
Arguments Raise {A} e.

(** [str(e)]. *)
Definition str_exception (e : exception) : string :=
  match e with
  | OSError msg | BadZipFile msg | OtherError msg => msg
  | KeyError key => "'" +:+ key +:+ "'"
  end.

(** The clauses [except Exception], [except WindowsError] and bare [except]. *)
Definition is_Exception (e : raised) : option exception :=
  match e with Exc x => Some x | SystemExit _ => None end.

Definition is_WindowsError (e : raised) : option exception :=
  match e with Exc (OSError msg) => Some (OSError msg) | _ => None end.

Definition is_anything (e : raised) : option raised := Some e.

(** ** The outside world *)

(** [winreg.OpenKey]: the key opens, or the call raises WindowsError
    because the key is absent or because the lookup itself failed. *)
Inductive reg_outcome :=
| KeyOpened
| KeyAbsent
| KeyLookupFailed (msg : string).

(** [subprocess.run]: the child ran and exited, or could not be started. *)
Record completed := { returncode : Z; stdout : string; stderr : string }.

Inductive run_outcome :=
| Exited (r : completed)
| NotStarted (msg : string).

(** One call of the report hook: block number, block size, total size. *)
Definition hook_call : Type := Z * Z * Z.

(** [urllib.request.urlretrieve]: the transfer completes; or it fails
    before the destination file is opened; or it fails after the transfer
    started, leaving what was received in the destination file. *)
Inductive fetch_outcome :=
| Fetched (hooks : list hook_call) (body : payload)
| Refused (err : exception)
| Broken (hooks : list hook_call) (partial : payload) (err : exception).

Record world := {
  IsUserAnAdmin : option Z;        (* [None]: the shell32 call raises *)
  sys_executable : string;
  sys_argv : list string;
  OpenKey : string → reg_outcome;
  retrieve : string → fetch_outcome;
  child : list string → run_outcome;
  operator : string → string;      (* the line typed at each prompt *)
  gettempdir : path;
  mkdtemp_name : string;
  PROGRAMDATA : path;
}.

(** ** Machine state and console trace *)

Inductive event :=
| Print (s : string)
| Write (s : string)
| WriteBar (bar : string) (percent : Q)
| Input (prompt : string)
| Run (argv : list string) (shell : bool)
| ShellExecute (verb file params : string)
| Fetch (url : string) (dest : path).

Record state := {
  fs : node;
  environ : gmap string string;
  cwd : path;
  trace : list event;
}.

Definition set_fs (n : node) (s : state) : state :=
  {| fs := n; environ := environ s; cwd := cwd s; trace := trace s |}.
Definition set_environ (e : gmap string string) (s : state) : state :=
  {| fs := fs s; environ := e; cwd := cwd s; trace := trace s |}.
Definition set_cwd (p : path) (s : state) : state :=
  {| fs := fs s; environ := environ s; cwd := p; trace := trace s |}.
Definition log (e : event) (s : state) : state :=
  {| fs := fs s; environ := environ s; cwd := cwd s; trace := trace s ++ [e] |}.

(** ** The computation monad: state and exceptions *)

Definition M (A : Type) : Type := state → outcome A * state.

Definition ret {A} (a : A) : M A := λ s, (Ok a, s).

Definition bind {A B} (m : M A) (f : A → M B) : M B := λ s,
  match m s with
  | (Ok a, s') => f a s'
  | (Raise e, s') => (Raise e, s')
  end.

Declare Scope M_scope.
Delimit Scope M_scope with M.
Notation "x ← y ; z" := (bind y (λ x, z))
  (at level 20, y at level 100, z at level 200, only parsing) : M_scope.
Notation "x ;; z" := (bind x (λ _, z))
  (at level 100, z at level 200, only parsing, right associativity) : M_scope.

Definition raise {A} (e : raised) : M A := λ s, (Raise e, s).
Definition emit (e : event) : M unit := λ s, (Ok tt, log e s).
Definition get_fs : M node := λ s, (Ok (fs s), s).

(** [try: m except <clause> as e: handler e]. *)
Definition try_except {A E} (m : M A)
    (clause : raised → option E) (handler : E → M A) : M A := λ s,
  match m s with
  | (Ok a, s') => (Ok a, s')
  | (Raise e, s') =>
      match clause e with
      | Some x => handler x s'
      | None => (Raise e, s')
      end
  end.

(** A filesystem call: the new tree, or OSError. *)
Definition fs_call (what : string) (f : node → option node) : M unit := λ s,
  match f (fs s) with
  | Some n => (Ok tt, set_fs n s)
  | None => (Raise (Exc (OSError what)), s)
  end.

(** [for x in l: body x]. *)
Fixpoint for_each {A} (l : list A) (body : A → M unit) : M unit :=
  match l with
  | [] => ret tt
  | x :: r => (body x;; for_each r body)%M
  end.

Definition CR : string := String (ascii_of_nat 13) EmptyString.
Definition LF : string := String (ascii_of_nat 10) EmptyString.
Definition DQ : string := String (ascii_of_nat 34) EmptyString.

(** [os.path.join] on text: a separator is added unless the first part is
    empty or already ends in one. *)
Definition join_text (a b : string) : string :=
  if String.eqb a EmptyString then b
  else if Str.endswith "\"%char a || Str.endswith "/"%char a || Str.endswith ":"%char a
       then a +:+ b
       else a +:+ "\" +:+ b.

(** ** Configuration *)

Definition PROJECT_NAME : string := "code-execution-api".
Definition PROJECT_ZIP_URL : string :=
  "https://github.com/SohamMhatre09/Code-Execution-API/archive/refs/heads/main.zip".
Definition DOCKER_INSTALLER_URL : string :=
  "https://desktop.docker.com/win/stable/Docker%20Desktop%20Installer.exe".
Definition MINICONDA_INSTALLER_URL : string :=
  "https://repo.anaconda.com/miniconda/Miniconda3-latest-Windows-x86_64.exe".
Definition DOCKER_KEY : string := "SOFTWARE\Docker Inc.\Docker Desktop".

(** [int(x)] on a rational: truncation towards zero. *)
Definition Qtrunc (q : Q) : Z := Z.quot (Qnum q) (Z.pos (Qden q)).

(** [readsofar * 100 / totalsize] for a positive [totalsize], exactly. *)
Definition percent_of (readsofar totalsize : Z) : Q :=
  Qmake (readsofar * 100) (Z.to_pos totalsize).

(** ** Zip archives (the part of [zipfile] the installer uses) *)

Module ZipFile.

Definition namelist (members : list (string * string)) : list string :=
  members.*1.

(** Where a member lands below the extraction directory: empty, [.] and
    [..] components of its name are dropped. *)
Definition member_path (name : string) : path :=
  filter (λ c, c ≠ EmptyString ∧ c ≠ "." ∧ c ≠ "..") (Str.split "/"%char name).

Definition extract_member (dir : path) (member : string * string)
    (n : node) : option node :=
  let target := dir ++ member_path member.1 in
  let upperdirs := removelast target in
  n1 ← (if FS.pathexists upperdirs n then Some n else FS.makedirs upperdirs n);
  if Str.endswith "/"%char member.1
  then if FS.isdir target n1 then Some n1 else FS.mkdir target n1
  else FS.write_file target (Text member.2) n1.

Fixpoint extractall (dir : path) (members : list (string * string))
    (n : node) : option node :=
  match members with
  | [] => Some n
  | member :: rest => n1 ← extract_member dir member n; extractall dir rest n1
  end.

End ZipFile.

(** ** The installer *)

Section Installer.

Variable w : world.

Open Scope M_scope.

Definition INSTALL_DIR : path := PROGRAMDATA w ++ ["CodeExecutionAPI"].

(** *** Primitives *)

Definition print (s : string) : M unit := emit (Print s).

Definition input (prompt : string) : M string :=
  emit (Input prompt);; ret (operator w prompt).

Definition subprocess_run (argv : list string) (shell : bool) : M completed :=
  emit (Run argv shell);;
  match child w argv with
  | Exited r => ret r
  | NotStarted msg => raise (Exc (OSError msg))
  end.

Definition os_environ_get (key : string) : M string := λ s,
  match environ s !! key with
  | Some v => (Ok v, s)
  | None => (Raise (Exc (KeyError key)), s)
  end.

Definition os_environ_set (key value : string) : M unit := λ s,
  (Ok tt, set_environ (<[key := value]> (environ s)) s).

Definition os_chdir (p : path) : M unit := λ s,
  if FS.isdir p (fs s) then (Ok tt, set_cwd p s)
  else (Raise (Exc (OSError "chdir")), s).

Definition os_listdir (p : path) : M (list string) := λ s,
  match FS.listdir p (fs s) with
  | Some l => (Ok l, s)
  | None => (Raise (Exc (OSError "listdir")), s)
  end.

Definition os_path_exists (p : path) : M bool :=
  n ← get_fs; ret (FS.pathexists p n).

Definition os_path_isdir (p : path) : M bool :=
  n ← get_fs; ret (FS.isdir p n).

(** [open(p, "w")], the writes, and the close. *)
Definition write_text (p : path) (text : string) : M unit :=
  fs_call "open" (FS.write_file p (Text text)).

(** [tempfile.mkdtemp()]: a new directory below [gettempdir()].  Its name
    is the world's choice; where that name is taken the call raises
    (Python would draw another name). *)
Definition mkdtemp : M path :=
  let d := gettempdir w ++ [mkdtemp_name w] in
  fs_call "mkdtemp" (FS.mkdir d);; ret d.

(** [zipfile.ZipFile(p, 'r')]. *)
Definition ZipFile_open (p : path) : M (list (string * string)) := λ s,
  match FS.resolve p (fs s) with
  | Some (File (Zip members)) => (Ok members, s)
  | Some (File (Text _)) => (Raise (Exc (BadZipFile "File is not a zip file")), s)
  | _ => (Raise (Exc (OSError "open")), s)
  end.

Definition shell32_IsUserAnAdmin : M Z :=
  match IsUserAnAdmin w with
  | Some z => ret z
  | None => raise (Exc (OtherError "IsUserAnAdmin"))
  end.

Definition winreg_OpenKey (key : string) : M unit :=
  match OpenKey w key with
  | KeyOpened => ret tt
  | KeyAbsent => raise (Exc (OSError "The system cannot find the file specified"))
  | KeyLookupFailed msg => raise (Exc (OSError msg))
  end.

(** [urllib.request.urlretrieve(url, filename, reporthook)]. *)
Definition urlretrieve (url : string) (filename : path)
    (reporthook : Z → Z → Z → M unit) : M unit :=
  emit (Fetch url filename);;
  match retrieve w url with
  | Fetched hooks body =>
      fs_call "open" (FS.write_file filename body);;
      for_each hooks (λ h, reporthook h.1.1 h.1.2 h.2)
  | Refused err => raise (Exc err)
  | Broken hooks partial err =>
      fs_call "open" (FS.write_file filename partial);;
      for_each hooks (λ h, reporthook h.1.1 h.1.2 h.2);;
      raise (Exc err)
  end.

(** *** Privilege gate *)

(** The value is an integer; [False] is [0]. *)
Definition is_admin : M Z :=
  try_except shell32_IsUserAnAdmin is_anything (λ _, ret 0%Z).

Definition restart_as_admin : M unit :=
  emit (ShellExecute "runas" (sys_executable w) (Str.join " " (sys_argv w)));;
  raise (SystemExit 0).

Definition print_header (message : string) : M unit :=
  let border := Str.repeat "="%char (String.length message + 4) in
  print (LF +:+ border);;
  print ("  " +:+ message);;
  print (border +:+ LF).

(** *** Remote artifact fetcher *)

Definition report_progress (blocknum blocksize totalsize : Z) : M unit :=
  let readsofar := (blocknum * blocksize)%Z in
  if (0 <? totalsize)%Z then
    let percent := percent_of readsofar totalsize in
    let progress := Qtrunc (percent / 2) in
    emit (WriteBar (CR +:+ "[" +:+ Str.times "#"%char progress
                      +:+ Str.times " "%char (50 - progress) +:+ "]") percent);;
    if (totalsize <=? readsofar)%Z then emit (Write LF) else ret tt
  else
    emit (Write (CR +:+ "Read " +:+ pretty readsofar +:+ " bytes")).

Definition download_file (url : string) (destination : path) : M bool :=
  print ("Downloading from " +:+ url +:+ "...");;
  try_except
    (urlretrieve url destination report_progress;;
     print ("Download completed to " +:+ path_str destination);;
     ret true)
    is_Exception
    (λ e, print ("Error downloading file: " +:+ str_exception e);;
          ret false).

(** *** Prerequisite probes and remediation *)

Definition check_docker_installed : M bool :=
  try_except
    (winreg_OpenKey DOCKER_KEY;; ret true)
    is_WindowsError
    (λ _, ret false).

Definition install_docker : M bool :=
  print_header "Installing Docker Desktop";;
  let temp_dir := gettempdir w in
  let docker_installer := temp_dir ++ ["DockerDesktopInstaller.exe"] in
  ok ← download_file DOCKER_INSTALLER_URL docker_installer;
  if ok then
    print "Running Docker Desktop installer...";;
    result ← subprocess_run [path_str docker_installer; "install"; "--quiet"] false;
    if (returncode result =? 0)%Z then
      print "Docker Desktop installation completed successfully!";;
      ret true
    else
      print ("Docker Desktop installation failed: " +:+ stderr result);;
      print "Please install Docker Desktop manually from https://www.docker.com/products/docker-desktop";;
      input "Press Enter to continue after installing Docker Desktop manually...";;
      ret false
  else ret false.

Definition check_conda_installed : M bool :=
  try_except
    (result ← subprocess_run ["conda"; "--version"] true;
     ret (returncode result =? 0)%Z)
    is_anything
    (λ _, ret false).

Definition install_miniconda : M bool :=
  print_header "Installing Miniconda";;
  let temp_dir := gettempdir w in
  let miniconda_installer := temp_dir ++ ["Miniconda3_Installer.exe"] in
  ok ← download_file MINICONDA_INSTALLER_URL miniconda_installer;
  if ok then
    print "Running Miniconda installer...";;
    result ← subprocess_run
      [path_str miniconda_installer; "/InstallationType=JustMe";
       "/RegisterPython=0"; "/S"; "/D=%UserProfile%\Miniconda3"] false;
    if (returncode result =? 0)%Z then
      print "Miniconda installation completed successfully!";;
      home ← os_environ_get "USERPROFILE";
      home' ← os_environ_get "USERPROFILE";
      old ← os_environ_get "PATH";
      os_environ_set "PATH"
        (join_text home "Miniconda3" +:+ ";" +:+
         join_text (join_text home' "Miniconda3") "Scripts" +:+ ";" +:+ old);;
      ret true
    else
      print ("Miniconda installation failed: " +:+ stderr result);;
      print "Please install Miniconda manually from https://docs.conda.io/en/latest/miniconda.html";;
      input "Press Enter to continue after installing Miniconda manually...";;
      ret false
  else ret false.

(** *** Project materializer *)

Definition download_and_extract_project : M bool :=
  print_header "Downloading and Extracting Project Files";;
  temp_dir ← mkdtemp;
  let zip_path := temp_dir ++ ["code-execution-api.zip"] in
  ok ← download_file PROJECT_ZIP_URL zip_path;
  if negb ok then
    print "Failed to download project files. Aborting installation.";;
    ret false
  else
    fs_call "makedirs" (FS.makedirs INSTALL_DIR);;
    print ("Extracting files to " +:+ path_str INSTALL_DIR +:+ "...");;
    members ← ZipFile_open zip_path;
    let top_dir :=
      Str.commonprefix
        (filter (λ name, Str.endswith "/"%char name = true)
                (ZipFile.namelist members)) in
    fs_call "extractall" (ZipFile.extractall temp_dir members);;
    let extracted_dir := temp_dir ++ components top_dir in
    items ← os_listdir extracted_dir;
    for_each items (λ item,
      let source := extracted_dir ++ [item] in
      let dest := INSTALL_DIR ++ [item] in
      there ← os_path_exists dest;
      (if there then
         is_directory ← os_path_isdir dest;
         if is_directory then fs_call "rmtree" (FS.rmtree dest)
         else fs_call "remove" (FS.remove dest)
       else ret tt);;
      fs_call "move" (FS.move source dest));;
    fs_call "rmtree" (FS.rmtree temp_dir);;
    print "Project files extracted successfully!";;
    ret true.

(** *** Environment provisioner *)

Definition create_conda_environment : M bool :=
  print_header "Setting Up Python Environment";;
  let env_name := "code_execution_api" in
  let requirements := path_str (INSTALL_DIR ++ ["requirements.txt"]) in
  result ← subprocess_run ["conda"; "env"; "list"] true;
  (if Str.contains env_name (stdout result) then
     print ("Conda environment '" +:+ env_name +:+ "' already exists. Updating...");;
     subprocess_run
       ["conda"; "env"; "update"; "-n"; env_name; "--file"; requirements] true;;
     ret tt
   else
     print ("Creating conda environment '" +:+ env_name +:+ "'...");;
     subprocess_run ["conda"; "create"; "-n"; env_name; "python=3.11"; "-y"] true;;
     ret tt);;
  print "Installing project dependencies...";;
  subprocess_run
    ["conda"; "run"; "-n"; env_name; "pip"; "install"; "-r"; requirements] true;;
  print "Python environment setup completed successfully!";;
  ret true.

(** *** Launcher script generator *)

Definition start_script_text : string :=
  "@echo off" +:+ LF +:+
  "echo Starting Code Execution API..." +:+ LF +:+
  "cd /d " +:+ path_str INSTALL_DIR +:+ LF +:+
  "docker-compose up -d" +:+ LF +:+
  "echo API is running at http://localhost:8000" +:+ LF +:+
  "start http://localhost:8000" +:+ LF +:+
  "pause" +:+ LF.

Definition stop_script_text : string :=
  "@echo off" +:+ LF +:+
  "echo Stopping Code Execution API..." +:+ LF +:+
  "cd /d " +:+ path_str INSTALL_DIR +:+ LF +:+
  "docker-compose down" +:+ LF +:+
  "echo API has been stopped." +:+ LF +:+
  "pause" +:+ LF.

Definition vbs_text (shortcut_path start_script : string) : string :=
  "Set oWS = WScript.CreateObject(" +:+ DQ +:+ "WScript.Shell" +:+ DQ +:+ ")" +:+ LF +:+
  "sLinkFile = " +:+ DQ +:+ shortcut_path +:+ DQ +:+ LF +:+
  "Set oLink = oWS.CreateShortcut(sLinkFile)" +:+ LF +:+
  "oLink.TargetPath = " +:+ DQ +:+ start_script +:+ DQ +:+ LF +:+
  "oLink.WorkingDirectory = " +:+ DQ +:+ path_str INSTALL_DIR +:+ DQ +:+ LF +:+
  "oLink.Description = " +:+ DQ +:+ "Start Code Execution API" +:+ DQ +:+ LF +:+
  "oLink.Save" +:+ LF.

Definition create_startup_scripts : M bool :=
  print_header "Creating Startup Scripts";;
  let start_script := INSTALL_DIR ++ ["start_api.bat"] in
  write_text start_script start_script_text;;
  let stop_script := INSTALL_DIR ++ ["stop_api.bat"] in
  write_text stop_script stop_script_text;;
  home ← os_environ_get "USERPROFILE";
  let desktop_path := join_text home "Desktop" in
  let shortcut_path := join_text desktop_path "Code Execution API.lnk" in
  let vbs_script := gettempdir w ++ ["create_shortcut.vbs"] in
  write_text vbs_script (vbs_text shortcut_path (path_str start_script));;
  subprocess_run ["cscript"; "/nologo"; path_str vbs_script] false;;
  fs_call "remove" (FS.remove vbs_script);;
  print ("Startup scripts created in " +:+ path_str INSTALL_DIR);;
  print ("Desktop shortcut created at " +:+ shortcut_path);;
  ret true.

(** *** Service activator *)

Definition start_docker_services : M bool :=
  print_header "Starting Services";;
  os_chdir INSTALL_DIR;;
  print "Building Docker container...";;
  subprocess_run ["docker-compose"; "build"] true;;
  print "Starting Docker container...";;
  subprocess_run ["docker-compose"; "up"; "-d"] true;;
  print "Code Execution API is now running at http://localhost:8000";;
  ret true.

(** *** Workflow orchestrator *)

(** The steps of [main] that follow a successful materialization. *)
Definition main_after_materialize : M unit :=
  create_conda_environment;;
  create_startup_scripts;;
  start_docker_services;;
  print_header "Installation Complete";;
  print "The Code Execution API has been successfully installed and started.";;
  print "You can access the API at: http://localhost:8000";;
  print ("To start or stop the service, use the desktop shortcut or scripts in: "
         +:+ path_str INSTALL_DIR);;
  open_browser ← input "Would you like to open the API in your browser now? (y/n): ";
  (if String.eqb (Str.lower open_browser) "y" then
     subprocess_run ["start"; "http://localhost:8000"] true;;
     ret tt
   else ret tt);;
  input "Press Enter to exit the installer...";;
  ret tt.

Definition main : M unit :=
  admin ← is_admin;
  (if (admin =? 0)%Z then
     print "This installer requires administrator privileges.";;
     print "Restarting with admin rights...";;
     restart_as_admin
   else ret tt);;
  print_header "Code Execution API Installer";;
  print "This installer will set up the Code Execution API service on your computer.";;
  print ("Installation will be performed to: " +:+ path_str INSTALL_DIR);;
  print EmptyString;;
  input "Press Enter to begin installation...";;
  docker ← check_docker_installed;
  (if negb docker then
     print "Docker Desktop is not installed.";;
     install_docker;;
     ret tt
   else print "Docker Desktop is already installed.");;
  conda ← check_conda_installed;
  (if negb conda then
     print "Miniconda is not installed.";;
     install_miniconda;;
     ret tt
   else print "Miniconda is already installed.");;
  materialized ← download_and_extract_project;
  if negb materialized then
    print "Failed to download and extract project files. Aborting installation.";;
    input "Press Enter to exit...";;
    ret tt
  else main_after_materialize.

(** The script's entry point: [main()] under [except Exception]. *)
Definition script : M unit :=
  try_except main is_Exception
    (λ e, print ("An error occurred during installation: " +:+ str_exception e);;
          input "Press Enter to exit...";;
          ret tt).

End Installer.

(** ** Scenarios

    Concrete machines and worlds on which the model is run. *)

Module Scenario.

Definition exit_with (code : Z) : run_outcome :=
  Exited {| returncode := code; stdout := EmptyString; stderr := "setup failed" |}.

(** The archive of the end-to-end scenario: root [app-main/] holding
    [requirements.txt] and [docker-compose.yml]. *)
Definition app_archive : list (string * string) :=
  [("app-main/", EmptyString);
   ("app-main/requirements.txt", "fastapi");
   ("app-main/docker-compose.yml", "services: new")].

(** An archive with the same single root [a], written without an entry
    for the root directory itself (as [zip -r x.zip a/b a/g.txt] does). *)
Definition rootless_archive : list (string * string) :=
  [("a/b/", EmptyString); ("a/b/f.txt", "f"); ("a/g.txt", "g")].

(** An elevated process, both prerequisites present, every child exits
    with [code], the project archive is [archive]. *)
Definition ready (archive : list (string * string)) (code : Z) : world := {|
  IsUserAnAdmin := Some 1%Z;
  sys_executable := "C:\Python311\python.exe";
  sys_argv := ["installer.py"];
  OpenKey := λ _, KeyOpened;
  retrieve := λ url,
    if String.eqb url PROJECT_ZIP_URL
    then Fetched [(0, 8192, -1); (1, 8192, -1)]%Z (Zip archive)
    else Refused (OSError "unreachable");
  child := λ argv,
    match argv with
    | ["conda"; "--version"] => exit_with 0
    | _ => exit_with code
    end;
  operator := λ _, EmptyString;
  gettempdir := ["Temp"];
  mkdtemp_name := "tmp8k2";
  PROGRAMDATA := ["ProgramData"];
|}.

(** The same machine without network. *)
Definition offline : world := {|
  IsUserAnAdmin := Some 1%Z;
  sys_executable := "C:\Python311\python.exe";
  sys_argv := ["installer.py"];
  OpenKey := λ _, KeyOpened;
  retrieve := λ _, Refused (OSError "unreachable");
  child := λ _, exit_with 0;
  operator := λ _, EmptyString;
  gettempdir := ["Temp"];
  mkdtemp_name := "tmp8k2";
  PROGRAMDATA := ["ProgramData"];
|}.

(** No prerequisite installed; installers download but exit with [code]. *)
Definition bare (code : Z) : world := {|
  IsUserAnAdmin := Some 1%Z;
  sys_executable := "C:\Python311\python.exe";
  sys_argv := ["installer.py"];
  OpenKey := λ _, KeyLookupFailed "Access is denied";
  retrieve := λ url,
    if String.eqb url PROJECT_ZIP_URL
    then Refused (OSError "unreachable")
    else Fetched [(0, 8192, 10000); (1, 8192, 10000); (2, 8192, 10000)]%Z (Text "MZ");
  child := λ argv,
    match argv with
    | ["conda"; "--version"] => NotStarted "cmd.exe not found"
    | _ => exit_with code
    end;
  operator := λ _, EmptyString;
  gettempdir := ["Temp"];
  mkdtemp_name := "tmp8k2";
  PROGRAMDATA := ["ProgramData"];
|}.


Definition machine (root : gmap string node) : state := {|
  fs := Dir root;
  environ := {[ "USERPROFILE" := "C:\Users\op"; "PATH" := "C:\Windows" ]};
  cwd := [];
  trace := [];
|}.

(** A machine whose installation directory does not exist yet. *)
Definition fresh : state :=
  machine {[ "Temp" := Dir ∅; "ProgramData" := Dir ∅ ]}.

(** A machine with a stale install and an operator's own file. *)
Definition stale : state :=
  machine {[ "Temp" := Dir ∅;
             "ProgramData" := Dir {[ "CodeExecutionAPI" :=
               Dir {[ "docker-compose.yml" := File (Text "services: old");
                      "notes.txt" := File (Text "mine") ]} ]} ]}.

End Scenario.

(** ** Vocabulary of the statements *)

(** [emits_only P m]: whatever the start state, [m] only appends to the
    console trace, and every event it appends satisfies [P]. *)
Definition emits_only {A} (P : event → Prop) (m : M A) : Prop :=
  ∀ s, ∃ new, trace (m s).2 = trace s ++ new ∧ Forall P new.

(** A fetch succeeds when the transfer completes and the destination can
    be written. *)
Definition fetch_succeeds (w : world) (url : string) (dest : path) (n : node) : Prop :=
  ∃ hooks body, retrieve w url = Fetched hooks body
                ∧ is_Some (FS.write_file dest body n).

(** A child process that exits, whatever its status. *)
Definition exits (w : world) (argv : list string) : Prop :=
  ∃ r, child w argv = Exited r.

(** The first line each later workflow step prints: the console mark of
    the Environment Provisioner, the Launcher Script Generator and the
    Service Activator being invoked. *)
Definition provisioner_mark : event := Print "  Setting Up Python Environment".
Definition script_generator_mark : event := Print "  Creating Startup Scripts".
Definition activator_mark : event := Print "  Starting Services".
Definition complete_mark : event := Print "  Installation Complete".

Definition later_step (e : event) : Prop :=
  e = provisioner_mark ∨ e = script_generator_mark ∨ e = activator_mark
  ∨ e = complete_mark.

(** An event that is the mark of no later step. *)
Definition quiet (e : event) : Prop := ¬ later_step e.

(** The process keeps its environment and working directory. *)
Definition same_process (s s' : state) : Prop :=
  environ s' = environ s ∧ cwd s' = cwd s.

(** Two paths diverge when they differ at some common position: neither
    lies below the other. *)
Fixpoint diverge (p q : path) : Prop :=
  match p, q with
  | a :: p', b :: q' => a ≠ b ∨ (a = b ∧ diverge p' q')
  | _, _ => False
  end.

(** The network transfer of [url] does not complete. *)
Definition transfer_fails (w : world) (url : string) : Prop :=
  match retrieve w url with
  | Fetched _ _ => False
  | _ => True
  end.

(** The scratch directory [mkdtemp] hands out. *)
Definition scratch_dir (w : world) : path := gettempdir w ++ [mkdtemp_name w].

(** A machine that downloads something that is not a zip archive. *)
Definition corrupt_download : world := {|
  IsUserAnAdmin := Some 1%Z;
  sys_executable := "C:\Python311\python.exe";
  sys_argv := ["installer.py"];
  OpenKey := λ _, KeyOpened;
  retrieve := λ _, Fetched [] (Text "<html>rate limited</html>");
  child := λ _, Scenario.exit_with 0;
  operator := λ _, EmptyString;
  gettempdir := ["Temp"];
  mkdtemp_name := "tmp8k2";
  PROGRAMDATA := ["ProgramData"];
|}.

(** No constraint on the events. *)
Definition anything (e : event) : Prop := True.


(** The installers and the commands that run them. *)
Definition docker_installer (w : world) : path :=
  gettempdir w ++ ["DockerDesktopInstaller.exe"].
Definition docker_command (w : world) : list string :=
  [path_str (docker_installer w); "install"; "--quiet"].
Definition miniconda_installer (w : world) : path :=
  gettempdir w ++ ["Miniconda3_Installer.exe"].
Definition miniconda_command (w : world) : list string :=
  [path_str (miniconda_installer w); "/InstallationType=JustMe";
   "/RegisterPython=0"; "/S"; "/D=%UserProfile%\Miniconda3"].

(** The child exits with status zero / with another status. *)
Definition exits_zero (w : world) (argv : list string) : Prop :=
  ∃ r, child w argv = Exited r ∧ returncode r = 0%Z.

(** The process environment defines the variables [install_miniconda]
    and [create_startup_scripts] read. *)
Definition windows_environment (s : state) : Prop :=
  is_Some (environ s !! "USERPROFILE") ∧ is_Some (environ s !! "PATH").


(** The process holds elevated rights. *)
Definition elevated (w : world) : Prop :=
  ∃ z, IsUserAnAdmin w = Some z ∧ z ≠ 0%Z.


(** The three blocks of [main] between the greeting and the later steps,
    named for the statements about them. *)
Definition docker_block (w : world) : M unit :=
  bind (check_docker_installed w) (λ docker,
    if negb docker
    then bind (print "Docker Desktop is not installed.")
           (λ _, bind (install_docker w) (λ _, ret tt))
    else print "Docker Desktop is already installed.").

Definition miniconda_block (w : world) : M unit :=
  bind (check_conda_installed w) (λ conda,
    if negb conda
    then bind (print "Miniconda is not installed.")
           (λ _, bind (install_miniconda w) (λ _, ret tt))
    else print "Miniconda is already installed.").

Definition materialize_block (w : world) : M unit :=
  bind (download_and_extract_project w) (λ materialized,
    if negb materialized
    then bind (print "Failed to download and extract project files. Aborting installation.")
           (λ _, bind (input w "Press Enter to exit...") (λ _, ret tt))
    else main_after_materialize w).

(** The state in which an elevated [main] reaches the Docker probe. *)
Definition greeted (w : world) (s : state) : state :=
  log (Input "Press Enter to begin installation...")
    (log (Print EmptyString)
    (log (Print ("Installation will be performed to: " +:+ path_str (INSTALL_DIR w)))
    (log (Print "This installer will set up the Code Execution API service on your computer.")
    (print_header "Code Execution API Installer" s).2))).

(** The commands of the environment manager and the container backend. *)
Definition requirements_txt (w : world) : string :=
  path_str (INSTALL_DIR w ++ ["requirements.txt"]).
Definition conda_env_list : list string := ["conda"; "env"; "list"].
Definition conda_env_update (w : world) : list string :=
  ["conda"; "env"; "update"; "-n"; "code_execution_api"; "--file"; requirements_txt w].
Definition conda_create : list string :=
  ["conda"; "create"; "-n"; "code_execution_api"; "python=3.11"; "-y"].
Definition conda_pip_install (w : world) : list string :=
  ["conda"; "run"; "-n"; "code_execution_api"; "pip"; "install"; "-r"; requirements_txt w].
Definition compose_build : list string := ["docker-compose"; "build"].
Definition compose_up : list string := ["docker-compose"; "up"; "-d"].

(** Every call of the provisioner and of the activator exits, with
    whatever status. *)
Definition best_effort_calls_exit (w : world) : Prop :=
  exits w conda_env_list ∧ exits w (conda_env_update w) ∧ exits w conda_create
  ∧ exits w (conda_pip_install w) ∧ exits w compose_build ∧ exits w compose_up.

(** What the Launcher Script Generator and the end of [main] need: the
    installation directory and the temporary directory exist, no
    directory sits where a script is written, USERPROFILE is defined, and
    the shortcut helper and the browser command can be started. *)
Definition shortcut_vbs (w : world) : path := gettempdir w ++ ["create_shortcut.vbs"].

Definition launcher_ready (w : world) (s : state) : Prop :=
  FS.isdir (INSTALL_DIR w) (fs s) = true
  ∧ FS.isdir (INSTALL_DIR w ++ ["start_api.bat"]) (fs s) = false
  ∧ FS.isdir (INSTALL_DIR w ++ ["stop_api.bat"]) (fs s) = false
  ∧ is_Some (environ s !! "USERPROFILE")
  ∧ FS.isdir (gettempdir w) (fs s) = true
  ∧ FS.isdir (shortcut_vbs w) (fs s) = false
  ∧ exits w ["cscript"; "/nologo"; path_str (shortcut_vbs w)]
  ∧ exits w ["start"; "http://localhost:8000"].

(** Run a tree operation on the subtree at [d]. *)
Definition focus (d : path) (f : node → option node) (n : node) : option node :=
  sub ← FS.resolve d n; sub' ← f sub; FS.store d (Some sub') n.

(** [makedirs p] can succeed: every component of [p] that exists is a
    directory. *)
Fixpoint creatable (p : path) (n : node) : Prop :=
  match n with
  | File _ => False
  | Dir m =>
      match p with
      | [] => True
      | c :: p' =>
          match m !! c with
          | Some x => creatable p' x
          | None => True
          end
      end
  end.

(** The entries of the directory at [p]; none when there is no such
    directory. *)
Definition entries_at (p : path) (n : node) : gmap string node :=
  match FS.resolve p n with
  | Some (Dir m) => m
  | _ => ∅
  end.

(** An archive extracted on its own. *)
Definition archive_tree (members : list (string * string)) : option node :=
  ZipFile.extractall [] members (Dir ∅).

(** The archive has the single top-level root [r], with these entries
    below it. *)
Definition single_root (members : list (string * string)) (r : string)
    (children : gmap string node) : Prop :=
  archive_tree members = Some (Dir {[ r := Dir children ]})
  ∧ Forall (λ member, head (ZipFile.member_path member.1) = Some r) members.

(** What the installer takes for the top-level directory of the archive. *)
Definition top_dir (members : list (string * string)) : string :=
  Str.commonprefix
    (filter (λ name, Str.endswith "/"%char name = true) (ZipFile.namelist members)).

Definition ZIP_NAME : string := "code-execution-api.zip".

(** Add an entry to a directory. *)
Definition with_entry (z : string) (x : node) (n : node) : node :=
  match n with
  | Dir m => Dir (<[z := x]> m)
  | File c => File c
  end.

(** One turn of the loop of [download_and_extract_project]: replace the
    entry [item] of the installation directory by the one extracted
    below [extracted_dir]. *)
Definition place (w : world) (extracted_dir : path) (item : string) : M unit :=
  let source := extracted_dir ++ [item] in
  let dest := INSTALL_DIR w ++ [item] in
  bind (os_path_exists dest) (λ there,
    bind (if there
          then bind (os_path_isdir dest) (λ is_directory,
                 if is_directory then fs_call "rmtree" (FS.rmtree dest)
                 else fs_call "remove" (FS.remove dest))
          else ret tt)
      (λ _, fs_call "move" (FS.move source dest))).

(** The entries below the root of [Scenario.app_archive]. *)
Definition app_children : gmap string node :=
  {[ "requirements.txt" := File (Text "fastapi");
     "docker-compose.yml" := File (Text "services: new") ]}.

(** A machine on which not even the parent of the installation directory
    exists. *)
Definition bare_disk : state :=
  Scenario.machine {[ "Temp" := Dir ∅ ]}.




(** A machine and a world on which the whole workflow can run: an
    elevated process, both prerequisites present, the project archive
    well-formed and fetched, room for the scratch directory, the
    installation directory and the generated files. *)
Definition prepared (w : world) (s : state) (members : list (string * string))
    (r : string) (children : gmap string node) : Prop :=
  elevated w
  ∧ OpenKey w DOCKER_KEY = KeyOpened
  ∧ exits_zero w ["conda"; "--version"]
  ∧ (∃ hooks, retrieve w PROJECT_ZIP_URL = Fetched hooks (Zip members))
  ∧ FS.isdir (gettempdir w) (fs s) = true
  ∧ FS.pathexists (scratch_dir w) (fs s) = false
  ∧ diverge (scratch_dir w) (INSTALL_DIR w)
  ∧ creatable (INSTALL_DIR w) (fs s)
  ∧ single_root members r children
  ∧ r ≠ ZIP_NAME
  ∧ components (top_dir members) = [r]
  ∧ is_Some (environ s !! "USERPROFILE")
  ∧ (∀ d, (children ∪ entries_at (INSTALL_DIR w) (fs s)) !! "start_api.bat"
          ≠ Some (Dir d))
  ∧ (∀ d, (children ∪ entries_at (INSTALL_DIR w) (fs s)) !! "stop_api.bat"
          ≠ Some (Dir d))
  ∧ diverge (scratch_dir w) (shortcut_vbs w)
  ∧ diverge (INSTALL_DIR w) (shortcut_vbs w)
  ∧ FS.isdir (shortcut_vbs w) (fs s) = false
  ∧ exits w ["cscript"; "/nologo"; path_str (shortcut_vbs w)]
  ∧ exits w ["start"; "http://localhost:8000"].

(** ** Vocabulary of the further properties *)

(** The commands of the child processes started, in order. *)
Fixpoint commands (l : list event) : list (list string) :=
  match l with
  | [] => []
  | Run argv _ :: r => argv :: commands r
  | _ :: r => commands r
  end.

(** A network on which every transfer breaks half way. *)
Definition flaky : world := {|
  IsUserAnAdmin := Some 1%Z;
  sys_executable := "C:\Python311\python.exe";
  sys_argv := ["installer.py"];
  OpenKey := λ _, KeyOpened;
  retrieve := λ _, Broken [(0, 8192, 10000); (1, 8192, 10000)]%Z (Text "PK")
                     (OSError "retrieval incomplete");
  child := λ _, Scenario.exit_with 0;
  operator := λ _, EmptyString;
  gettempdir := ["Temp"];
  mkdtemp_name := "tmp8k2";
  PROGRAMDATA := ["ProgramData"];
|}.

(** The value [install_miniconda] gives PATH: the two Miniconda
    directories below the home directory, then the old value. *)
Definition conda_path (home old : string) : string :=
  join_text home "Miniconda3" +:+ ";" +:+
  join_text (join_text home "Miniconda3") "Scripts" +:+ ";" +:+ old.

(** A machine whose process environment lacks USERPROFILE. *)
Definition homeless : state := {|
  fs := Dir {[ "Temp" := Dir ∅; "ProgramData" := Dir ∅ ]};
  environ := {[ "PATH" := "C:\Windows" ]};
  cwd := [];
  trace := [];
|}.

(** [needle] occurs somewhere in [hay]. *)
Definition occurs_in (needle hay : string) : Prop :=
  ∃ pre post, hay = pre +:+ needle +:+ post.

(** A machine on which the environment manager lists an environment
    whose name only contains the project's. *)
Definition with_similar_environment : world := {|
  IsUserAnAdmin := Some 1%Z;
  sys_executable := "C:\Python311\python.exe";
  sys_argv := ["installer.py"];
  OpenKey := λ _, KeyOpened;
  retrieve := λ _, Refused (OSError "unreachable");
  child := λ argv,
    match argv with
    | ["conda"; "env"; "list"] =>
        Exited {| returncode := 0;
                  stdout := "base  C:\mc  code_execution_api_backup  C:\mc\envs\b";
                  stderr := EmptyString |}
    | _ => Scenario.exit_with 1
    end;
  operator := λ _, EmptyString;
  gettempdir := ["Temp"];
  mkdtemp_name := "tmp8k2";
  PROGRAMDATA := ["ProgramData"];
|}.

(** The files of the Launcher Script Generator, and the shortcut it
    announces. *)
Definition start_script (w : world) : path := INSTALL_DIR w ++ ["start_api.bat"].
Definition stop_script (w : world) : path := INSTALL_DIR w ++ ["stop_api.bat"].
Definition shortcut_path (home : string) : string :=
  join_text (join_text home "Desktop") "Code Execution API.lnk".
Definition cscript_command (w : world) : list string :=
  ["cscript"; "/nologo"; path_str (shortcut_vbs w)].

(** A machine on which the installation directory exists and is empty. *)
Definition installed_empty : gmap string node :=
  {[ "Temp" := Dir ∅; "ProgramData" := Dir {[ "CodeExecutionAPI" := Dir ∅ ]} ]}.

(** A machine without the Windows script host. *)
Definition no_script_host : world := {|
  IsUserAnAdmin := Some 1%Z;
  sys_executable := "C:\Python311\python.exe";
  sys_argv := ["installer.py"];
  OpenKey := λ _, KeyOpened;
  retrieve := λ _, Refused (OSError "unreachable");
  child := λ argv,
    match argv with
    | "cscript" :: _ => NotStarted "The system cannot find the file specified"
    | _ => Scenario.exit_with 0
    end;
  operator := λ _, EmptyString;
  gettempdir := ["Temp"];
  mkdtemp_name := "tmp8k2";
  PROGRAMDATA := ["ProgramData"];
|}.

(** The events that only talk to the operator. *)
Definition console (e : event) : Prop :=
  match e with
  | Print _ | Write _ | WriteBar _ _ | Input _ => True
  | _ => False
  end.

Definition conda_version : list string := ["conda"; "--version"].
Definition browser_command : list string := ["start"; "http://localhost:8000"].
Definition BROWSER_PROMPT : string :=
  "Would you like to open the API in your browser now? (y/n): ".

(** The operator's answer opens the browser. *)
Definition says_yes (w : world) : Prop :=
  Str.lower (operator w BROWSER_PROMPT) = "y".

(** What the workflow asks of the outside world.  The steps that always
    run ask for the version of the environment manager, the project
    archive, and the commands of the provisioner, the script generator
    and the activator. *)
Definition routine (w : world) : list event :=
  [Run conda_version true;
   Fetch PROJECT_ZIP_URL (scratch_dir w ++ [ZIP_NAME]);
   Run conda_env_list true; Run (conda_env_update w) true;
   Run conda_create true; Run (conda_pip_install w) true;
   Run (cscript_command w) false;
   Run compose_build true; Run compose_up true].

(** The two remediations fetch and run an installer each. *)
Definition docker_setup (w : world) : list event :=
  [Fetch DOCKER_INSTALLER_URL (docker_installer w); Run (docker_command w) false].
Definition miniconda_setup (w : world) : list event :=
  [Fetch MINICONDA_INSTALLER_URL (miniconda_installer w);
   Run (miniconda_command w) false].

(** The request for an elevated copy of the process. *)
Definition elevation (w : world) : event :=
  ShellExecute "runas" (sys_executable w) (Str.join " " (sys_argv w)).

(** Everything the script may do besides talking to the operator. *)
Definition allowed (w : world) (e : event) : Prop :=
  console e ∨ e = elevation w ∨ e ∈ routine w ∨ e ∈ docker_setup w
  ∨ e ∈ miniconda_setup w ∨ e = Run browser_command true.


(** What [download_and_extract_project] does once the download has
    succeeded and the installation directory is there: open the archive,
    extract it, move the entries into place, clean up. *)
Definition unpack_and_place (w : world) (temp_dir : path) : M bool :=
  bind (ZipFile_open (temp_dir ++ [ZIP_NAME])) (λ members,
  bind (fs_call "extractall" (ZipFile.extractall temp_dir members)) (λ _,
  bind (os_listdir (temp_dir ++ components (top_dir members))) (λ items,
  bind (for_each items (place w (temp_dir ++ components (top_dir members)))) (λ _,
  bind (fs_call "rmtree" (FS.rmtree temp_dir)) (λ _,
  bind (print "Project files extracted successfully!") (λ _,
  ret true)))))).


(** An event that is no request to the shell. *)
Definition no_shell_request (e : event) : Prop :=
  ∀ verb file params, e ≠ ShellExecute verb file params.

(** A machine without Docker on which the downloaded installer cannot
    be started. *)
Definition blocked_installer : world := {|
  IsUserAnAdmin := Some 1%Z;
  sys_executable := "C:\Python311\python.exe";
  sys_argv := ["installer.py"];
  OpenKey := λ _, KeyAbsent;
  retrieve := λ _, Fetched [] (Text "MZ");
  child := λ argv,
    match argv with
    | [_; "install"; "--quiet"] => NotStarted "Access is denied"
    | _ => Scenario.exit_with 0
    end;
  operator := λ _, EmptyString;
  gettempdir := ["Temp"];
  mkdtemp_name := "tmp8k2";
  PROGRAMDATA := ["ProgramData"];
|}.

(** A process started without elevation, with the given command line. *)
Definition launched_with (argv : list string) : world := {|
  IsUserAnAdmin := Some 0%Z;
  sys_executable := "C:\Python311\python.exe";
  sys_argv := argv;
  OpenKey := λ _, KeyOpened;
  retrieve := λ _, Refused (OSError "unreachable");
  child := λ _, Scenario.exit_with 0;
  operator := λ _, EmptyString;
  gettempdir := ["Temp"];
  mkdtemp_name := "tmp8k2";
  PROGRAMDATA := ["ProgramData"];
|}.



(** * Properties *)

(** ** The model at work *)

Example resolve_demo :
  FS.resolve ["ProgramData"; "CodeExecutionAPI"; "notes.txt"] (fs Scenario.stale)
  = Some (File (Text "mine")).
Proof. reflexivity. Qed.

Example makedirs_demo :
  (n ← FS.makedirs ["ProgramData"; "x"; "y"] (fs Scenario.fresh);
   FS.resolve ["ProgramData"; "x"] n)
  = Some (Dir {[ "y" := Dir ∅ ]}).
Proof. vm_compute. reflexivity. Qed.

Example components_demo : components "app-main/src/" = ["app-main"; "src"].
Proof. vm_compute. reflexivity. Qed.

(** [os.path.commonprefix] works on characters, not on path components. *)
Example commonprefix_demo :
  Str.commonprefix ["app-main/src/"; "app-main/static/"] = "app-main/s".
Proof. reflexivity. Qed.

Example commonprefix_empty : Str.commonprefix [] = EmptyString.
Proof. reflexivity. Qed.

Example print_header_demo :
  trace (print_header "Hi" Scenario.fresh).2
  = [Print (LF +:+ "======"); Print "  Hi"; Print ("======" +:+ LF)].
Proof. reflexivity. Qed.

(** A last block that overshoots: 16384 of 10000 bytes is reported as
    163.84 percent, with a bar of 81 marks. *)
Example report_progress_overshoot :
  trace (report_progress 2 8192 10000 Scenario.fresh).2
  = [WriteBar (CR +:+ "[" +:+ Str.repeat "#"%char 81 +:+ "]") (1638400 # 10000);
     Write LF].
Proof. reflexivity. Qed.

(** ** Running computations *)

Lemma bind_unfold {A B} (m : M A) (f : A → M B) (s : state) :
  bind m f s = match m s with
               | (Ok a, s') => f a s'
               | (Raise e, s') => (Raise e, s')
               end.
Proof. reflexivity. Qed.

Lemma bind_returns {A B} (m : M A) (f : A → M B) s a s' :
  m s = (Ok a, s') → bind m f s = f a s'.
Proof. intros H. unfold bind. by rewrite H. Qed.

Lemma bind_raises {A B} (m : M A) (f : A → M B) s e s' :
  m s = (Raise e, s') → bind m f s = (Raise e, s').
Proof. intros H. unfold bind. by rewrite H. Qed.

Lemma fs_call_returns what f s n :
  f (fs s) = Some n → fs_call what f s = (Ok tt, set_fs n s).
Proof. intros H. unfold fs_call. by rewrite H. Qed.

Lemma fs_call_raises what f s :
  f (fs s) = None → fs_call what f s = (Raise (Exc (OSError what)), s).
Proof. intros H. unfold fs_call. by rewrite H. Qed.

Lemma try_returns {A E} (m : M A) (clause : raised → option E) h s a s' :
  m s = (Ok a, s') → try_except m clause h s = (Ok a, s').
Proof. intros H. unfold try_except. by rewrite H. Qed.

Lemma try_catches {A E} (m : M A) (clause : raised → option E) h s e x s1 r :
  m s = (Raise e, s1) → clause e = Some x → h x s1 = r →
  try_except m clause h s = r.
Proof. intros H Hc Hh. unfold try_except. by rewrite H, Hc. Qed.


Lemma bind_then {A B} (m : M A) (f : A → M B) s a s1 r :
  m s = (Ok a, s1) → f a s1 = r → bind m f s = r.
Proof. intros H <-. by apply bind_returns. Qed.

Lemma bind_Ok_inv {A B} (m : M A) (f : A → M B) s b s' :
  bind m f s = (Ok b, s') → ∃ a s1, m s = (Ok a, s1) ∧ f a s1 = (Ok b, s').
Proof.
  unfold bind. destruct (m s) as [[a|e] s1]; [eauto|done].
Qed.

(** Run the next call of a sequence that returns. *)
Ltac run_ok := eapply bind_then; [try reflexivity|].
(** Run a call that raises and ends the sequence. *)
Ltac run_raise := eapply bind_raises; try reflexivity.

(** ** The progress hook *)




(** The hook only writes to the console: it always returns and leaves the
    filesystem, the environment and the working directory alone. *)
Lemma report_progress_returns (blocknum blocksize totalsize : Z) (s : state) :
  ∃ new, report_progress blocknum blocksize totalsize s
         = (Ok tt, {| fs := fs s; environ := environ s; cwd := cwd s;
                      trace := trace s ++ new |}).
Proof.
  unfold report_progress, bind, emit, ret, log.
  destruct (0 <? totalsize)%Z; [destruct (totalsize <=? _)%Z|]; simpl.
  - eexists. by rewrite <- app_assoc.
  - by eexists.
  - by eexists.
Qed.

Lemma report_hooks_return (hooks : list hook_call) (s : state) :
  ∃ new, for_each hooks (λ h, report_progress h.1.1 h.1.2 h.2) s
         = (Ok tt, {| fs := fs s; environ := environ s; cwd := cwd s;
                      trace := trace s ++ new |}).
Proof.
  revert s. induction hooks as [|h hooks IH]; intros s; simpl.
  - exists []. unfold ret. rewrite app_nil_r. by destruct s.
  - destruct (report_progress_returns h.1.1 h.1.2 h.2 s) as [n1 H1].
    rewrite (bind_returns _ _ _ _ _ H1).
    destruct (IH {| fs := fs s; environ := environ s; cwd := cwd s;
                    trace := trace s ++ n1 |}) as [n2 H2].
    rewrite H2. simpl. exists (n1 ++ n2). by rewrite app_assoc.
Qed.

(** ** What a computation may print *)

Section Emits.

Context (P : event → Prop).

Lemma emits_ret {A} (a : A) : emits_only P (ret a).
Proof. intros s. exists []. by rewrite app_nil_r. Qed.

Lemma emits_raise {A} (e : raised) : emits_only P (raise (A := A) e).
Proof. intros s. exists []. by rewrite app_nil_r. Qed.

Lemma emits_emit (e : event) : P e → emits_only P (emit e).
Proof. intros H s. exists [e]. split; [done|]. by constructor. Qed.

Lemma emits_bind {A B} (m : M A) (f : A → M B) :
  emits_only P m → (∀ a, emits_only P (f a)) → emits_only P (bind m f).
Proof.
  intros Hm Hf s. unfold bind. destruct (Hm s) as (n1 & E1 & F1).
  destruct (m s) as [[a|e] s1]; simpl in *.
  - destruct (Hf a s1) as (n2 & E2 & F2). exists (n1 ++ n2).
    rewrite E2, E1, app_assoc. split; [done|]. by apply Forall_app.
  - by exists n1.
Qed.

Lemma emits_try {A E} (m : M A) (clause : raised → option E) (h : E → M A) :
  emits_only P m → (∀ x, emits_only P (h x)) → emits_only P (try_except m clause h).
Proof.
  intros Hm Hh s. unfold try_except. destruct (Hm s) as (n1 & E1 & F1).
  destruct (m s) as [[a|e] s1]; simpl in *.
  - by exists n1.
  - destruct (clause e) as [x|]; simpl.
    + destruct (Hh x s1) as (n2 & E2 & F2). exists (n1 ++ n2).
      rewrite E2, E1, app_assoc. split; [done|]. by apply Forall_app.
    + by exists n1.
Qed.

Lemma emits_for_each {A} (l : list A) (body : A → M unit) :
  (∀ x, emits_only P (body x)) → emits_only P (for_each l body).
Proof.
  intros Hb. induction l as [|x l IH]; simpl.
  - apply emits_ret.
  - apply emits_bind; [apply Hb | intros _; apply IH].
Qed.

Lemma emits_silent {A} (m : M A) :
  (∀ s, trace (m s).2 = trace s) → emits_only P m.
Proof. intros H s. exists []. by rewrite H, app_nil_r. Qed.

Lemma emits_fs_call what f : emits_only P (fs_call what f).
Proof. apply emits_silent. intros s. unfold fs_call. by destruct (f (fs s)). Qed.

Lemma emits_get_fs : emits_only P get_fs.
Proof. by apply emits_silent. Qed.

End Emits.

Lemma emits_weaken {A} (P Q : event → Prop) (m : M A) :
  (∀ e, P e → Q e) → emits_only P m → emits_only Q m.
Proof.
  intros HPQ Hm s. destruct (Hm s) as (new & E & F). exists new.
  split; [done|]. eapply Forall_impl; eauto.
Qed.

(** Decompose a goal [emits_only P m] along the structure of [m]; what is
    left are the obligations [P e] for the events [m] can emit. *)
Ltac emits_step :=
  lazymatch goal with
  | |- emits_only _ (bind _ _) => apply emits_bind; [|intros ?]
  | |- emits_only _ (ret _) => apply emits_ret
  | |- emits_only _ (raise _) => apply emits_raise
  | |- emits_only _ (emit _) => apply emits_emit
  | |- emits_only _ (fs_call _ _) => apply emits_fs_call
  | |- emits_only _ get_fs => apply emits_get_fs
  | |- emits_only _ (try_except _ _ _) => apply emits_try; [|intros ?]
  | |- emits_only _ (for_each _ _) => apply emits_for_each; intros ?
  | |- emits_only _ (if ?b then _ else _) => destruct b
  | |- emits_only _ (match ?x with _ => _ end) => destruct x
  end.

Ltac emits := repeat emits_step.

Section EmitsPrimitives.

Context (w : world) (P : event → Prop).

Lemma emits_print s : P (Print s) → emits_only P (print s).
Proof. apply emits_emit. Qed.

Lemma emits_input prompt : P (Input prompt) → emits_only P (input w prompt).
Proof. intros H. unfold input. emits. done. Qed.

Lemma emits_subprocess_run argv shell :
  P (Run argv shell) → emits_only P (subprocess_run w argv shell).
Proof. intros H. unfold subprocess_run. emits. done. Qed.

Lemma emits_os_environ_get key : emits_only P (os_environ_get key).
Proof.
  apply emits_silent. intros s. unfold os_environ_get. by destruct (_ !! _).
Qed.

Lemma emits_os_environ_set key value : emits_only P (os_environ_set key value).
Proof. by apply emits_silent. Qed.

Lemma emits_os_chdir p : emits_only P (os_chdir p).
Proof. apply emits_silent. intros s. unfold os_chdir. by destruct (FS.isdir _ _). Qed.

Lemma emits_os_listdir p : emits_only P (os_listdir p).
Proof. apply emits_silent. intros s. unfold os_listdir. by destruct (FS.listdir _ _). Qed.

Lemma emits_os_path_exists p : emits_only P (os_path_exists p).
Proof. by apply emits_silent. Qed.

Lemma emits_os_path_isdir p : emits_only P (os_path_isdir p).
Proof. by apply emits_silent. Qed.

Lemma emits_write_text p text : emits_only P (write_text p text).
Proof. apply emits_fs_call. Qed.

Lemma emits_mkdtemp : emits_only P (mkdtemp w).
Proof. unfold mkdtemp. emits. Qed.

Lemma emits_ZipFile_open p : emits_only P (ZipFile_open p).
Proof.
  apply emits_silent. intros s. unfold ZipFile_open.
  by destruct (FS.resolve p (fs s)) as [[[]|]|].
Qed.

Lemma emits_shell32_IsUserAnAdmin : emits_only P (shell32_IsUserAnAdmin w).
Proof. unfold shell32_IsUserAnAdmin. emits. Qed.

Lemma emits_winreg_OpenKey key : emits_only P (winreg_OpenKey w key).
Proof. unfold winreg_OpenKey. emits. Qed.

End EmitsPrimitives.

Ltac emits_call :=
  lazymatch goal with
  | |- emits_only _ (print _) => apply emits_print
  | |- emits_only _ (input _ _) => apply emits_input
  | |- emits_only _ (subprocess_run _ _ _) => apply emits_subprocess_run
  | |- emits_only _ (os_environ_get _) => apply emits_os_environ_get
  | |- emits_only _ (os_environ_set _ _) => apply emits_os_environ_set
  | |- emits_only _ (os_chdir _) => apply emits_os_chdir
  | |- emits_only _ (os_listdir _) => apply emits_os_listdir
  | |- emits_only _ (os_path_exists _) => apply emits_os_path_exists
  | |- emits_only _ (os_path_isdir _) => apply emits_os_path_isdir
  | |- emits_only _ (write_text _ _) => apply emits_write_text
  | |- emits_only _ (mkdtemp _) => apply emits_mkdtemp
  | |- emits_only _ (ZipFile_open _) => apply emits_ZipFile_open
  | |- emits_only _ (shell32_IsUserAnAdmin _) => apply emits_shell32_IsUserAnAdmin
  | |- emits_only _ (winreg_OpenKey _ _) => apply emits_winreg_OpenKey
  | |- _ => emits_step
  end.

Ltac emits_all := repeat emits_call.

(** No later step's mark is one of the messages below. *)
Ltac not_later_step :=
  lazymatch goal with
  | |- quiet _ =>
      unfold quiet, later_step, provisioner_mark, script_generator_mark,
        activator_mark, complete_mark;
      let H := fresh in
      intros H; repeat (destruct H as [H|H]);
      first [discriminate H | cbn in H; discriminate H]
  end.

Section Quiet.

Context (w : world).

Lemma print_header_emits P message :
  (∀ s, P (Print s)) → emits_only P (print_header message).
Proof. intros H. unfold print_header. emits_all; apply H. Qed.

Lemma report_progress_emits P blocknum blocksize totalsize :
  (∀ s, P (Write s)) → (∀ bar q, P (WriteBar bar q)) →
  emits_only P (report_progress blocknum blocksize totalsize).
Proof. intros H1 H2. unfold report_progress. emits_all; auto. Qed.

Lemma print_header_quiet message :
  quiet (Print ("  " +:+ message)) → emits_only quiet (print_header message).
Proof.
  intros H. unfold print_header.
  replace (String.length message + 4) with (S (String.length message + 3)) by lia.
  emits_all; [not_later_step | exact H | not_later_step].
Qed.

Lemma download_file_quiet url dest : emits_only quiet (download_file w url dest).
Proof.
  unfold download_file, urlretrieve.
  emits_all; try (apply report_progress_emits; intros); try not_later_step.
Qed.

Lemma is_admin_quiet : emits_only quiet (is_admin w).
Proof. unfold is_admin. emits_all. Qed.

Lemma restart_as_admin_quiet : emits_only quiet (restart_as_admin w).
Proof. unfold restart_as_admin. emits_all. not_later_step. Qed.

Lemma check_docker_installed_quiet : emits_only quiet (check_docker_installed w).
Proof. unfold check_docker_installed. emits_all. Qed.

Lemma check_conda_installed_quiet : emits_only quiet (check_conda_installed w).
Proof. unfold check_conda_installed. emits_all. not_later_step. Qed.

Lemma install_docker_quiet : emits_only quiet (install_docker w).
Proof.
  unfold install_docker.
  emits_all;
    first [apply print_header_quiet | apply download_file_quiet | idtac];
    not_later_step.
Qed.

Lemma install_miniconda_quiet : emits_only quiet (install_miniconda w).
Proof.
  unfold install_miniconda.
  emits_all;
    first [apply print_header_quiet | apply download_file_quiet | idtac];
    not_later_step.
Qed.

Lemma download_and_extract_project_quiet :
  emits_only quiet (download_and_extract_project w).
Proof.
  unfold download_and_extract_project.
  emits_all;
    first [apply print_header_quiet | apply download_file_quiet | idtac];
    not_later_step.
Qed.

End Quiet.

(** ** The filesystem tree *)

Section Tree.

Implicit Types (p q : path) (n : node) (m : gmap string node) (c : string).

Lemma resolve_app p q n :
  FS.resolve (p ++ q) n = FS.resolve p n ≫= FS.resolve q.
Proof.
  revert n. induction p as [|c p IH]; intros n; simpl; [done|].
  destruct n as [?|m]; [done|]. destruct (m !! c) as [x|]; simpl; [apply IH|done].
Qed.

Lemma resolve_snoc p c n m :
  FS.resolve p n = Some (Dir m) → FS.resolve (p ++ [c]) n = m !! c.
Proof.
  intros H. rewrite resolve_app, H. simpl. by destruct (m !! c).
Qed.

(** Whatever lies above an existing entry is a directory. *)
Lemma resolve_app_isdir p q n x :
  q ≠ [] → FS.resolve (p ++ q) n = Some x → FS.isdir p n = true.
Proof.
  intros Hq. rewrite resolve_app. unfold FS.isdir.
  destruct (FS.resolve p n) as [[?|m]|]; simpl; try done.
  by destruct q.
Qed.

Lemma isdir_resolve p n :
  FS.isdir p n = true → ∃ m, FS.resolve p n = Some (Dir m).
Proof.
  unfold FS.isdir. destruct (FS.resolve p n) as [[?|m]|]; try done. by exists m.
Qed.

Lemma resolve_isdir p n m : FS.resolve p n = Some (Dir m) → FS.isdir p n = true.
Proof. unfold FS.isdir. by intros ->. Qed.

Lemma diverge_sym p q : diverge p q → diverge q p.
Proof.
  revert q. induction p as [|a p IH]; intros [|b q]; simpl; try done.
  intros [H|[-> H]]; [left; congruence | right; auto].
Qed.

Lemma diverge_app p q x y : diverge p q → diverge (p ++ x) (q ++ y).
Proof.
  revert q. induction p as [|a p IH]; intros [|b q]; simpl; try done.
  intros [H|[-> H]]; [by left | right; auto].
Qed.

Lemma diverge_snoc p c q : diverge p q → diverge (p ++ [c]) q.
Proof. intros H. rewrite <- (app_nil_r q). by apply diverge_app. Qed.

Lemma store_cons a p v m :
  p ≠ [] →
  FS.store (a :: p) v (Dir m)
  = child ← m !! a; child' ← FS.store p v child; Some (Dir (<[a := child']> m)).
Proof. by destruct p. Qed.

(** Storing at [p ++ [c]] rewrites one entry of the directory at [p]. *)
Lemma store_snoc p c v n m :
  FS.resolve p n = Some (Dir m) →
  ∃ n', FS.store (p ++ [c]) v n = Some n'
        ∧ FS.resolve p n' = Some (Dir (partial_alter (λ _, v) c m)).
Proof.
  revert n. induction p as [|a p IH]; intros n H.
  - simpl in *. injection H as ->. eauto.
  - destruct n as [?|m0]; [done|]. simpl in H.
    destruct (m0 !! a) as [x|] eqn:Ha; simpl in H; [|done].
    destruct (IH x H) as (x' & Hs & Hr).
    rewrite <- app_comm_cons, store_cons by (by destruct p).
    rewrite Ha. simpl. rewrite Hs. simpl. eexists. split; [done|].
    simpl. by rewrite lookup_insert_eq.
Qed.

(** Storing leaves every diverging path alone. *)
Lemma store_frame p q v n n' :
  FS.store p v n = Some n' → diverge p q → FS.resolve q n' = FS.resolve q n.
Proof.
  revert q n n'. induction p as [|a p IH]; intros [|b q] n n' Hs Hd;
    simpl in Hd; try done.
  destruct n as [?|m]; [done|].
  destruct (decide (p = [])) as [->|Hp].
  - simpl in Hs. injection Hs as <-.
    destruct Hd as [Hne|[_ Hd]]; [|by destruct q].
    simpl. by rewrite lookup_partial_alter_ne.
  - rewrite store_cons in Hs by done.
    apply bind_Some in Hs as (x & Ha & Hs).
    apply bind_Some in Hs as (x' & Hx & Hs). injection Hs as <-.
    destruct Hd as [Hne|[<- Hd]]; simpl.
    + by rewrite lookup_insert_ne.
    + rewrite lookup_insert_eq, Ha. simpl. eapply IH; eauto.
Qed.

Lemma mkdir_snoc p c n m :
  FS.resolve p n = Some (Dir m) → m !! c = None →
  ∃ n', FS.mkdir (p ++ [c]) n = Some n'
        ∧ FS.resolve p n' = Some (Dir (<[c := Dir ∅]> m)).
Proof.
  intros Hp Hc. unfold FS.mkdir, FS.pathexists.
  rewrite (resolve_snoc _ _ _ _ Hp), Hc.
  apply (store_snoc _ c (Some (Dir ∅))) in Hp. done.
Qed.

Lemma write_file_snoc p c body n m :
  FS.resolve p n = Some (Dir m) → (∀ d, m !! c ≠ Some (Dir d)) →
  ∃ n', FS.write_file (p ++ [c]) body n = Some n'
        ∧ FS.resolve p n' = Some (Dir (<[c := File body]> m)).
Proof.
  intros Hp Hc. unfold FS.write_file, FS.isdir.
  rewrite (resolve_snoc _ _ _ _ Hp).
  apply (store_snoc _ c (Some (File body))) in Hp.
  destruct (m !! c) as [[?|d]|] eqn:E; try done. by destruct (Hc d).
Qed.

End Tree.

(** ** The fetcher *)

Lemma same_process_refl s : same_process s s.
Proof. done. Qed.

Lemma same_process_trans s1 s2 s3 :
  same_process s1 s2 → same_process s2 s3 → same_process s1 s3.
Proof. intros [? ?] [? ?]. split; congruence. Qed.

(** What [download_file] does, by outcome of the transfer. *)
Lemma download_file_runs (w : world) (url : string) (dest : path) (s : state) :
  ∃ s', same_process s s' ∧
    match retrieve w url with
    | Fetched hooks body =>
        match FS.write_file dest body (fs s) with
        | Some n => download_file w url dest s = (Ok true, s') ∧ fs s' = n
        | None => download_file w url dest s = (Ok false, s') ∧ fs s' = fs s
        end
    | Refused _ => download_file w url dest s = (Ok false, s') ∧ fs s' = fs s
    | Broken hooks partial _ =>
        download_file w url dest s = (Ok false, s')
        ∧ fs s' = default (fs s) (FS.write_file dest partial (fs s))
    end.
Proof.
  unfold download_file, urlretrieve, print.
  destruct (retrieve w url) as [hooks body|err|hooks partial err].
  - destruct (FS.write_file dest body (fs s)) as [n|] eqn:Hw.
    + destruct (report_hooks_return hooks
        (set_fs n (log (Fetch url dest)
           (log (Print ("Downloading from " +:+ url +:+ "...")) s))))
        as [new Hh].
      eexists. split; [|split].
      2:{ run_ok. eapply try_returns. run_ok. run_ok.
          { eapply bind_then; [by apply fs_call_returns | exact Hh]. }
          run_ok. reflexivity. }
      all: done.
    + eexists. split; [|split].
      2:{ run_ok. eapply try_catches;
            [ run_raise; run_ok; run_raise; by apply fs_call_raises
            | reflexivity
            | run_ok; reflexivity ]. }
      all: done.
  - eexists. split; [|split].
    2:{ run_ok. eapply try_catches;
          [ run_raise; run_ok; reflexivity | reflexivity | run_ok; reflexivity ]. }
    all: done.
  - destruct (FS.write_file dest partial (fs s)) as [n|] eqn:Hw.
    + destruct (report_hooks_return hooks
        (set_fs n (log (Fetch url dest)
           (log (Print ("Downloading from " +:+ url +:+ "...")) s))))
        as [new Hh].
      eexists. split; [|split].
      2:{ run_ok. eapply try_catches;
            [ run_raise; run_ok; eapply bind_then;
              [by apply fs_call_returns|];
              eapply bind_then; [exact Hh|reflexivity]
            | reflexivity
            | run_ok; reflexivity ]. }
      all: done.
    + eexists. split; [|split].
      2:{ run_ok. eapply try_catches;
            [ run_raise; run_ok; run_raise; by apply fs_call_raises
            | reflexivity
            | run_ok; reflexivity ]. }
      all: done.
Qed.

Lemma download_file_result (w : world) (url : string) (dest : path) (s : state) :
  ∃ b s', download_file w url dest s = (Ok b, s')
          ∧ same_process s s'
          ∧ (b = true ↔ fetch_succeeds w url dest (fs s)).
Proof.
  destruct (download_file_runs w url dest s) as (s' & Hp & H).
  unfold fetch_succeeds.
  destruct (retrieve w url) as [hooks body|err|hooks partial err] eqn:Hr.
  - destruct (FS.write_file dest body (fs s)) as [n|] eqn:Hw; destruct H as [H _].
    + exists true, s'. do 2 (split; [done|]). split; [|done]. intros _.
      exists hooks, body. by rewrite Hw.
    + exists false, s'. do 2 (split; [done|]). split; [done|].
      intros (h & b & [= <- <-] & [x Hx]). congruence.
  - destruct H as [H _]. exists false, s'. do 2 (split; [done|]). split; [done|].
    by intros (h & b & ? & _).
  - destruct H as [H _]. exists false, s'. do 2 (split; [done|]). split; [done|].
    by intros (h & b & ? & _).
Qed.

Lemma download_file_true (w : world) (url : string) (dest : path) (s : state) :
  fetch_succeeds w url dest (fs s) →
  ∃ s', download_file w url dest s = (Ok true, s') ∧ same_process s s'.
Proof.
  intros Hf. destruct (download_file_result w url dest s) as (b & s' & H & Hp & Hb).
  exists s'. apply Hb in Hf as ->. done.
Qed.



(** C5: [download_file] always returns a boolean, never an exception, and
    the boolean is [True] exactly when the transfer completed and the
    destination was written: every network, protocol or filesystem failure
    of the transfer gives [False]. *)
Theorem download_file_never_raises (w : world) (url : string) (dest : path)
    (s : state) :
  ∃ b s', download_file w url dest s = (Ok b, s')
          ∧ (b = true ↔ fetch_succeeds w url dest (fs s)).
Proof.
  destruct (download_file_result w url dest s) as (b & s' & H & _ & Hb).
  by exists b, s'.
Qed.

(** ** Prerequisite probes *)

Lemma check_docker_installed_runs (w : world) (s : state) :
  check_docker_installed w s
  = (Ok (match OpenKey w DOCKER_KEY with KeyOpened => true | _ => false end), s).
Proof.
  unfold check_docker_installed, try_except, bind, winreg_OpenKey.
  by destruct (OpenKey w DOCKER_KEY).
Qed.

Lemma check_conda_installed_runs (w : world) (s : state) :
  check_conda_installed w s
  = (Ok (match child w ["conda"; "--version"] with
         | Exited r => (returncode r =? 0)%Z
         | NotStarted _ => false
         end),
     log (Run ["conda"; "--version"] true) s).
Proof.
  unfold check_conda_installed, try_except, bind, subprocess_run, bind, emit.
  by destruct (child w ["conda"; "--version"]).
Qed.

(** C6: both probes always return a boolean and never raise; they answer
    [True] only when the lookup itself succeeded (the registry key opened,
    the version query ran and exited with status zero), so a failing
    lookup is reported as not installed. *)
Theorem probes_fail_closed (w : world) (s : state) :
  (∃ b, check_docker_installed w s = (Ok b, s)
        ∧ (b = true ↔ OpenKey w DOCKER_KEY = KeyOpened))
  ∧ (∃ b, check_conda_installed w s
          = (Ok b, log (Run ["conda"; "--version"] true) s)
          ∧ (b = true ↔ ∃ r, child w ["conda"; "--version"] = Exited r
                             ∧ returncode r = 0%Z)).
Proof.
  split.
  - eexists. split; [apply check_docker_installed_runs|].
    by destruct (OpenKey w DOCKER_KEY).
  - eexists. split; [apply check_conda_installed_runs|].
    destruct (child w ["conda"; "--version"]) as [r|msg].
    + rewrite Z.eqb_eq. split; [eauto|]. by intros (r' & [= <-] & ?).
    + split; [done|]. by intros (r' & ? & _).
Qed.

(** ** Privilege gate *)



(** ** Materialization: the failing fetch *)

Section FetchFailure.

Context (w : world).
Hypothesis Hfail : transfer_fails w PROJECT_ZIP_URL.

Lemma failed_download_returns_false dest s :
  ∃ s', download_file w PROJECT_ZIP_URL dest s = (Ok false, s')
        ∧ same_process s s'
        ∧ (fs s' = fs s ∨ ∃ partial, FS.write_file dest partial (fs s) = Some (fs s')).
Proof.
  destruct (download_file_runs w PROJECT_ZIP_URL dest s) as (s' & Hp & H).
  unfold transfer_fails in Hfail.
  destruct (retrieve w PROJECT_ZIP_URL) as [|err|hooks partial err]; [done| |].
  - destruct H as [H1 H2]. eauto.
  - destruct H as [H1 H2]. exists s'. split; [done|]. split; [done|].
    destruct (FS.write_file dest partial (fs s)) eqn:Hw; simpl in H2; [|by left].
    right. exists partial. by rewrite H2.
Qed.

Lemma materialize_not_true s s' :
  download_and_extract_project w s ≠ (Ok true, s').
Proof.
  unfold download_and_extract_project. intros H.
  apply bind_Ok_inv in H as (? & s1 & _ & H).
  apply bind_Ok_inv in H as (temp_dir & s2 & _ & H).
  apply bind_Ok_inv in H as (ok & s3 & Hd & H).
  destruct (failed_download_returns_false
              (temp_dir ++ ["code-execution-api.zip"]) s2) as (s3' & Hd' & _).
  rewrite Hd' in Hd. injection Hd as <- <-. simpl in H.
  by apply bind_Ok_inv in H as (? & ? & _ & [=]).
Qed.

Lemma materialize_returns_false s m :
  FS.resolve (gettempdir w) (fs s) = Some (Dir m) →
  m !! mkdtemp_name w = None →
  ∃ s', download_and_extract_project w s = (Ok false, s').
Proof.
  intros HT Hfresh.
  destruct (mkdir_snoc _ (mkdtemp_name w) _ _ HT Hfresh) as (n1 & Hmk & Hn1).
  set (s1 := (print_header "Downloading and Extracting Project Files" s).2).
  destruct (failed_download_returns_false
              ((gettempdir w ++ [mkdtemp_name w]) ++ ["code-execution-api.zip"])
              (set_fs n1 s1)) as (s3 & Hd & _).
  unfold download_and_extract_project.
  eexists. eapply (bind_then _ _ _ tt s1); [reflexivity|]. eapply bind_then.
  { unfold mkdtemp. eapply bind_then; [|reflexivity].
    apply fs_call_returns. exact Hmk. }
  eapply bind_then; [exact Hd|]. simpl. run_ok. reflexivity.
Qed.

End FetchFailure.

Lemma emits_bind_when {A B} (P : event → Prop) (Q : A → Prop)
    (m : M A) (f : A → M B) :
  emits_only P m → (∀ s a s', m s = (Ok a, s') → Q a) →
  (∀ a, Q a → emits_only P (f a)) → emits_only P (bind m f).
Proof.
  intros Hm HQ Hf s. unfold bind. destruct (Hm s) as (n1 & E1 & F1).
  destruct (m s) as [[a|e] s1] eqn:Hms; simpl in *.
  - destruct (Hf a (HQ _ _ _ Hms) s1) as (n2 & E2 & F2). exists (n1 ++ n2).
    rewrite E2, E1, app_assoc. split; [done|]. by apply Forall_app.
  - by exists n1.
Qed.

Section Abort.

Context (w : world).
Hypothesis Hfail : transfer_fails w PROJECT_ZIP_URL.

Local Ltac emits_main :=
  lazymatch goal with
  | |- emits_only _ (bind (download_and_extract_project _) _) =>
      apply (emits_bind_when _ (λ b, b = false));
      [ apply download_and_extract_project_quiet
      | let s := fresh in let a := fresh in let s' := fresh in
        let H := fresh in
        intros s a s' H; destruct a; [by apply materialize_not_true in H|done]
      | intros ? ->; simpl ]
  | |- emits_only _ (is_admin _) => apply is_admin_quiet
  | |- emits_only _ (restart_as_admin _) => apply restart_as_admin_quiet
  | |- emits_only _ (check_docker_installed _) => apply check_docker_installed_quiet
  | |- emits_only _ (check_conda_installed _) => apply check_conda_installed_quiet
  | |- emits_only _ (install_docker _) => apply install_docker_quiet
  | |- emits_only _ (install_miniconda _) => apply install_miniconda_quiet
  | |- emits_only _ (print_header _) => apply print_header_quiet
  | |- _ => emits_call
  end.

Lemma main_quiet : emits_only quiet (main w).
Proof. unfold main. repeat emits_main; not_later_step. Qed.

Lemma script_quiet : emits_only quiet (script w).
Proof.
  unfold script. apply emits_try; [apply main_quiet|].
  intros e. emits_all; not_later_step.
Qed.

Lemma main_returns_by_abort s s' :
  main w s = (Ok tt, s') →
  ∃ before,
    trace s' = before ++
      [Print "Failed to download and extract project files. Aborting installation.";
       Input "Press Enter to exit..."].
Proof.
  unfold main. intros H.
  do 11 (apply bind_Ok_inv in H as (? & ? & _ & H)).
  apply bind_Ok_inv in H as (b & s1 & Hm & H).
  destruct b; [by apply materialize_not_true in Hm|].
  simpl in H. injection H as <-. exists (trace s1). simpl.
  by rewrite <- app_assoc.
Qed.

End Abort.

(** ** The marks of the later steps *)

Lemma emits_keeps {A} (P : event → Prop) (m : M A) (s : state) (e : event) :
  emits_only P m → e ∈ trace s → e ∈ trace (m s).2.
Proof.
  intros Hm He. destruct (Hm s) as (new & -> & _). apply elem_of_app. by left.
Qed.

Lemma print_header_marks (message : string) (s : state) :
  ∃ s', print_header message s = (Ok tt, s')
        ∧ Print ("  " +:+ message) ∈ trace s'.
Proof.
  eexists. split; [reflexivity|]. simpl. set_solver.
Qed.

Section Marks.

Context (w : world).

Lemma marked_step {A} (message : string) (rest : M A) (s : state) :
  emits_only anything rest →
  Print ("  " +:+ message) ∈ trace (bind (print_header message) (λ _, rest) s).2.
Proof.
  intros Hrest. destruct (print_header_marks message s) as (s1 & Hh & Hin).
  rewrite (bind_returns _ _ _ _ _ Hh). by apply (emits_keeps anything).
Qed.

Lemma create_conda_environment_marks (s : state) :
  provisioner_mark ∈ trace (create_conda_environment w s).2.
Proof.
  unfold create_conda_environment.
  apply (marked_step "Setting Up Python Environment"). emits_all; done.
Qed.

Lemma create_startup_scripts_marks (s : state) :
  script_generator_mark ∈ trace (create_startup_scripts w s).2.
Proof.
  unfold create_startup_scripts.
  apply (marked_step "Creating Startup Scripts"). emits_all; done.
Qed.

Lemma start_docker_services_marks (s : state) :
  activator_mark ∈ trace (start_docker_services w s).2.
Proof.
  unfold start_docker_services.
  apply (marked_step "Starting Services"). emits_all; done.
Qed.

End Marks.

(** C1: when the transfer of the project archive fails,
    [download_and_extract_project] returns [False] (on a machine where the
    scratch directory can be created); the whole run prints the mark of
    none of the later steps, although each of them prints its mark
    whenever it is invoked; and [main] can only return through the abort
    message and its prompt. *)
Theorem fetch_failure_aborts_workflow (w : world) :
  transfer_fails w PROJECT_ZIP_URL →
  (∀ s m, FS.resolve (gettempdir w) (fs s) = Some (Dir m) →
          m !! mkdtemp_name w = None →
          ∃ s', download_and_extract_project w s = (Ok false, s'))
  ∧ (∀ s, provisioner_mark ∈ trace (create_conda_environment w s).2
          ∧ script_generator_mark ∈ trace (create_startup_scripts w s).2
          ∧ activator_mark ∈ trace (start_docker_services w s).2)
  ∧ emits_only quiet (script w)
  ∧ (∀ s s', main w s = (Ok tt, s') →
       ∃ before,
         trace s' = before ++
           [Print "Failed to download and extract project files. Aborting installation.";
            Input "Press Enter to exit..."]).
Proof.
  intros Hfail. split; [|split; [|split]].
  - intros s m. by apply materialize_returns_false.
  - intros s. split; [|split].
    + apply create_conda_environment_marks.
    + apply create_startup_scripts_marks.
    + apply start_docker_services_marks.
  - by apply script_quiet.
  - intros s s'. by apply main_returns_by_abort.
Qed.

Lemma fetch_failure_aborts_workflow_witness :
  transfer_fails Scenario.offline PROJECT_ZIP_URL
  ∧ (∃ s', download_and_extract_project Scenario.offline Scenario.fresh
           = (Ok false, s'))
  ∧ emits_only quiet (script Scenario.offline).
Proof.
  split; [exact I|].
  destruct (fetch_failure_aborts_workflow Scenario.offline I) as (H1 & _ & H3 & _).
  split; [|exact H3].
  apply (H1 Scenario.fresh ∅); reflexivity.
Defined.

(** ** Materialization: the scratch directory *)

(** After a failed fetch the scratch directory is still there. *)
Lemma failed_fetch_keeps_scratch (w : world) (s : state) (m : gmap string node) :
  transfer_fails w PROJECT_ZIP_URL →
  FS.resolve (gettempdir w) (fs s) = Some (Dir m) →
  m !! mkdtemp_name w = None →
  ∃ s', download_and_extract_project w s = (Ok false, s')
        ∧ FS.isdir (scratch_dir w) (fs s') = true.
Proof.
  intros Hfail HT Hfresh.
  destruct (mkdir_snoc _ (mkdtemp_name w) _ _ HT Hfresh) as (n1 & Hmk & Hn1).
  assert (Htmp : FS.resolve (scratch_dir w) n1 = Some (Dir ∅)).
  { unfold scratch_dir. rewrite (resolve_snoc _ _ _ _ Hn1). apply lookup_insert_eq. }
  set (s1 := (print_header "Downloading and Extracting Project Files" s).2).
  destruct (failed_download_returns_false w Hfail
              (scratch_dir w ++ ["code-execution-api.zip"])
              (set_fs n1 s1)) as (s3 & Hd & _ & Hfs).
  exists (log (Print "Failed to download project files. Aborting installation.") s3).
  split.
  - unfold download_and_extract_project.
    eapply (bind_then _ _ _ tt s1); [reflexivity|]. eapply bind_then.
    { unfold mkdtemp. eapply bind_then; [|reflexivity].
      apply fs_call_returns. exact Hmk. }
    eapply bind_then; [exact Hd|]. simpl. run_ok. reflexivity.
  - simpl. destruct Hfs as [->|(partial & Hw)].
    + simpl. by apply resolve_isdir in Htmp.
    + simpl in Hw. unfold FS.write_file in Hw.
      destruct (FS.isdir _ n1); [done|].
      destruct (store_snoc _ "code-execution-api.zip" (Some (File partial)) _ _ Htmp)
        as (n' & Hs & Hr).
      rewrite Hs in Hw. injection Hw as <-. by apply resolve_isdir in Hr.
Qed.

(** C3 (as the code behaves): on the two failure paths of
    [download_and_extract_project] the scratch directory is left behind.
    With the network down the function returns [False]; with a download
    that is not a zip archive it raises [BadZipFile]; in both runs
    [Temp\tmp8k2] still exists afterwards.  Only the successful run
    removes it. *)
Theorem scratch_directory_left_behind :
  (let r := download_and_extract_project Scenario.offline Scenario.fresh in
   r.1 = Ok false ∧ FS.isdir ["Temp"; "tmp8k2"] (fs r.2) = true)
  ∧ (let r := download_and_extract_project corrupt_download Scenario.fresh in
     r.1 = Raise (Exc (BadZipFile "File is not a zip file"))
     ∧ FS.isdir ["Temp"; "tmp8k2"] (fs r.2) = true
     ∧ FS.pathexists ["Temp"; "tmp8k2"; "code-execution-api.zip"] (fs r.2) = true)
  ∧ (let r := download_and_extract_project
                (Scenario.ready Scenario.app_archive 0) Scenario.fresh in
     r.1 = Ok true ∧ FS.pathexists ["Temp"; "tmp8k2"] (fs r.2) = false).
Proof. vm_compute. repeat split. Qed.

(** ** Remediation *)

Lemma subprocess_run_exited (w : world) argv shell r s :
  child w argv = Exited r →
  subprocess_run w argv shell s = (Ok r, log (Run argv shell) s).
Proof. intros H. unfold subprocess_run, bind, emit. by rewrite H. Qed.

Lemma subprocess_run_not_started (w : world) argv shell msg s :
  child w argv = NotStarted msg →
  subprocess_run w argv shell s
  = (Raise (Exc (OSError msg)), log (Run argv shell) s).
Proof. intros H. unfold subprocess_run, bind, emit. by rewrite H. Qed.


Lemma emits_run {A} (P : event → Prop) (m : M A) (s : state) r s' :
  emits_only P m → m s = (r, s') →
  ∃ new, trace s' = trace s ++ new ∧ Forall P new.
Proof. intros Hm Hr. specialize (Hm s). by rewrite Hr in Hm. Qed.

Section Remediation.

Context (w : world).



(** With the artifact, the installer's exit status decides. *)
Lemma install_docker_with_artifact (s : state) :
  fetch_succeeds w DOCKER_INSTALLER_URL (docker_installer w) (fs s) →
  ∃ s1,
    match child w (docker_command w) with
    | Exited r =>
        if (returncode r =? 0)%Z
        then install_docker w s
             = (Ok true,
                log (Print "Docker Desktop installation completed successfully!") s1)
        else install_docker w s
             = (Ok false,
                log (Input "Press Enter to continue after installing Docker Desktop manually...")
               (log (Print "Please install Docker Desktop manually from https://www.docker.com/products/docker-desktop")
               (log (Print ("Docker Desktop installation failed: " +:+ stderr r)) s1)))
    | NotStarted msg => install_docker w s = (Raise (Exc (OSError msg)), s1)
    end.
Proof.
  intros Hf.
  set (s1 := (print_header "Installing Docker Desktop" s).2).
  destruct (download_file_true w _ _ s1 Hf) as (s2 & Hd & _).
  exists (log (Run (docker_command w) false)
            (log (Print "Running Docker Desktop installer...") s2)).
  unfold install_docker.
  destruct (child w (docker_command w)) as [r|msg] eqn:Hc.
  - destruct (returncode r =? 0)%Z eqn:Hrc.
    + eapply (bind_then _ _ _ tt s1); [reflexivity|].
      eapply bind_then; [exact Hd|]. simpl. run_ok.
      eapply bind_then; [by apply subprocess_run_exited|].
      rewrite Hrc. reflexivity.
    + eapply (bind_then _ _ _ tt s1); [reflexivity|].
      eapply bind_then; [exact Hd|]. simpl. run_ok.
      eapply bind_then; [by apply subprocess_run_exited|].
      rewrite Hrc. reflexivity.
  - eapply (bind_then _ _ _ tt s1); [reflexivity|].
    eapply bind_then; [exact Hd|]. simpl. run_ok.
    run_raise. by apply subprocess_run_not_started.
Qed.


End Remediation.

(** ** Stepping through a sequence *)

Lemma bind_bind {A B C} (m : M A) (f : A → M B) (g : B → M C) s :
  bind (bind m f) g s = bind m (λ a, bind (f a) g) s.
Proof. unfold bind. by destruct (m s) as [[a|e] s1]. Qed.

Lemma bind_ret {A B} (a : A) (f : A → M B) s : bind (ret a) f s = f a s.
Proof. reflexivity. Qed.

Lemma bind_emit {B} (e : event) (f : unit → M B) s :
  bind (emit e) f s = f tt (log e s).
Proof. reflexivity. Qed.

Lemma bind_print {B} (x : string) (f : unit → M B) s :
  bind (print x) f s = f tt (log (Print x) s).
Proof. reflexivity. Qed.

Lemma bind_input {B} (w : world) (prompt : string) (f : string → M B) s :
  bind (input w prompt) f s = f (operator w prompt) (log (Input prompt) s).
Proof. reflexivity. Qed.

Lemma bind_print_header {B} (message : string) (f : unit → M B) s :
  bind (print_header message) f s = f tt (print_header message s).2.
Proof. reflexivity. Qed.

Lemma bind_ext {A B} (m : M A) (f g : A → M B) s :
  (∀ a s1, f a s1 = g a s1) → bind m f s = bind m g s.
Proof. intros H. unfold bind. destruct (m s) as [[a|e] s1]; [apply H|done]. Qed.

Ltac step :=
  first [ rewrite bind_bind | rewrite bind_ret | rewrite bind_print
        | rewrite bind_input | rewrite bind_print_header | rewrite bind_emit ];
  cbv beta.

(** ** Everything only appends to the trace *)

Lemma quiet_appends {A} (m : M A) : emits_only quiet m → emits_only anything m.
Proof. by apply emits_weaken. Qed.

Lemma print_header_appends message : emits_only anything (print_header message).
Proof. by apply print_header_emits. Qed.

Ltac appends :=
  repeat first
    [ apply print_header_appends
    | apply quiet_appends, download_file_quiet
    | apply quiet_appends, install_docker_quiet
    | apply quiet_appends, install_miniconda_quiet
    | apply quiet_appends, check_conda_installed_quiet
    | apply quiet_appends, check_docker_installed_quiet
    | apply quiet_appends, download_and_extract_project_quiet
    | emits_call ];
  try done.

Section Appends.

Context (w : world).


Lemma create_startup_scripts_appends :
  emits_only anything (create_startup_scripts w).
Proof. unfold create_startup_scripts. appends. Qed.

Lemma start_docker_services_appends :
  emits_only anything (start_docker_services w).
Proof. unfold start_docker_services. appends. Qed.


Lemma is_admin_elevated z s : IsUserAnAdmin w = Some z → is_admin w s = (Ok z, s).
Proof.
  intros H. unfold is_admin, try_except, shell32_IsUserAnAdmin. by rewrite H.
Qed.

(** [main] for an elevated process: the greeting, then the three blocks. *)
Lemma main_elevated s :
  elevated w →
  main w s
  = bind (docker_block w)
      (λ _, bind (miniconda_block w) (λ _, materialize_block w)) (greeted w s).
Proof.
  intros (z & Hz & Hnz). unfold main.
  rewrite (bind_returns _ _ _ _ _ (is_admin_elevated z s Hz)).
  apply Z.eqb_neq in Hnz. rewrite Hnz.
  rewrite bind_ret, bind_print_header, !bind_print, bind_input.
  fold (greeted w s). unfold docker_block.
  rewrite bind_bind. apply bind_ext. intros docker s1.
  apply bind_ext. intros _ s2.
  unfold miniconda_block. rewrite bind_bind. reflexivity.
Qed.


Lemma miniconda_block_appends : emits_only anything (miniconda_block w).
Proof. unfold miniconda_block. appends. Qed.

Lemma docker_block_appends : emits_only anything (docker_block w).
Proof. unfold docker_block. appends. Qed.

End Appends.

Lemma bind_keeps {A B} (m : M A) (f : A → M B) (s : state) (e : event) :
  e ∈ trace (m s).2 → (∀ a, emits_only anything (f a)) →
  e ∈ trace (bind m f s).2.
Proof.
  intros He Hf. unfold bind. destruct (m s) as [[a|x] s1]; simpl in *; [|done].
  by apply (emits_keeps anything).
Qed.

(** ** Remediation inside the workflow *)

Section Continues.

Context (w : world).





End Continues.





(** ** Files come and go, directories stay *)

Section Files.

Implicit Types (p q : path) (n : node) (m : gmap string node) (c : string).

Lemma isdir_nil n : FS.isdir [] n = match n with Dir _ => true | File _ => false end.
Proof. by destruct n. Qed.

Lemma isdir_cons a q m :
  FS.isdir (a :: q) (Dir m)
  = match m !! a with Some x => FS.isdir q x | None => false end.
Proof. unfold FS.isdir. simpl. by destruct (m !! a). Qed.

Lemma isdir_below_file q body : q ≠ [] → FS.isdir q (File body) = false.
Proof. by destruct q. Qed.

Lemma store_below_Dir a p v m n' :
  FS.store (a :: p) v (Dir m) = Some n' → ∃ m', n' = Dir m'.
Proof.
  destruct (decide (p = [])) as [->|Hp].
  - simpl. intros [= <-]. eauto.
  - rewrite store_cons by done. intros Hs.
    apply bind_Some in Hs as (x & _ & Hs).
    apply bind_Some in Hs as (x' & _ & [= <-]). eauto.
Qed.

(** Writing a regular file changes no directory. *)
Lemma store_file_isdir p body n n' q :
  FS.isdir p n = false → FS.store p (Some (File body)) n = Some n' →
  FS.isdir q n' = FS.isdir q n.
Proof.
  revert n n' q. induction p as [|a p IH]; intros n n' q Hd Hs.
  - simpl in Hs. injection Hs as <-. destruct n as [b0|m]; [|done].
    by destruct q.
  - destruct n as [?|m]; [done|].
    destruct q as [|b q].
    { by apply store_below_Dir in Hs as [m' ->]. }
    destruct (decide (p = [])) as [->|Hp].
    + simpl in Hs. injection Hs as <-. rewrite !isdir_cons in *.
      destruct (decide (a = b)) as [<-|Hne].
      * rewrite lookup_partial_alter_eq.
        destruct (m !! a) as [[b0|m0]|] eqn:Ha; rewrite ?isdir_nil in Hd; try done;
          by destruct q.
      * by rewrite lookup_partial_alter_ne.
    + rewrite store_cons in Hs by done.
      apply bind_Some in Hs as (x & Ha & Hs).
      apply bind_Some in Hs as (x' & Hx & Hs). injection Hs as <-.
      rewrite !isdir_cons in *. rewrite Ha in Hd.
      destruct (decide (a = b)) as [<-|Hne].
      * rewrite lookup_insert_eq, Ha. by eapply IH.
      * by rewrite lookup_insert_ne.
Qed.

Lemma write_file_isdir p body n n' q :
  FS.write_file p body n = Some n' → FS.isdir q n' = FS.isdir q n.
Proof.
  unfold FS.write_file. destruct (FS.isdir p n) eqn:Hd; [done|].
  by apply store_file_isdir.
Qed.

(** Removing a regular file changes no directory. *)
Lemma remove_isdir p n n' q :
  FS.remove p n = Some n' → FS.isdir q n' = FS.isdir q n.
Proof.
  unfold FS.remove. destruct (FS.resolve p n) as [[body|?]|] eqn:Hr; try done.
  revert n n' q Hr. induction p as [|a p IH]; intros n n' q Hr Hs; [done|].
  destruct n as [?|m]; [done|].
  destruct q as [|b q].
  { by apply store_below_Dir in Hs as [m' ->]. }
  simpl in Hr. destruct (m !! a) as [x|] eqn:Ha; simpl in Hr; [|done].
  destruct (decide (p = [])) as [->|Hp].
  - simpl in Hs, Hr. injection Hs as <-. injection Hr as ->.
    rewrite !isdir_cons. destruct (decide (a = b)) as [<-|Hne].
    + rewrite lookup_partial_alter_eq, Ha. by destruct q.
    + by rewrite lookup_partial_alter_ne.
  - rewrite store_cons in Hs by done. rewrite Ha in Hs. simpl in Hs.
    apply bind_Some in Hs as (x' & Hx & Hs). injection Hs as <-.
    rewrite !isdir_cons. destruct (decide (a = b)) as [<-|Hne].
    + rewrite lookup_insert_eq, Ha. by eapply IH.
    + by rewrite lookup_insert_ne.
Qed.

(** A file can be written wherever the parent is a directory and no
    directory is in the way; afterwards it is there. *)
Lemma write_file_Some p c body n :
  FS.isdir p n = true → FS.isdir (p ++ [c]) n = false →
  ∃ n', FS.write_file (p ++ [c]) body n = Some n'
        ∧ FS.resolve (p ++ [c]) n' = Some (File body).
Proof.
  intros Hp Hc. apply isdir_resolve in Hp as [m Hm].
  destruct (write_file_snoc p c body n m Hm) as (n' & Hw & Hr).
  - intros d Hd. unfold FS.isdir in Hc.
    by rewrite (resolve_snoc _ _ _ _ Hm), Hd in Hc.
  - exists n'. split; [done|].
    rewrite (resolve_snoc _ _ _ _ Hr). apply lookup_insert_eq.
Qed.

Lemma remove_Some p body n :
  p ≠ [] → FS.resolve p n = Some (File body) → is_Some (FS.remove p n).
Proof.
  intros Hp Hr. unfold FS.remove. rewrite Hr.
  destruct (exists_last Hp) as (d & c & ->).
  rewrite resolve_app in Hr. apply bind_Some in Hr as (x & Hd & Hr).
  destruct x as [?|m]; [done|].
  destruct (store_snoc d c None n m Hd) as (n' & -> & _). eauto.
Qed.

End Files.

(** ** Best-effort steps *)

Section BestEffort.

Context (w : world).

Lemma create_conda_environment_returns s :
  exits w conda_env_list → exits w (conda_env_update w) → exits w conda_create →
  exits w (conda_pip_install w) →
  ∃ s', create_conda_environment w s = (Ok true, s')
        ∧ fs s' = fs s ∧ environ s' = environ s.
Proof.
  intros [rl Hl] [ru Hu] [rc Hc] [rp Hp].
  unfold create_conda_environment. rewrite bind_print_header.
  rewrite (bind_returns _ _ _ _ _ (subprocess_run_exited w _ _ _ _ Hl)).
  destruct (Str.contains "code_execution_api" (stdout rl)).
  - eexists. split.
    { eapply bind_then.
      { run_ok. eapply bind_then; [by apply subprocess_run_exited|reflexivity]. }
      run_ok. eapply bind_then; [by apply subprocess_run_exited|]. reflexivity. }
    done.
  - eexists. split.
    { eapply bind_then.
      { run_ok. eapply bind_then; [by apply subprocess_run_exited|reflexivity]. }
      run_ok. eapply bind_then; [by apply subprocess_run_exited|]. reflexivity. }
    done.
Qed.

Lemma start_docker_services_returns s :
  FS.isdir (INSTALL_DIR w) (fs s) = true →
  exits w compose_build → exits w compose_up →
  ∃ s', start_docker_services w s = (Ok true, s').
Proof.
  intros Hd [rb Hb] [ru Hu].
  unfold start_docker_services. rewrite bind_print_header.
  eexists. eapply bind_then.
  { unfold os_chdir. simpl. rewrite Hd. reflexivity. }
  run_ok. eapply bind_then; [by apply subprocess_run_exited|].
  run_ok. eapply bind_then; [by apply subprocess_run_exited|]. reflexivity.
Qed.

Lemma create_startup_scripts_returns s :
  launcher_ready w s →
  ∃ s', create_startup_scripts w s = (Ok true, s')
        ∧ FS.isdir (INSTALL_DIR w) (fs s') = true.
Proof.
  intros (HI & Hstart & Hstop & [home Hhome] & HT & Hvbs & [rc Hc] & _).
  destruct (write_file_Some _ "start_api.bat" (Text (start_script_text w)) _ HI Hstart)
    as (n1 & Hw1 & _).
  assert (HI1 : FS.isdir (INSTALL_DIR w) n1 = true)
    by by rewrite (write_file_isdir _ _ _ _ _ Hw1).
  assert (Hstop1 : FS.isdir (INSTALL_DIR w ++ ["stop_api.bat"]) n1 = false)
    by by rewrite (write_file_isdir _ _ _ _ _ Hw1).
  destruct (write_file_Some _ "stop_api.bat" (Text (stop_script_text w)) _ HI1 Hstop1)
    as (n2 & Hw2 & _).
  assert (HT2 : FS.isdir (gettempdir w) n2 = true)
    by by rewrite (write_file_isdir _ _ _ _ _ Hw2), (write_file_isdir _ _ _ _ _ Hw1).
  assert (Hvbs2 : FS.isdir (shortcut_vbs w) n2 = false)
    by by rewrite (write_file_isdir _ _ _ _ _ Hw2), (write_file_isdir _ _ _ _ _ Hw1).
  destruct (write_file_Some _ "create_shortcut.vbs"
              (Text (vbs_text w
                 (join_text (join_text home "Desktop") "Code Execution API.lnk")
                 (path_str (INSTALL_DIR w ++ ["start_api.bat"])))) _ HT2 Hvbs2)
    as (n3 & Hw3 & Hr3).
  destruct (remove_Some (shortcut_vbs w) _ n3 ltac:(unfold shortcut_vbs; by destruct (gettempdir w)) Hr3)
    as [n4 Hrm].
  exists (log (Print ("Desktop shortcut created at "
                      +:+ join_text (join_text home "Desktop") "Code Execution API.lnk"))
         (log (Print ("Startup scripts created in " +:+ path_str (INSTALL_DIR w)))
         (set_fs n4
         (log (Run ["cscript"; "/nologo"; path_str (shortcut_vbs w)] false)
         (set_fs n3 (set_fs n2 (set_fs n1
            (print_header "Creating Startup Scripts" s).2))))))).
  split.
  - unfold create_startup_scripts. rewrite bind_print_header.
    eapply bind_then; [apply fs_call_returns; exact Hw1|].
    eapply bind_then; [apply fs_call_returns; exact Hw2|].
    eapply bind_then; [unfold os_environ_get; simpl; by rewrite Hhome|].
    eapply bind_then; [apply fs_call_returns; exact Hw3|].
    eapply bind_then; [by apply subprocess_run_exited|].
    eapply bind_then; [apply fs_call_returns; exact Hrm|].
    reflexivity.
  - simpl. rewrite (remove_isdir _ _ _ _ Hrm), (write_file_isdir _ _ _ _ _ Hw3),
      (write_file_isdir _ _ _ _ _ Hw2). done.
Qed.

Lemma launcher_ready_same s s' :
  fs s' = fs s → environ s' = environ s →
  launcher_ready w s → launcher_ready w s'.
Proof. unfold launcher_ready. by intros -> ->. Qed.

(** After the provisioner, whatever its calls returned, the script
    generator is invoked. *)
Lemma provisioner_then_script_generator s :
  exits w conda_env_list → exits w (conda_env_update w) → exits w conda_create →
  exits w (conda_pip_install w) →
  script_generator_mark ∈ trace (main_after_materialize w s).2.
Proof.
  intros Hl Hu Hc Hp.
  destruct (create_conda_environment_returns s Hl Hu Hc Hp) as (s1 & H1 & _).
  unfold main_after_materialize. rewrite (bind_returns _ _ _ _ _ H1).
  apply bind_keeps; [apply create_startup_scripts_marks|].
  intros _. apply emits_bind; [apply start_docker_services_appends|intros _].
  appends.
Qed.

(** With working scripts the workflow reaches its end, whatever the exit
    statuses of the provisioner's and the activator's calls. *)
Lemma main_after_materialize_completes s :
  best_effort_calls_exit w → launcher_ready w s →
  ∃ s', main_after_materialize w s = (Ok tt, s')
        ∧ activator_mark ∈ trace s' ∧ complete_mark ∈ trace s'.
Proof.
  intros (Hl & Hu & Hc & Hp & Hb & Hup) Hready.
  destruct (create_conda_environment_returns s Hl Hu Hc Hp) as (s1 & H1 & Hfs & Henv).
  destruct (create_startup_scripts_returns s1) as (s2 & H2 & HI);
    [by apply (launcher_ready_same s)|].
  destruct (start_docker_services_returns s2 HI Hb Hup) as (s3 & H3).
  assert (Hmark : activator_mark ∈ trace s3).
  { pose proof (start_docker_services_marks w s2) as Hm. by rewrite H3 in Hm. }
  destruct Hready as (_ & _ & _ & _ & _ & _ & _ & [ro Ho]).
  unfold main_after_materialize.
  rewrite (bind_returns _ _ _ _ _ H1), (bind_returns _ _ _ _ _ H2),
    (bind_returns _ _ _ _ _ H3).
  rewrite bind_print_header, !bind_print, bind_input.
  destruct (String.eqb _ "y").
  - eexists. split.
    { eapply bind_then.
      { eapply bind_then; [by apply subprocess_run_exited|reflexivity]. }
      reflexivity. }
    split.
    + simpl. rewrite !elem_of_app. by repeat left.
    + simpl. set_solver.
  - eexists. split; [reflexivity|split].
    + simpl. rewrite !elem_of_app. by repeat left.
    + simpl. set_solver.
Qed.

End BestEffort.

(** ** Operations below a directory act on its subtree *)

Lemma store_nil v n : FS.store [] v n = v.
Proof. done. Qed.

Lemma store_single a v m :
  FS.store [a] v (Dir m) = Some (Dir (partial_alter (λ _, v) a m)).
Proof. done. Qed.

Section Focus.

Implicit Types (p q d : path) (n sub : node) (m : gmap string node) (c : string).

Local Arguments FS.store : simpl never.

Lemma resolve_store p x n n' :
  FS.store p (Some x) n = Some n' → FS.resolve p n' = Some x.
Proof.
  revert n n'. induction p as [|a p IH]; intros n n' Hs.
  - rewrite store_nil in Hs. simpl. congruence.
  - destruct n as [?|m]; [done|].
    destruct (decide (p = [])) as [->|Hp].
    + rewrite store_single in Hs. injection Hs as <-. simpl.
      by rewrite lookup_partial_alter_eq.
    + rewrite store_cons in Hs by done.
      apply bind_Some in Hs as (y & Ha & Hs).
      apply bind_Some in Hs as (y' & Hy & [= <-]).
      simpl. rewrite lookup_insert_eq. simpl. by eapply IH.
Qed.

Lemma store_same p x n :
  FS.resolve p n = Some x → FS.store p (Some x) n = Some n.
Proof.
  revert n. induction p as [|a p IH]; intros n Hr.
  - rewrite store_nil. simpl in Hr. congruence.
  - destruct n as [?|m]; [done|]. simpl in Hr.
    apply bind_Some in Hr as (y & Ha & Hr).
    destruct (decide (p = [])) as [->|Hp].
    + rewrite store_single. simpl in Hr. injection Hr as ->. do 2 f_equal.
      change (<[a := x]> m = m). by apply insert_id.
    + rewrite store_cons by done. rewrite Ha. simpl. rewrite (IH _ Hr). simpl.
      by rewrite insert_id.
Qed.

Lemma store_store p x v n n1 :
  FS.store p (Some x) n = Some n1 → FS.store p v n1 = FS.store p v n.
Proof.
  revert n n1. induction p as [|a p IH]; intros n n1 Hs; [done|].
  destruct n as [?|m]; [done|].
  destruct (decide (p = [])) as [->|Hp].
  - rewrite store_single in Hs. injection Hs as <-. rewrite !store_single.
    do 2 f_equal.
    apply map_eq. intros k. destruct (decide (a = k)) as [<-|Hne].
    + by rewrite !lookup_partial_alter_eq.
    + by rewrite !lookup_partial_alter_ne.
  - rewrite store_cons in Hs by done.
    apply bind_Some in Hs as (y & Ha & Hs).
    apply bind_Some in Hs as (y' & Hy & [= <-]).
    rewrite !store_cons by done. rewrite lookup_insert_eq, Ha. simpl.
    rewrite (IH _ _ Hy). destruct (FS.store p v y); simpl; [|done].
    by rewrite insert_insert_eq.
Qed.

Lemma focus_cons a d f m y :
  m !! a = Some y →
  focus (a :: d) f (Dir m)
  = y' ← focus d f y; Some (Dir (<[a := y']> m)).
Proof.
  intros Ha. unfold focus. cbn [FS.resolve]. rewrite Ha. simpl.
  destruct (FS.resolve d y) as [sub|]; simpl; [|done].
  destruct (f sub) as [sub'|]; simpl; [|done].
  destruct (decide (d = [])) as [->|Hd].
  - by rewrite store_single, store_nil.
  - rewrite store_cons by done. by rewrite Ha.
Qed.

Lemma focus_store d q v n :
  q ≠ [] → is_Some (FS.resolve d n) →
  FS.store (d ++ q) v n = focus d (FS.store q v) n.
Proof.
  intros Hq. revert n. induction d as [|a d IH]; intros n [sub Hsub].
  - unfold focus. simpl in *. injection Hsub as ->.
    by destruct (FS.store q v sub).
  - destruct n as [?|m]; [done|]. simpl in Hsub.
    apply bind_Some in Hsub as (y & Ha & Hsub).
    rewrite <- app_comm_cons, store_cons by (by destruct d, q).
    rewrite Ha. simpl. rewrite IH by eauto.
    by rewrite (focus_cons _ _ _ _ _ Ha).
Qed.

Lemma focus_makedirs d q n :
  is_Some (FS.resolve d n) →
  FS.makedirs (d ++ q) n = focus d (FS.makedirs q) n.
Proof.
  revert n. induction d as [|a d IH]; intros n [sub Hsub].
  - unfold focus. simpl in *. injection Hsub as ->.
    by destruct (FS.makedirs q sub).
  - destruct n as [?|m]; [done|]. simpl in Hsub.
    apply bind_Some in Hsub as (y & Ha & Hsub).
    rewrite <- app_comm_cons. cbn [FS.makedirs]. rewrite Ha. simpl.
    rewrite IH by eauto.
    by rewrite (focus_cons _ _ _ _ _ Ha).
Qed.

Lemma focus_resolve d q n sub :
  FS.resolve d n = Some sub → FS.resolve (d ++ q) n = FS.resolve q sub.
Proof. intros H. by rewrite resolve_app, H. Qed.

(** A store fails below no existing entry. *)
Lemma store_is_Some p x y n :
  FS.resolve p n = Some y → is_Some (FS.store p (Some x) n).
Proof.
  revert n. induction p as [|a p IH]; intros n Hr; [by rewrite store_nil|].
  destruct n as [?|m]; [done|]. simpl in Hr.
  apply bind_Some in Hr as (z & Ha & Hr).
  destruct (decide (p = [])) as [->|Hp]; [by rewrite store_single|].
  rewrite store_cons by done. rewrite Ha. simpl.
  by destruct (IH _ Hr) as [z' ->].
Qed.

(** Two focused operations in a row are one focused operation. *)
Lemma focus_then d f g n :
  focus d f n ≫= focus d g = focus d (λ sub, f sub ≫= g) n.
Proof.
  unfold focus. destruct (FS.resolve d n) as [sub|] eqn:Hr; simpl; [|done].
  destruct (f sub) as [sub1|]; simpl; [|done].
  destruct (store_is_Some d sub1 _ _ Hr) as [n1 Hs]. rewrite Hs. simpl.
  rewrite (resolve_store _ _ _ _ Hs). simpl.
  destruct (g sub1) as [sub2|]; simpl; [|done].
  exact (store_store _ _ _ _ _ Hs).
Qed.

Lemma focus_id d n : is_Some (FS.resolve d n) → focus d Some n = Some n.
Proof. intros [sub H]. unfold focus. rewrite H. simpl. exact (store_same _ _ _ H). Qed.

End Focus.

(** ** Extraction below a directory *)

Section Extraction.

Implicit Types (p q d : path) (n sub : node) (m : gmap string node) (c : string).

Local Arguments FS.store : simpl never.

Lemma focus_bind_ext d f (g h : node → option node) n :
  (∀ n1, is_Some (FS.resolve d n1) → g n1 = h n1) →
  focus d f n ≫= g = focus d f n ≫= h.
Proof.
  intros Hgh. destruct (focus d f n) as [n1|] eqn:Hf; simpl; [|done].
  apply Hgh. unfold focus in Hf.
  apply bind_Some in Hf as (sub & _ & Hf).
  apply bind_Some in Hf as (sub' & _ & Hf).
  rewrite (resolve_store _ _ _ _ Hf). eauto.
Qed.

Lemma focus_at d f n sub :
  FS.resolve d n = Some sub →
  focus d f n = sub' ← f sub; FS.store d (Some sub') n.
Proof. intros H. unfold focus. by rewrite H. Qed.

Lemma pathexists_app d q n sub :
  FS.resolve d n = Some sub → FS.pathexists (d ++ q) n = FS.pathexists q sub.
Proof. intros H. unfold FS.pathexists. by rewrite (focus_resolve _ _ _ _ H). Qed.

Lemma isdir_app d q n sub :
  FS.resolve d n = Some sub → FS.isdir (d ++ q) n = FS.isdir q sub.
Proof. intros H. unfold FS.isdir. by rewrite (focus_resolve _ _ _ _ H). Qed.

Lemma focus_mkdir d q n :
  q ≠ [] → is_Some (FS.resolve d n) →
  FS.mkdir (d ++ q) n = focus d (FS.mkdir q) n.
Proof.
  intros Hq [sub Hsub]. unfold FS.mkdir.
  rewrite (pathexists_app _ _ _ _ Hsub), (focus_at _ _ _ _ Hsub).
  destruct (FS.pathexists q sub); [done|].
  rewrite focus_store by eauto. by rewrite (focus_at _ _ _ _ Hsub).
Qed.

Lemma focus_write_file d q body n :
  q ≠ [] → is_Some (FS.resolve d n) →
  FS.write_file (d ++ q) body n = focus d (FS.write_file q body) n.
Proof.
  intros Hq [sub Hsub]. unfold FS.write_file.
  rewrite (isdir_app _ _ _ _ Hsub), (focus_at _ _ _ _ Hsub).
  destruct (FS.isdir q sub); [done|].
  rewrite focus_store by eauto. by rewrite (focus_at _ _ _ _ Hsub).
Qed.

Lemma removelast_app_path d q : q ≠ [] → removelast (d ++ q) = d ++ removelast q.
Proof.
  intros Hq. induction d as [|a d IH]; [done|].
  simpl. rewrite IH. by destruct (d ++ q) eqn:E; [destruct d, q|].
Qed.

Lemma focus_extract_member d member n :
  ZipFile.member_path member.1 ≠ [] → is_Some (FS.resolve d n) →
  ZipFile.extract_member d member n = focus d (ZipFile.extract_member [] member) n.
Proof.
  intros Hmp [sub Hsub]. unfold ZipFile.extract_member. cbn zeta.
  rewrite (focus_at _ _ _ _ Hsub). rewrite !app_nil_l.
  set (mp := ZipFile.member_path member.1) in *.
  rewrite removelast_app_path by done.
  rewrite (pathexists_app _ _ _ _ Hsub).
  assert (Hstage : ∀ n1 sub1, FS.resolve d n1 = Some sub1 →
    (if Str.endswith "/"%char member.1
     then if FS.isdir (d ++ mp) n1 then Some n1 else FS.mkdir (d ++ mp) n1
     else FS.write_file (d ++ mp) (Text member.2) n1)
    = sub' ← (if Str.endswith "/"%char member.1
              then if FS.isdir mp sub1 then Some sub1 else FS.mkdir mp sub1
              else FS.write_file mp (Text member.2) sub1);
      FS.store d (Some sub') n1).
  { intros n1 sub1 H1. destruct (Str.endswith "/"%char member.1).
    - rewrite (isdir_app _ _ _ _ H1). destruct (FS.isdir mp sub1).
      + simpl. symmetry. exact (store_same _ _ _ H1).
      + rewrite focus_mkdir by eauto. by rewrite (focus_at _ _ _ _ H1).
    - rewrite focus_write_file by eauto. by rewrite (focus_at _ _ _ _ H1). }
  destruct (FS.pathexists (removelast mp) sub).
  - simpl. by apply Hstage.
  - rewrite focus_makedirs by eauto. rewrite (focus_at _ _ _ _ Hsub).
    destruct (FS.makedirs (removelast mp) sub) as [sub1|]; simpl; [|done].
    destruct (store_is_Some d sub1 _ _ Hsub) as [n1 Hs]. rewrite Hs. simpl.
    rewrite (Hstage n1 sub1) by exact (resolve_store _ _ _ _ Hs).
    match goal with |- context [?x ≫= _] => destruct x as [sub2|] end; simpl; [|done].
    exact (store_store _ _ _ _ _ Hs).
Qed.

Lemma focus_extractall d members n :
  Forall (λ member, ZipFile.member_path member.1 ≠ []) members →
  is_Some (FS.resolve d n) →
  ZipFile.extractall d members n = focus d (ZipFile.extractall [] members) n.
Proof.
  intros Hall. revert n. induction Hall as [|member rest Hm _ IH]; intros n Hd.
  - simpl. symmetry. by apply focus_id.
  - simpl. rewrite focus_extract_member by done.
    rewrite (focus_bind_ext _ _ _ (focus d (ZipFile.extractall [] rest)))
      by (intros; by apply IH).
    by rewrite focus_then.
Qed.

End Extraction.

(** ** Extraction beside another entry *)

Section Sibling.

Implicit Types (p q : path) (n : node) (m : gmap string node).

Context (z : string) (x : node) (r : string).
Hypothesis Hrz : r ≠ z.

Local Arguments FS.store : simpl never.

Lemma resolve_with_entry q n :
  FS.resolve (r :: q) (with_entry z x n) = FS.resolve (r :: q) n.
Proof. destruct n as [?|m]; [done|]. simpl. by rewrite lookup_insert_ne. Qed.

Lemma with_entry_insert a y m :
  a ≠ z → with_entry z x (Dir (<[a := y]> m)) = Dir (<[a := y]> (<[z := x]> m)).
Proof. intros H. simpl. f_equal. by apply insert_insert_ne. Qed.

Lemma store_with_entry q v n :
  FS.store (r :: q) v (with_entry z x n) = with_entry z x <$> FS.store (r :: q) v n.
Proof.
  destruct n as [?|m]; [done|]. simpl with_entry.
  destruct (decide (q = [])) as [->|Hq].
  - rewrite !store_single. simpl. do 2 f_equal.
    apply map_eq. intros k. destruct (decide (r = k)) as [<-|Hne].
    + by rewrite lookup_partial_alter_eq, lookup_insert_ne,
        lookup_partial_alter_eq.
    + rewrite lookup_partial_alter_ne by done.
      destruct (decide (z = k)) as [<-|Hzk].
      * by rewrite !lookup_insert_eq.
      * by rewrite !lookup_insert_ne, lookup_partial_alter_ne.
  - rewrite !store_cons by done. rewrite lookup_insert_ne by done.
    destruct (m !! r) as [y|]; simpl; [|done].
    destruct (FS.store q v y) as [y'|]; simpl; [|done].
    f_equal. f_equal. by apply insert_insert_ne.
Qed.

Lemma makedirs_with_entry q n :
  FS.makedirs (r :: q) (with_entry z x n) = with_entry z x <$> FS.makedirs (r :: q) n.
Proof.
  destruct n as [?|m]; [done|]. simpl. rewrite lookup_insert_ne by done.
  destruct (FS.makedirs q _) as [y'|]; simpl; [|done].
  f_equal. f_equal. by apply insert_insert_ne.
Qed.

Lemma makedirs_nil_with_entry n :
  FS.makedirs [] (with_entry z x n) = with_entry z x <$> FS.makedirs [] n.
Proof. by destruct n. Qed.

Lemma pathexists_with_entry q n :
  FS.pathexists (r :: q) (with_entry z x n) = FS.pathexists (r :: q) n.
Proof. unfold FS.pathexists. by rewrite resolve_with_entry. Qed.

Lemma isdir_with_entry q n :
  FS.isdir (r :: q) (with_entry z x n) = FS.isdir (r :: q) n.
Proof. unfold FS.isdir. by rewrite resolve_with_entry. Qed.

Lemma extract_member_with_entry member n :
  head (ZipFile.member_path member.1) = Some r →
  ZipFile.extract_member [] member (with_entry z x n)
  = with_entry z x <$> ZipFile.extract_member [] member n.
Proof.
  intros Hhead. unfold ZipFile.extract_member. cbn zeta. rewrite !app_nil_l.
  destruct (ZipFile.member_path member.1) as [|a q]; [done|].
  injection Hhead as ->.
  assert (Hstage : ∀ n1,
    (if Str.endswith "/"%char member.1
     then if FS.isdir (r :: q) (with_entry z x n1)
          then Some (with_entry z x n1)
          else FS.mkdir (r :: q) (with_entry z x n1)
     else FS.write_file (r :: q) (Text member.2) (with_entry z x n1))
    = with_entry z x <$>
        (if Str.endswith "/"%char member.1
         then if FS.isdir (r :: q) n1 then Some n1 else FS.mkdir (r :: q) n1
         else FS.write_file (r :: q) (Text member.2) n1)).
  { intros n1. unfold FS.mkdir, FS.write_file.
    rewrite isdir_with_entry, pathexists_with_entry, !store_with_entry.
    destruct (Str.endswith "/"%char member.1).
    - destruct (FS.isdir (r :: q) n1); [done|].
      by destruct (FS.pathexists (r :: q) n1).
    - by destruct (FS.isdir (r :: q) n1). }
  destruct q as [|b q'].
  - simpl removelast. unfold FS.pathexists. simpl FS.resolve. simpl.
    by apply Hstage.
  - assert (Hup : removelast (r :: b :: q') = r :: removelast (b :: q')) by done.
    rewrite Hup. rewrite pathexists_with_entry, makedirs_with_entry.
    destruct (FS.pathexists (r :: removelast (b :: q')) n).
    + simpl. by apply Hstage.
    + destruct (FS.makedirs (r :: removelast (b :: q')) n) as [n1|]; simpl; [|done].
      by apply Hstage.
Qed.

Lemma extractall_with_entry members n :
  Forall (λ member, head (ZipFile.member_path member.1) = Some r) members →
  ZipFile.extractall [] members (with_entry z x n)
  = with_entry z x <$> ZipFile.extractall [] members n.
Proof.
  intros Hall. revert n. induction Hall as [|member rest Hm _ IH]; intros n; [done|].
  simpl. rewrite extract_member_with_entry by done.
  destruct (ZipFile.extract_member [] member n) as [n1|]; simpl; [|done].
  apply IH.
Qed.

End Sibling.

(** ** Creating the installation directory *)

Section Makedirs.

Implicit Types (p q : path) (n : node) (m : gmap string node).

Lemma entries_at_cons a p m :
  entries_at (a :: p) (Dir m) = entries_at p (default (Dir ∅) (m !! a)).
Proof.
  unfold entries_at. simpl. destruct (m !! a) as [y|]; simpl; [done|].
  by destruct p.
Qed.

Lemma creatable_empty p : creatable p (Dir ∅).
Proof. by destruct p. Qed.

Lemma makedirs_spec p n :
  creatable p n →
  ∃ n', FS.makedirs p n = Some n'
        ∧ FS.resolve p n' = Some (Dir (entries_at p n))
        ∧ ∀ q, diverge p q → FS.resolve q n' = FS.resolve q n.
Proof.
  revert n. induction p as [|a p IH]; intros n Hc.
  - destruct n as [?|m]; [done|]. exists (Dir m). repeat split.
  - destruct n as [?|m]; [done|]. simpl in Hc.
    destruct (IH (default (Dir ∅) (m !! a))) as (y' & Hy & Hr & Hf).
    { destruct (m !! a); [done|apply creatable_empty]. }
    exists (Dir (<[a := y']> m)). split; [|split].
    + simpl. by rewrite Hy.
    + simpl. rewrite lookup_insert_eq. simpl. by rewrite entries_at_cons.
    + intros [|b q] Hd; [done|]. simpl in Hd. simpl.
      destruct Hd as [Hne|[<- Hd]].
      * by rewrite lookup_insert_ne.
      * rewrite lookup_insert_eq. simpl. rewrite (Hf q Hd).
        destruct (m !! a); simpl; [done|]. by destruct p, q.
Qed.

Lemma store_creatable p q v n n' :
  FS.store p v n = Some n' → diverge p q → creatable q n → creatable q n'.
Proof.
  revert q n n'. induction p as [|a p IH]; intros [|b q] n n' Hs Hd Hc;
    simpl in Hd; try done.
  destruct n as [?|m]; [done|]. simpl in Hc.
  destruct (decide (p = [])) as [->|Hp].
  - rewrite store_single in Hs. injection Hs as <-.
    destruct Hd as [Hne|[_ Hd]]; [|by destruct q].
    simpl. by rewrite lookup_partial_alter_ne.
  - rewrite store_cons in Hs by done.
    apply bind_Some in Hs as (y & Ha & Hs).
    apply bind_Some in Hs as (y' & Hy & [= <-]). simpl.
    destruct Hd as [Hne|[<- Hd]].
    + by rewrite lookup_insert_ne.
    + rewrite lookup_insert_eq. rewrite Ha in Hc. by eapply IH.
Qed.



End Makedirs.

(** ** Moving the extracted entries into place *)

Section Place.

Context (w : world).
Implicit Types (n : node) (m : gmap string node).

Local Arguments FS.store : simpl never.

Lemma os_path_exists_runs p s :
  os_path_exists p s = (Ok (FS.pathexists p (fs s)), s).
Proof. done. Qed.

Lemma os_path_isdir_runs p s :
  os_path_isdir p s = (Ok (FS.isdir p (fs s)), s).
Proof. done. Qed.

Lemma rmtree_store p c n :
  FS.isdir (p ++ [c]) n = true → FS.rmtree (p ++ [c]) n = FS.store (p ++ [c]) None n.
Proof.
  intros H. unfold FS.rmtree. rewrite H. by destruct (p ++ [c]) eqn:E; [destruct p|].
Qed.

Lemma remove_store p body n :
  FS.resolve p n = Some (File body) → FS.remove p n = FS.store p None n.
Proof. intros H. unfold FS.remove. by rewrite H. Qed.

(** The entry of the same name, whatever it is, is removed. *)
Lemma clear_destination dest_dir item mt s :
  FS.resolve dest_dir (fs s) = Some (Dir mt) →
  ∃ n1,
    bind (os_path_exists (dest_dir ++ [item])) (λ there,
      if there
      then bind (os_path_isdir (dest_dir ++ [item])) (λ is_directory,
             if is_directory
             then fs_call "rmtree" (FS.rmtree (dest_dir ++ [item]))
             else fs_call "remove" (FS.remove (dest_dir ++ [item])))
      else ret tt) s
    = (Ok tt, set_fs n1 s)
    ∧ FS.resolve dest_dir n1 = Some (Dir (delete item mt))
    ∧ ∀ q, diverge (dest_dir ++ [item]) q → FS.resolve q n1 = FS.resolve q (fs s).
Proof.
  intros HI. destruct s as [n env wd tr]. simpl in HI.
  destruct (store_snoc _ item None _ _ HI) as (n1 & Hs1 & HI1).
  change (partial_alter (λ _, None) item mt) with (delete item mt) in HI1.
  rewrite (bind_returns _ _ _ _ _ (os_path_exists_runs _ _)). cbn [fs].
  pose proof (resolve_snoc _ item _ _ HI) as Hdest.
  unfold FS.pathexists. rewrite Hdest.
  destruct (mt !! item) as [[body|my]|] eqn:Hm.
  - exists n1. split; [|split; [done|]].
    + rewrite (bind_returns _ _ _ _ _ (os_path_isdir_runs _ _)). cbn [fs].
      unfold FS.isdir. rewrite Hdest.
      apply fs_call_returns. cbn [fs]. by rewrite (remove_store _ _ _ Hdest).
    + intros q Hq. by apply (store_frame _ _ _ _ _ Hs1).
  - exists n1. split; [|split; [done|]].
    + rewrite (bind_returns _ _ _ _ _ (os_path_isdir_runs _ _)). cbn [fs].
      assert (Hisd : FS.isdir (dest_dir ++ [item]) n = true)
        by (unfold FS.isdir; by rewrite Hdest).
      rewrite Hisd. apply fs_call_returns. cbn [fs]. by rewrite rmtree_store.
    + intros q Hq. by apply (store_frame _ _ _ _ _ Hs1).
  - exists n. split; [done|]. split; [|done]. by rewrite delete_id.
Qed.

Lemma place_one X item v msrc mt s :
  diverge X (INSTALL_DIR w) →
  FS.resolve X (fs s) = Some (Dir msrc) →
  FS.resolve (INSTALL_DIR w) (fs s) = Some (Dir mt) →
  msrc !! item = Some v →
  ∃ n', place w X item s = (Ok tt, set_fs n' s)
        ∧ FS.resolve X n' = Some (Dir (delete item msrc))
        ∧ FS.resolve (INSTALL_DIR w) n' = Some (Dir (<[item := v]> mt))
        ∧ ∀ q, diverge X q → diverge (INSTALL_DIR w) q →
               FS.resolve q n' = FS.resolve q (fs s).
Proof.
  intros Hd HX HI Hv.
  assert (HdI : diverge (INSTALL_DIR w ++ [item]) X).
  { apply diverge_sym. rewrite <- (app_nil_r X). by apply diverge_app. }
  assert (HdX : diverge (X ++ [item]) (INSTALL_DIR w)).
  { rewrite <- (app_nil_r (INSTALL_DIR w)). by apply diverge_app. }
  destruct (clear_destination (INSTALL_DIR w) item mt s HI)
    as (n1 & Hrun1 & HI1 & Hf1).
  assert (HX1 : FS.resolve X n1 = Some (Dir msrc)) by by rewrite (Hf1 X HdI).
  (* the extracted entry is moved into place *)
  destruct (store_snoc _ item None _ _ HX1) as (n2 & Hs2 & HX2).
  change (partial_alter (λ _, None) item msrc) with (delete item msrc) in HX2.
  assert (HI2 : FS.resolve (INSTALL_DIR w) n2 = Some (Dir (delete item mt)))
    by by rewrite (store_frame _ _ _ _ _ Hs2 HdX).
  destruct (store_snoc _ item (Some v) _ _ HI2) as (n3 & Hs3 & HI3).
  change (partial_alter (λ _, Some v) item (delete item mt))
    with (<[item := v]> (delete item mt)) in HI3.
  rewrite insert_delete_eq in HI3.
  assert (HX3 : FS.resolve X n3 = Some (Dir (delete item msrc)))
    by by rewrite (store_frame _ _ _ _ _ Hs3 HdI).
  exists n3. split; [|split; [done|split; [done|]]].
  2:{ intros q HqX HqI.
      rewrite (store_frame _ _ _ _ _ Hs3 (diverge_snoc _ _ _ HqI)).
      rewrite (store_frame _ _ _ _ _ Hs2 (diverge_snoc _ _ _ HqX)).
      apply Hf1. by apply diverge_snoc. }
  unfold place. cbn zeta. rewrite <- bind_bind.
  rewrite (bind_returns _ _ _ _ _ Hrun1).
  replace (set_fs n3 s) with (set_fs n3 (set_fs n1 s)) by done.
  apply fs_call_returns. cbn [fs set_fs].
  unfold FS.move, FS.isdir, FS.pathexists.
  rewrite (resolve_snoc _ _ _ _ HX1), Hv. simpl.
  rewrite (resolve_snoc _ _ _ _ HI1), lookup_delete_eq. simpl.
  rewrite Hs2. simpl. rewrite Hs3.
  rewrite (resolve_snoc _ _ _ _ HI1), lookup_delete_eq. by destruct v.
Qed.

(** The whole loop: every listed entry replaces its namesake, the other
    entries of the installation directory stay. *)
Lemma place_all X (items : list string) msrc mt s :
  diverge X (INSTALL_DIR w) → NoDup items →
  (∀ item, item ∈ items → is_Some (msrc !! item)) →
  FS.resolve X (fs s) = Some (Dir msrc) →
  FS.resolve (INSTALL_DIR w) (fs s) = Some (Dir mt) →
  ∃ n' msrc' mt',
    for_each items (place w X) s = (Ok tt, set_fs n' s)
    ∧ FS.resolve X n' = Some (Dir msrc')
    ∧ FS.resolve (INSTALL_DIR w) n' = Some (Dir mt')
    ∧ (∀ k, mt' !! k = if decide (k ∈ items) then msrc !! k else mt !! k)
    ∧ ∀ q, diverge X q → diverge (INSTALL_DIR w) q →
           FS.resolve q n' = FS.resolve q (fs s).
Proof.
  intros Hd Hnd. revert s msrc mt.
  induction Hnd as [|item items Hnotin Hnd IH]; intros s msrc mt Hall HX HI.
  - exists (fs s), msrc, mt. split; [by destruct s|]. split; [done|].
    split; [done|]. split; [|done]. intros k. by rewrite decide_False by set_solver.
  - destruct (Hall item) as [v Hv]; [set_solver|].
    destruct (place_one X item v msrc mt s Hd HX HI Hv)
      as (n1 & Hrun & HX1 & HI1 & Hf1).
    destruct (IH (set_fs n1 s) (delete item msrc) (<[item := v]> mt))
      as (n' & msrc' & mt' & Hrest & HX' & HI' & Hk & Hf'); [|done|done|].
    { intros j Hj. rewrite lookup_delete_ne by set_solver. apply Hall. set_solver. }
    exists n', msrc', mt'. split; [|split; [done|split; [done|split]]].
    3:{ intros q HqX HqI. rewrite (Hf' q HqX HqI). by apply Hf1. }
    + simpl. rewrite (bind_returns _ _ _ _ _ Hrun). exact Hrest.
    + intros k. rewrite Hk. destruct (decide (k = item)) as [->|Hne].
      * rewrite decide_False by done. rewrite decide_True by set_solver.
        by rewrite lookup_insert_eq.
      * destruct (decide (k ∈ items)) as [Hin|Hout].
        -- rewrite decide_True by (apply elem_of_cons; by right).
           by rewrite lookup_delete_ne.
        -- rewrite decide_False by (by intros [?|?]%elem_of_cons).
           by rewrite lookup_insert_ne.
Qed.

End Place.

Lemma write_file_store p body n n' :
  FS.write_file p body n = Some n' → FS.store p (Some (File body)) n = Some n'.
Proof. unfold FS.write_file. by destruct (FS.isdir p n). Qed.

Lemma mkdir_store p n n' :
  FS.mkdir p n = Some n' → FS.store p (Some (Dir ∅)) n = Some n'.
Proof. unfold FS.mkdir. by destruct (FS.pathexists p n). Qed.

Lemma union_by_items (children mt mt' : gmap string node) :
  (∀ k, mt' !! k = if decide (k ∈ (map_to_list children).*1)
                   then children !! k else mt !! k) →
  mt' = children ∪ mt.
Proof.
  intros H. apply map_eq. intros k. rewrite H, lookup_union.
  destruct (children !! k) as [v|] eqn:Hk.
  - rewrite decide_True; [by destruct (mt !! k)|].
    apply list_elem_of_fmap. exists (k, v). split; [done|].
    by apply elem_of_map_to_list.
  - rewrite decide_False; [by destruct (mt !! k)|].
    intros Hin. apply list_elem_of_fmap in Hin as ([k' v] & -> & Hin).
    apply elem_of_map_to_list in Hin. simpl in Hk. congruence.
Qed.

(** ** Materialization: the successful run *)

Section Materialize.

Context (w : world).

Local Arguments FS.store : simpl never.

Lemma materialize_succeeds s hooks members r children :
  retrieve w PROJECT_ZIP_URL = Fetched hooks (Zip members) →
  FS.isdir (gettempdir w) (fs s) = true →
  FS.pathexists (scratch_dir w) (fs s) = false →
  diverge (scratch_dir w) (INSTALL_DIR w) →
  creatable (INSTALL_DIR w) (fs s) →
  single_root members r children → r ≠ ZIP_NAME →
  components (top_dir members) = [r] →
  ∃ s', download_and_extract_project w s = (Ok true, s')
        ∧ FS.resolve (INSTALL_DIR w) (fs s')
          = Some (Dir (children ∪ entries_at (INSTALL_DIR w) (fs s)))
        ∧ FS.pathexists (scratch_dir w) (fs s') = false
        ∧ FS.isdir (gettempdir w) (fs s') = true
        ∧ environ s' = environ s
        ∧ ∀ q, diverge (scratch_dir w) q → diverge (INSTALL_DIR w) q →
               FS.resolve q (fs s') = FS.resolve q (fs s).
Proof.
  intros Hfetch HT Hfresh Hdiv Hcreat [Htree Hrooted] Hrz Htop.
  set (mt := entries_at (INSTALL_DIR w) (fs s)).
  set (zip := File (Zip members)).
  (* the scratch directory *)
  apply isdir_resolve in HT as [mT HmT].
  assert (Hname : mT !! mkdtemp_name w = None).
  { unfold FS.pathexists, scratch_dir in Hfresh.
    rewrite (resolve_snoc _ _ _ _ HmT) in Hfresh. by destruct (mT !! _). }
  destruct (mkdir_snoc _ _ _ _ HmT Hname) as (n1 & Hmk & HT1).
  fold (scratch_dir w) in Hmk.
  pose proof (mkdir_store _ _ _ Hmk) as Hst1.
  assert (HS1 : FS.resolve (scratch_dir w) n1 = Some (Dir ∅)).
  { unfold scratch_dir. rewrite (resolve_snoc _ _ _ _ HT1). apply lookup_insert_eq. }
  assert (HI1 : FS.resolve (INSTALL_DIR w) n1 = FS.resolve (INSTALL_DIR w) (fs s))
    by exact (store_frame _ _ _ _ _ Hst1 Hdiv).
  pose proof (store_creatable _ _ _ _ _ Hst1 Hdiv Hcreat) as Hc1.
  (* the archive is written into it *)
  destruct (write_file_snoc (scratch_dir w) ZIP_NAME (Zip members) n1 ∅ HS1)
    as (n2 & Hw2 & HS2); [by intros d|].
  pose proof (write_file_store _ _ _ _ Hw2) as Hst2.
  assert (Hdiv2 : diverge (scratch_dir w ++ [ZIP_NAME]) (INSTALL_DIR w)).
  { rewrite <- (app_nil_r (INSTALL_DIR w)). by apply diverge_app. }
  assert (HI2 : FS.resolve (INSTALL_DIR w) n2 = FS.resolve (INSTALL_DIR w) (fs s))
    by by rewrite (store_frame _ _ _ _ _ Hst2 Hdiv2).
  pose proof (store_creatable _ _ _ _ _ Hst2 Hdiv2 Hc1) as Hc2.
  set (s1 := (print_header "Downloading and Extracting Project Files" s).2).
  destruct (download_file_runs w PROJECT_ZIP_URL (scratch_dir w ++ [ZIP_NAME])
              (set_fs n1 s1)) as (s3 & [Henv3 _] & Hd3).
  rewrite Hfetch in Hd3. cbn [fs set_fs] in Hd3. rewrite Hw2 in Hd3.
  destruct Hd3 as [Hd3 Hfs3].
  (* the installation directory is created *)
  destruct (makedirs_spec _ _ Hc2) as (n3 & Hmd & HI3 & Hf3).
  assert (Hmt : entries_at (INSTALL_DIR w) n2 = mt).
  { unfold mt, entries_at. by rewrite HI2. }
  rewrite Hmt in HI3.
  assert (HS3 : FS.resolve (scratch_dir w) n3 = Some (Dir (<[ZIP_NAME := zip]> ∅))).
  { rewrite (Hf3 _ (diverge_sym _ _ Hdiv)). exact HS2. }
  (* the archive is extracted beside itself *)
  assert (Hex : ZipFile.extractall [] members (Dir (<[ZIP_NAME := zip]> ∅))
                = Some (Dir (<[ZIP_NAME := zip]> {[ r := Dir children ]}))).
  { change (Dir (<[ZIP_NAME := zip]> ∅)) with (with_entry ZIP_NAME zip (Dir ∅)).
    rewrite (extractall_with_entry ZIP_NAME zip r Hrz) by done.
    unfold archive_tree in Htree. by rewrite Htree. }
  destruct (store_is_Some (scratch_dir w)
              (Dir (<[ZIP_NAME := zip]> {[ r := Dir children ]})) _ _ HS3)
    as [n4 Hst4].
  assert (Hext : ZipFile.extractall (scratch_dir w) members n3 = Some n4).
  { rewrite focus_extractall.
    - rewrite (focus_at _ _ _ _ HS3), Hex. exact Hst4.
    - eapply Forall_impl; [exact Hrooted|]. intros member Hh E.
      simpl in Hh. by rewrite E in Hh.
    - by rewrite HS3. }
  pose proof (resolve_store _ _ _ _ Hst4) as HS4.
  assert (HI4 : FS.resolve (INSTALL_DIR w) n4 = Some (Dir mt))
    by by rewrite (store_frame _ _ _ _ _ Hst4 Hdiv).
  assert (HX4 : FS.resolve (scratch_dir w ++ [r]) n4 = Some (Dir children)).
  { rewrite (resolve_snoc _ _ _ _ HS4), lookup_insert_ne by done.
    apply lookup_insert_eq. }
  assert (HdX : diverge (scratch_dir w ++ [r]) (INSTALL_DIR w)).
  { rewrite <- (app_nil_r (INSTALL_DIR w)). by apply diverge_app. }
  (* the entries are moved into place *)
  set (s4 := set_fs n4
               (log (Print ("Extracting files to " +:+ path_str (INSTALL_DIR w) +:+ "..."))
                  (set_fs n3 s3))).
  destruct (place_all w (scratch_dir w ++ [r]) (map_to_list children).*1
              children mt s4 HdX)
    as (n5 & msrc5 & mt5 & Hloop & HX5 & HI5 & Hk & Hf5); [..|exact HX4|exact HI4|].
  { apply NoDup_fst_map_to_list. }
  { intros item Hin. apply list_elem_of_fmap in Hin as ([k v] & -> & Hin).
    apply elem_of_map_to_list in Hin. simpl. by rewrite Hin. }
  apply union_by_items in Hk as ->.
  (* the scratch directory is removed *)
  assert (HSd5 : FS.isdir (scratch_dir w) n5 = true).
  { by apply (resolve_app_isdir _ [r] _ (Dir msrc5)). }
  pose proof HSd5 as HS5. apply isdir_resolve in HS5 as [mS5 HS5].
  assert (HT5 : FS.isdir (gettempdir w) n5 = true).
  { by apply (resolve_app_isdir _ [mkdtemp_name w] _ (Dir mS5)). }
  apply isdir_resolve in HT5 as [mT5 HT5].
  destruct (store_snoc _ (mkdtemp_name w) None _ _ HT5) as (n6 & Hst6 & HT6).
  fold (scratch_dir w) in Hst6.
  assert (HI6 : FS.resolve (INSTALL_DIR w) n6 = Some (Dir (children ∪ mt)))
    by by rewrite (store_frame _ _ _ _ _ Hst6 Hdiv).
  exists (log (Print "Project files extracted successfully!") (set_fs n6 (set_fs n5 s4))).
  split; [|split; [exact HI6|split; [|split; [|split]]]].
  5:{ intros q HqS HqI. cbn [fs set_fs log].
      rewrite (store_frame _ _ _ _ _ Hst6 HqS).
      rewrite (Hf5 q (diverge_snoc _ _ _ HqS) HqI). change (fs s4) with n4.
      rewrite (store_frame _ _ _ _ _ Hst4 HqS), (Hf3 q HqI).
      rewrite (store_frame _ _ _ _ _ Hst2 (diverge_snoc _ _ _ HqS)).
      exact (store_frame _ _ _ _ _ Hst1 HqS). }
  - unfold scratch_dir, ZIP_NAME in *. unfold download_and_extract_project.
    rewrite bind_print_header. fold s1.
    eapply bind_then.
    { unfold mkdtemp. eapply bind_then; [|reflexivity].
      apply fs_call_returns. exact Hmk. }
    eapply bind_then; [exact Hd3|]. cbn [negb].
    eapply bind_then; [apply fs_call_returns; rewrite Hfs3; exact Hmd|].
    rewrite bind_print.
    eapply bind_then.
    { unfold ZipFile_open. cbn [fs set_fs log].
      rewrite (Hf3 _ (diverge_sym _ _ Hdiv2)).
      rewrite (resolve_snoc _ _ _ _ HS2), lookup_insert_eq. reflexivity. }
    eapply bind_then; [apply fs_call_returns; exact Hext|].
    fold (top_dir members). rewrite Htop.
    eapply bind_then.
    { unfold os_listdir, FS.listdir. cbn [fs set_fs log].
      rewrite HX4. reflexivity. }
    eapply bind_then; [exact Hloop|].
    eapply bind_then.
    { apply fs_call_returns. cbn [fs set_fs].
      rewrite rmtree_store by done. exact Hst6. }
    reflexivity.
  - cbn [fs set_fs log]. unfold FS.pathexists, scratch_dir.
    rewrite (resolve_snoc _ _ _ _ HT6).
    change (partial_alter (λ _, None) (mkdtemp_name w) mT5)
      with (delete (mkdtemp_name w) mT5).
    by rewrite lookup_delete_eq.
  - cbn [fs set_fs log]. by apply resolve_isdir in HT6.
  - cbn [environ set_fs log]. exact Henv3.
Qed.

End Materialize.





(** ** Materialization as a merge *)



(** The end-to-end scenario: a stale [docker-compose.yml] and the
    operator's [notes.txt] in the installation directory; afterwards the
    new [docker-compose.yml], the new [requirements.txt] and the untouched
    [notes.txt]. *)
Example stale_install_refreshed :
  let run := download_and_extract_project
               (Scenario.ready Scenario.app_archive 0) Scenario.stale in
  run.1 = Ok true
  ∧ FS.resolve ["ProgramData"; "CodeExecutionAPI"] (fs run.2)
    = Some (Dir {[ "docker-compose.yml" := File (Text "services: new");
                   "requirements.txt" := File (Text "fastapi");
                   "notes.txt" := File (Text "mine") ]}).
Proof. vm_compute. split; reflexivity. Qed.

(** C2 (as the code behaves): the archive [a/b/], [a/b/f.txt], [a/g.txt]
    has the single top-level root [a], with entries [b/] and [g.txt].
    Its only directory entry is [a/b/], so the installer takes [a/b/] for
    the top-level directory: the run succeeds and the installation
    directory holds [f.txt] alone, not [b/] and [g.txt]. *)
Theorem rootless_archive_misplaced :
  single_root Scenario.rootless_archive "a"
    {[ "b" := Dir {[ "f.txt" := File (Text "f") ]}; "g.txt" := File (Text "g") ]}
  ∧ top_dir Scenario.rootless_archive = "a/b/"
  ∧ (let run := download_and_extract_project
                  (Scenario.ready Scenario.rootless_archive 0) Scenario.fresh in
     run.1 = Ok true
     ∧ FS.resolve ["ProgramData"; "CodeExecutionAPI"] (fs run.2)
       = Some (Dir {[ "f.txt" := File (Text "f") ]})).
Proof.
  split; [split; [vm_compute; reflexivity | repeat constructor]|].
  split; [reflexivity|]. vm_compute. split; reflexivity.
Qed.

(** The installation directory is created before the archive is opened:
    a download that is not a zip archive makes the run raise, and the
    directory (with its missing parent) is there all the same. *)
Example target_created_before_unpacking :
  let run := download_and_extract_project corrupt_download bare_disk in
  run.1 = Raise (Exc (BadZipFile "File is not a zip file"))
  ∧ FS.resolve ["ProgramData"; "CodeExecutionAPI"] (fs run.2) = Some (Dir ∅).
Proof. vm_compute. split; reflexivity. Qed.

(** ** What the installer takes for the top-level directory *)

Section TopDir.

Implicit Types (p a b : string).

Lemma append_cons x p a : String x p +:+ a = String x (p +:+ a).
Proof. done. Qed.












End TopDir.


(** ** The whole workflow *)

(** On a prepared machine the script runs to its end, whatever the exit
    statuses of the provisioner's and the activator's calls. *)
Lemma script_completes (w : world) (s : state)
    (members : list (string * string)) (r : string)
    (children : gmap string node) :
  best_effort_calls_exit w → prepared w s members r children →
  ∃ s', script w s = (Ok tt, s')
        ∧ provisioner_mark ∈ trace s' ∧ script_generator_mark ∈ trace s'
        ∧ activator_mark ∈ trace s' ∧ complete_mark ∈ trace s'.
Proof.
  intros Hexit (Hel & Hkey & (rc & Hconda & Hrc) & [hooks Hfetch] & HT & Hfresh
                & Hdiv & Hcreat & Hroot & Hrz & Htop & Hhome & Hstart & Hstop
                & HdivS & HdivI & Hvbs & Hcs & Hopen).
  (* the two probes find their prerequisite *)
  assert (Hdocker : docker_block w (greeted w s)
                    = (Ok tt, log (Print "Docker Desktop is already installed.")
                                (greeted w s))).
  { unfold docker_block.
    rewrite (bind_returns _ _ _ _ _ (check_docker_installed_runs w _)).
    by rewrite Hkey. }
  set (sD := log (Print "Docker Desktop is already installed.") (greeted w s)) in *.
  assert (Hminiconda : miniconda_block w sD
                       = (Ok tt, log (Print "Miniconda is already installed.")
                                   (log (Run ["conda"; "--version"] true) sD))).
  { unfold miniconda_block.
    rewrite (bind_returns _ _ _ _ _ (check_conda_installed_runs w _)).
    rewrite Hconda. apply Z.eqb_eq in Hrc. by rewrite Hrc. }
  set (sC := log (Print "Miniconda is already installed.")
               (log (Run ["conda"; "--version"] true) sD)) in *.
  (* the project is materialized *)
  destruct (materialize_succeeds w sC hooks members r children
              Hfetch HT Hfresh Hdiv Hcreat Hroot Hrz Htop)
    as (s1 & Hrun & HI & _ & HT1 & Henv1 & Hframe).
  change (fs sC) with (fs s) in HI, Hframe.
  change (environ sC) with (environ s) in Henv1.
  (* the later steps run through *)
  assert (Hready : launcher_ready w s1).
  { unfold launcher_ready. split; [by apply resolve_isdir in HI|].
    split; [|split; [|split; [by rewrite Henv1|split; [done|split; [|done]]]]].
    - unfold FS.isdir. rewrite (resolve_snoc _ _ _ _ HI).
      destruct (_ !! "start_api.bat") as [[?|d]|] eqn:E; try done.
      by destruct (Hstart d).
    - unfold FS.isdir. rewrite (resolve_snoc _ _ _ _ HI).
      destruct (_ !! "stop_api.bat") as [[?|d]|] eqn:E; try done.
      by destruct (Hstop d).
    - unfold FS.isdir. rewrite (Hframe _ HdivS HdivI). exact Hvbs. }
  destruct (main_after_materialize_completes w s1 Hexit Hready)
    as (s' & Hrest & Hact & Hdone).
  pose proof Hexit as (Hl & Hu & Hc & Hp & _).
  exists s'. split; [|split; [|split; [|done]]].
  - unfold script. apply try_returns.
    rewrite (main_elevated w s Hel).
    rewrite (bind_returns _ _ _ _ _ Hdocker), (bind_returns _ _ _ _ _ Hminiconda).
    unfold materialize_block. by rewrite (bind_returns _ _ _ _ _ Hrun).
  - pose proof (create_conda_environment_marks w s1) as Hm.
    destruct (create_conda_environment_returns w s1 Hl Hu Hc Hp) as (s2 & H2 & _).
    rewrite H2 in Hm. simpl in Hm.
    unfold main_after_materialize in Hrest.
    rewrite (bind_returns _ _ _ _ _ H2) in Hrest.
    eapply (emits_keeps anything _ s2) in Hm; [by rewrite Hrest in Hm|].
    apply emits_bind; [apply create_startup_scripts_appends|intros _].
    apply emits_bind; [apply start_docker_services_appends|intros _].
    appends.
  - pose proof (provisioner_then_script_generator w s1 Hl Hu Hc Hp) as Hm.
    by rewrite Hrest in Hm.
Qed.

(** C8: whatever statuses the calls of the environment manager and of
    the container backend exit with, the provisioner and the activator
    return [True]; after the provisioner the script generator is invoked;
    where the scripts can be written the later steps run through the
    activator to the completion message; and on a prepared machine the
    whole script does. *)
Theorem best_effort_steps_ignore_exit_status (w : world) (s : state) :
  best_effort_calls_exit w →
  (∃ s', create_conda_environment w s = (Ok true, s'))
  ∧ (FS.isdir (INSTALL_DIR w) (fs s) = true →
     ∃ s', start_docker_services w s = (Ok true, s'))
  ∧ script_generator_mark ∈ trace (main_after_materialize w s).2
  ∧ (launcher_ready w s →
     ∃ s', main_after_materialize w s = (Ok tt, s')
           ∧ activator_mark ∈ trace s' ∧ complete_mark ∈ trace s')
  ∧ (∀ members r children, prepared w s members r children →
     ∃ s', script w s = (Ok tt, s')
           ∧ provisioner_mark ∈ trace s' ∧ script_generator_mark ∈ trace s'
           ∧ activator_mark ∈ trace s' ∧ complete_mark ∈ trace s').
Proof.
  intros Hexit. pose proof Hexit as (Hl & Hu & Hc & Hp & Hb & Hup).
  split; [|split; [|split; [|split]]].
  - destruct (create_conda_environment_returns w s Hl Hu Hc Hp) as (s' & H & _).
    eauto.
  - intros HI. by apply start_docker_services_returns.
  - by apply provisioner_then_script_generator.
  - by apply main_after_materialize_completes.
  - intros members r children. by apply script_completes.
Qed.

Lemma best_effort_steps_ignore_exit_status_witness :
  best_effort_calls_exit (Scenario.ready Scenario.app_archive 1)
  ∧ (∃ s', create_conda_environment (Scenario.ready Scenario.app_archive 1)
             Scenario.stale = (Ok true, s'))
  ∧ (∃ s', script (Scenario.ready Scenario.app_archive 1) Scenario.stale
           = (Ok tt, s')
           ∧ provisioner_mark ∈ trace s' ∧ script_generator_mark ∈ trace s'
           ∧ activator_mark ∈ trace s' ∧ complete_mark ∈ trace s').
Proof.
  assert (Hexit : best_effort_calls_exit (Scenario.ready Scenario.app_archive 1)).
  { repeat split; eexists; reflexivity. }
  split; [exact Hexit|].
  destruct (best_effort_steps_ignore_exit_status
              (Scenario.ready Scenario.app_archive 1) Scenario.stale Hexit)
    as (H1 & _ & _ & _ & H5).
  split; [exact H1|].
  apply (H5 Scenario.app_archive "app-main" app_children).
  unfold prepared.
  split; [exists 1%Z; split; [reflexivity|discriminate]|].
  split; [reflexivity|].
  split; [eexists; split; reflexivity|].
  split; [eexists; reflexivity|].
  split; [reflexivity|]. split; [reflexivity|].
  split; [simpl; left; discriminate|].
  split; [vm_compute; exact I|].
  split; [split; [vm_compute; reflexivity | repeat constructor]|].
  split; [discriminate|].
  split; [vm_compute; reflexivity|].
  split; [eexists; reflexivity|].
  split; [intros d; vm_compute; discriminate|].
  split; [intros d; vm_compute; discriminate|].
  split; [simpl; right; split; [reflexivity|left; discriminate]|].
  split; [simpl; left; discriminate|].
  split; [reflexivity|].
  split; eexists; reflexivity.
Defined.

(** * Further properties *)

(** ** The privilege probe *)

(** X1: the privilege probe never raises and changes nothing.  It
    answers what the shell answered, and [False] when the call itself
    fails: its answer is non-zero exactly for an elevated process. *)
Theorem is_admin_fails_closed (w : world) (s : state) :
  ∃ z, is_admin w s = (Ok z, s)
       ∧ (z ≠ 0%Z ↔ elevated w)
       ∧ (IsUserAnAdmin w = None → z = 0%Z).
Proof.
  unfold is_admin, try_except, shell32_IsUserAnAdmin, elevated.
  destruct (IsUserAnAdmin w) as [z|] eqn:E.
  - exists z. split; [done|]. split; [|done].
    split; [eauto|]. by intros (z' & [= <-] & ?).
  - exists 0%Z. split; [done|]. split; [|done].
    split; [done|]. by intros (z' & ? & _).
Qed.

(** ** The elevation request *)

Lemma append_assoc (a b c : string) : (a +:+ b) +:+ c = a +:+ (b +:+ c).
Proof. induction a as [|x a IH]; [done|]. rewrite !append_cons. by f_equal. Qed.

Lemma join_glued (sep a b : string) (rest : list string) :
  Str.join sep ((a +:+ sep +:+ b) :: rest) = Str.join sep (a :: b :: rest).
Proof.
  destruct rest as [|c rest]; [done|].
  cbn [Str.join]. by rewrite !append_assoc.
Qed.

(** X2: the elevation request passes the command line joined by single
    blanks, without quoting: an argument that contains a blank (a script
    path such as [C:\My Tools\installer.py]) is handed on exactly as two
    arguments would be, so the elevated copy cannot tell them apart. *)
Theorem relaunch_loses_argument_boundaries (w w' : world) (a b : string)
    (rest : list string) (s : state) :
  sys_executable w' = sys_executable w →
  sys_argv w = (a +:+ " " +:+ b) :: rest →
  sys_argv w' = a :: b :: rest →
  restart_as_admin w' s = restart_as_admin w s.
Proof.
  intros Hexe Hargv Hargv'. unfold restart_as_admin.
  by rewrite Hexe, Hargv, Hargv', join_glued.
Qed.

Lemma relaunch_loses_argument_boundaries_witness :
  restart_as_admin (launched_with ["C:\My"; "Tools\installer.py"; "--fast"])
    Scenario.fresh
  = restart_as_admin (launched_with ["C:\My Tools\installer.py"; "--fast"])
      Scenario.fresh.
Proof.
  apply (relaunch_loses_argument_boundaries
           (launched_with ["C:\My Tools\installer.py"; "--fast"])
           (launched_with ["C:\My"; "Tools\installer.py"; "--fast"])
           "C:\My" "Tools\installer.py" ["--fast"] Scenario.fresh);
    reflexivity.
Defined.

(** ** The header box *)



Lemma print_header_runs (message : string) (s : state) :
  print_header message s
  = (Ok tt, {| fs := fs s; environ := environ s; cwd := cwd s;
               trace := trace s ++
                 [Print (LF +:+ Str.repeat "="%char (String.length message + 4));
                  Print ("  " +:+ message);
                  Print (Str.repeat "="%char (String.length message + 4) +:+ LF)] |}).
Proof.
  unfold print_header, print, bind, emit, log. cbn [fs environ cwd trace].
  by rewrite <- !app_assoc.
Qed.


(** ** The progress bar *)




(** ** What a download touches *)

Lemma write_file_resolve (p : path) (body : payload) (n n' : node) :
  FS.write_file p body n = Some n' → FS.resolve p n' = Some (File body).
Proof. intros H. apply write_file_store in H. by apply resolve_store in H. Qed.

Lemma write_file_frame (p q : path) (body : payload) (n n' : node) :
  FS.write_file p body n = Some n' → diverge p q →
  FS.resolve q n' = FS.resolve q n.
Proof.
  intros H Hd. apply write_file_store in H. exact (store_frame _ _ _ _ _ H Hd).
Qed.

(** The filesystem after [download_file]: as before, or with the
    destination file written. *)
Lemma download_file_writes (w : world) (url : string) (dest : path) (s : state) :
  ∃ b s', download_file w url dest s = (Ok b, s')
          ∧ same_process s s'
          ∧ (fs s' = fs s
             ∨ ∃ body, FS.write_file dest body (fs s) = Some (fs s')).
Proof.
  destruct (download_file_runs w url dest s) as (s' & Hp & H).
  destruct (retrieve w url) as [hooks body|err|hooks partial err].
  - destruct (FS.write_file dest body (fs s)) as [n|] eqn:Hw; destruct H as [H Hfs].
    + exists true, s'. do 2 (split; [done|]). right. exists body. by rewrite Hfs.
    + exists false, s'. do 2 (split; [done|]). by left.
  - destruct H as [H Hfs]. exists false, s'. do 2 (split; [done|]). by left.
  - destruct H as [H Hfs]. exists false, s'. do 2 (split; [done|]).
    destruct (FS.write_file dest partial (fs s)) as [n|] eqn:Hw; simpl in Hfs.
    + right. exists partial. by rewrite Hfs.
    + by left.
Qed.

Lemma download_file_frame (w : world) (url : string) (dest : path) (s : state) :
  ∃ b s', download_file w url dest s = (Ok b, s')
          ∧ same_process s s'
          ∧ (∀ q, diverge dest q → FS.resolve q (fs s') = FS.resolve q (fs s))
          ∧ (∀ q, FS.isdir q (fs s') = FS.isdir q (fs s)).
Proof.
  destruct (download_file_writes w url dest s) as (b & s' & Hrun & Hp & Hfs).
  exists b, s'. do 2 (split; [done|]).
  destruct Hfs as [->|[body Hw]]; [done|]. split.
  - intros q Hq. by apply (write_file_frame _ _ _ _ _ Hw).
  - intros q. by apply (write_file_isdir _ _ _ _ _ Hw).
Qed.

(** X5: whatever the transfer does, [download_file] keeps the process
    environment and the working directory, leaves every path beside the
    destination as it was, and neither creates nor removes a directory. *)
Theorem download_file_touches_only_destination (w : world) (url : string)
    (dest : path) (s : state) :
  same_process s (download_file w url dest s).2
  ∧ (∀ q, diverge dest q →
          FS.resolve q (fs (download_file w url dest s).2) = FS.resolve q (fs s))
  ∧ (∀ q, FS.isdir q (fs (download_file w url dest s).2) = FS.isdir q (fs s)).
Proof.
  destruct (download_file_frame w url dest s) as (b & s' & -> & Hp & Hq & Hd).
  done.
Qed.

Lemma urlretrieve_broken (w : world) (url : string) (dest : path) (s : state)
    (hooks : list hook_call) (partial : payload) (err : exception) (n : node) :
  retrieve w url = Broken hooks partial err →
  FS.write_file dest partial (fs s) = Some n →
  ∃ new, urlretrieve w url dest report_progress s
         = (Raise (Exc err),
            {| fs := n; environ := environ s; cwd := cwd s;
               trace := (trace s ++ [Fetch url dest]) ++ new |}).
Proof.
  intros Hr Hw. unfold urlretrieve. rewrite bind_emit, Hr.
  destruct (report_hooks_return hooks (set_fs n (log (Fetch url dest) s)))
    as [new Hh].
  exists new.
  eapply bind_then; [by apply fs_call_returns|].
  eapply bind_then; [exact Hh|]. reflexivity.
Qed.

(** X6: when a transfer breaks after it has started, [download_file]
    answers [False], reports the error as its last line, and leaves what
    was received in the destination file: it does not clean up. *)
Theorem broken_transfer_leaves_partial_file (w : world) (url : string)
    (dest : path) (s : state) (hooks : list hook_call) (partial : payload)
    (err : exception) (n : node) :
  retrieve w url = Broken hooks partial err →
  FS.write_file dest partial (fs s) = Some n →
  ∃ s' before,
    download_file w url dest s = (Ok false, s')
    ∧ fs s' = n
    ∧ FS.resolve dest (fs s') = Some (File partial)
    ∧ trace s' = before ++ [Print ("Error downloading file: " +:+ str_exception err)].
Proof.
  intros Hr Hw.
  destruct (urlretrieve_broken w url dest
              (log (Print ("Downloading from " +:+ url +:+ "...")) s)
              hooks partial err n Hr Hw) as [new Hu].
  eexists _, _. split; [|split; [|split]].
  - unfold download_file. rewrite bind_print.
    eapply try_catches; [by apply bind_raises|reflexivity|].
    rewrite bind_print. reflexivity.
  - reflexivity.
  - by apply write_file_resolve in Hw.
  - reflexivity.
Qed.

Lemma broken_transfer_leaves_partial_file_witness :
  ∃ s' before,
    download_file flaky DOCKER_INSTALLER_URL ["Temp"; "setup.exe"] Scenario.fresh
    = (Ok false, s')
    ∧ fs s' = Dir {[ "Temp" := Dir {[ "setup.exe" := File (Text "PK") ]};
                     "ProgramData" := Dir ∅ ]}
    ∧ FS.resolve ["Temp"; "setup.exe"] (fs s') = Some (File (Text "PK"))
    ∧ trace s' = before ++ [Print "Error downloading file: retrieval incomplete"].
Proof.
  apply (broken_transfer_leaves_partial_file flaky DOCKER_INSTALLER_URL
           ["Temp"; "setup.exe"] Scenario.fresh
           [(0, 8192, 10000); (1, 8192, 10000)]%Z (Text "PK")
           (OSError "retrieval incomplete")).
  - reflexivity.
  - vm_compute. reflexivity.
Defined.

(** ** What the remediations touch *)



(** ** The environment after the Miniconda remediation *)

Lemma bind_environ_get {B} (key : string) (f : string → M B) (s : state) :
  bind (os_environ_get key) f s
  = match environ s !! key with
    | Some v => f v s
    | None => (Raise (Exc (KeyError key)), s)
    end.
Proof. unfold bind, os_environ_get. by destruct (environ s !! key). Qed.

Lemma install_miniconda_cases (w : world) (s : state) :
  ∃ b s2,
    download_file w MINICONDA_INSTALLER_URL (miniconda_installer w)
      (print_header "Installing Miniconda" s).2 = (Ok b, s2)
    ∧ environ s2 = environ s
    ∧ install_miniconda w s
      = if b then
          match child w (miniconda_command w) with
          | Exited r =>
              let s3 := log (Run (miniconda_command w) false)
                          (log (Print "Running Miniconda installer...") s2) in
              if (returncode r =? 0)%Z then
                let s4 := log (Print "Miniconda installation completed successfully!") s3 in
                match environ s !! "USERPROFILE", environ s !! "PATH" with
                | Some home, Some old =>
                    (Ok true, set_environ (<["PATH" := conda_path home old]> (environ s4)) s4)
                | Some _, None => (Raise (Exc (KeyError "PATH")), s4)
                | None, _ => (Raise (Exc (KeyError "USERPROFILE")), s4)
                end
              else
                (Ok false,
                 log (Input "Press Enter to continue after installing Miniconda manually...")
                   (log (Print "Please install Miniconda manually from https://docs.conda.io/en/latest/miniconda.html")
                      (log (Print ("Miniconda installation failed: " +:+ stderr r)) s3)))
          | NotStarted msg =>
              (Raise (Exc (OSError msg)),
               log (Run (miniconda_command w) false)
                 (log (Print "Running Miniconda installer...") s2))
          end
        else (Ok false, s2).
Proof.
  set (s1 := (print_header "Installing Miniconda" s).2).
  destruct (download_file_frame w MINICONDA_INSTALLER_URL (miniconda_installer w) s1)
    as (b & s2 & Hd & [He _] & _).
  exists b, s2. split; [done|]. split; [done|].
  unfold install_miniconda. rewrite bind_print_header. fold s1.
  fold (miniconda_installer w). rewrite (bind_returns _ _ _ _ _ Hd).
  destruct b; [|done].
  rewrite bind_print. fold (miniconda_command w).
  destruct (child w (miniconda_command w)) as [r|msg] eqn:Hc.
  - rewrite (bind_returns _ _ _ _ _ (subprocess_run_exited w _ _ _ _ Hc)).
    cbn zeta. destruct (returncode r =? 0)%Z; [|done].
    rewrite bind_print.
    assert (Hget : ∀ B key (f : string → M B) new,
              bind (os_environ_get key) f
                {| fs := fs s2; environ := environ s2; cwd := cwd s2; trace := new |}
              = match environ s !! key with
                | Some v => f v {| fs := fs s2; environ := environ s2;
                                   cwd := cwd s2; trace := new |}
                | None => (Raise (Exc (KeyError key)),
                           {| fs := fs s2; environ := environ s2;
                              cwd := cwd s2; trace := new |})
                end).
    { intros B key f new. rewrite bind_environ_get. cbn [environ]. by rewrite He. }
    unfold log at 1 2 3. cbn [fs environ cwd trace]. rewrite Hget.
    destruct (environ s !! "USERPROFILE") as [home|] eqn:Hhome; [|done].
    rewrite Hget, Hhome, Hget.
    by destruct (environ s !! "PATH") as [old|].
  - by rewrite (bind_raises _ _ _ _ _ (subprocess_run_not_started w _ _ _ _ Hc)).
Qed.


(** X9: where the installer ran and exited with status zero but the
    process environment lacks USERPROFILE (or, with it, PATH),
    [install_miniconda] raises [KeyError] for the missing variable, after
    the installer has run and the success message is printed. *)
Theorem install_miniconda_needs_variables (w : world) (s : state) :
  fetch_succeeds w MINICONDA_INSTALLER_URL (miniconda_installer w) (fs s) →
  exits_zero w (miniconda_command w) →
  ¬ windows_environment s →
  ∃ key s' before,
    install_miniconda w s = (Raise (Exc (KeyError key)), s')
    ∧ key = match environ s !! "USERPROFILE" with
            | Some _ => "PATH"
            | None => "USERPROFILE"
            end
    ∧ environ s !! key = None
    ∧ trace s' = before ++ [Run (miniconda_command w) false;
                            Print "Miniconda installation completed successfully!"].
Proof.
  intros Hf (r & Hc & Hr) Henv.
  destruct (install_miniconda_cases w s) as (b & s2 & Hd & He & Hrun).
  destruct (download_file_true w _ _ (print_header "Installing Miniconda" s).2 Hf)
    as (s2' & Hd' & _).
  rewrite Hd in Hd'. injection Hd' as -> <-.
  rewrite Hc in Hrun. cbn zeta in Hrun. apply Z.eqb_eq in Hr. rewrite Hr in Hrun.
  destruct (environ s !! "USERPROFILE") as [home|] eqn:Hhome.
  - destruct (environ s !! "PATH") as [old|] eqn:Hold.
    + destruct Henv. split; [by rewrite Hhome|by rewrite Hold].
    + eexists "PATH", _, _. split; [exact Hrun|]. split; [done|]. split; [done|].
      simpl. by rewrite <- app_assoc.
  - eexists "USERPROFILE", _, _. split; [exact Hrun|]. split; [done|].
    split; [done|]. simpl. by rewrite <- app_assoc.
Qed.

Lemma install_miniconda_needs_variables_witness :
  ∃ key s' before,
    install_miniconda (Scenario.bare 0) homeless
    = (Raise (Exc (KeyError key)), s')
    ∧ key = match environ homeless !! "USERPROFILE" with
            | Some _ => "PATH"
            | None => "USERPROFILE"
            end
    ∧ environ homeless !! key = None
    ∧ trace s' = before ++ [Run (miniconda_command (Scenario.bare 0)) false;
                            Print "Miniconda installation completed successfully!"].
Proof.
  apply (install_miniconda_needs_variables (Scenario.bare 0) homeless).
  - eexists _, _. split; [reflexivity|]. eexists. vm_compute. reflexivity.
  - eexists. split; reflexivity.
  - intros [[home Hhome] _]. vm_compute in Hhome. discriminate.
Defined.

(** ** The provisioner's choice between update and create *)

Section Substring.

Implicit Types (a b needle hay : string).

Lemma prefix_occurs a b : String.prefix a b = true ↔ ∃ post, b = a +:+ post.
Proof.
  revert b. induction a as [|x a IH]; intros b.
  - split; [intros _; by exists b|by destruct b].
  - destruct b as [|y b]; simpl.
    + split; [done|]. by intros [post ?].
    + destruct (Ascii.ascii_dec x y) as [<-|Hne].
      * rewrite IH. split; intros [post H]; exists post.
        -- by rewrite append_cons, H.
        -- rewrite append_cons in H. by injection H.
      * split; [done|]. intros [post H]. rewrite append_cons in H.
        injection H as ? _. by destruct Hne.
Qed.

Lemma contains_occurs needle hay :
  Str.contains needle hay = true ↔ occurs_in needle hay.
Proof.
  unfold occurs_in. induction hay as [|c hay IH].
  - cbn [Str.contains]. rewrite orb_false_r, prefix_occurs. split.
    + intros [post H]. by exists EmptyString, post.
    + intros ([|? ?] & post & H); [by exists post|done].
  - cbn [Str.contains]. rewrite orb_true_iff, prefix_occurs, IH. split.
    + intros [[post H]|(pre & post & H)].
      * by exists EmptyString, post.
      * exists (String c pre), post. by rewrite append_cons, H.
    + intros ([|x pre] & post & H).
      * left. by exists post.
      * right. rewrite append_cons in H. injection H as _ H. by exists pre, post.
Qed.

End Substring.

Lemma commands_app (l1 l2 : list event) :
  commands (l1 ++ l2) = commands l1 ++ commands l2.
Proof.
  induction l1 as [|e l1 IH]; [done|]. destruct e; simpl; by rewrite ?IH.
Qed.

Lemma print_header_trace (message : string) (s : state) :
  ∃ new, (print_header message s).2
         = {| fs := fs s; environ := environ s; cwd := cwd s;
              trace := trace s ++ new |}
         ∧ commands new = [].
Proof.
  rewrite print_header_runs. by eexists.
Qed.

(** X10: the provisioner always runs three commands, the listing first
    and the dependency installation last; in between it updates the
    environment when the project's environment name occurs anywhere in
    the listing's output (also inside a longer name or a path), and
    creates it otherwise.  It returns [True] in both cases. *)
Theorem provisioner_branches_on_substring (w : world) (s : state)
    (listing : completed) :
  child w conda_env_list = Exited listing →
  exits w (conda_env_update w) → exits w conda_create →
  exits w (conda_pip_install w) →
  ∃ s' new,
    create_conda_environment w s = (Ok true, s')
    ∧ trace s' = trace s ++ new
    ∧ (occurs_in "code_execution_api" (stdout listing) →
       commands new = [conda_env_list; conda_env_update w; conda_pip_install w])
    ∧ (¬ occurs_in "code_execution_api" (stdout listing) →
       commands new = [conda_env_list; conda_create; conda_pip_install w]).
Proof.
  intros Hl [ru Hu] [rc Hc] [rp Hp].
  destruct (print_header_trace "Setting Up Python Environment" s)
    as (hd & Hhd & Hcmd).
  unfold create_conda_environment. rewrite bind_print_header, Hhd.
  rewrite (bind_returns _ _ _ _ _ (subprocess_run_exited w _ _ _ _ Hl)).
  destruct (Str.contains "code_execution_api" (stdout listing)) eqn:Hin.
  - apply contains_occurs in Hin. eexists _, _. split.
    { eapply bind_then.
      { rewrite bind_print.
        eapply bind_then; [by apply subprocess_run_exited|reflexivity]. }
      rewrite bind_print. eapply bind_then; [by apply subprocess_run_exited|].
      rewrite bind_print. reflexivity. }
    split; [cbn [trace log]; by rewrite <- !app_assoc|].
    split; [|done]. intros _. by rewrite commands_app, Hcmd.
  - assert (Hout : ¬ occurs_in "code_execution_api" (stdout listing)).
    { intros H. apply contains_occurs in H. congruence. }
    eexists _, _. split.
    { eapply bind_then.
      { rewrite bind_print.
        eapply bind_then; [by apply subprocess_run_exited|reflexivity]. }
      rewrite bind_print. eapply bind_then; [by apply subprocess_run_exited|].
      rewrite bind_print. reflexivity. }
    split; [cbn [trace log]; by rewrite <- !app_assoc|].
    split; [done|]. intros _. by rewrite commands_app, Hcmd.
Qed.

Lemma provisioner_branches_on_substring_witness :
  occurs_in "code_execution_api"
    "base  C:\mc  code_execution_api_backup  C:\mc\envs\b"
  ∧ ∃ s' new,
      create_conda_environment with_similar_environment Scenario.fresh
      = (Ok true, s')
      ∧ trace s' = trace Scenario.fresh ++ new
      ∧ commands new = [conda_env_list; conda_env_update with_similar_environment;
                        conda_pip_install with_similar_environment].
Proof.
  assert (Hin : occurs_in "code_execution_api"
                  "base  C:\mc  code_execution_api_backup  C:\mc\envs\b").
  { by exists "base  C:\mc  ", "_backup  C:\mc\envs\b". }
  split; [exact Hin|].
  destruct (provisioner_branches_on_substring with_similar_environment
              Scenario.fresh
              {| returncode := 0;
                 stdout := "base  C:\mc  code_execution_api_backup  C:\mc\envs\b";
                 stderr := EmptyString |})
    as (s' & new & Hrun & Ht & Hup & _).
  - reflexivity.
  - eexists. reflexivity.
  - eexists. reflexivity.
  - eexists. reflexivity.
  - exists s', new. split; [exact Hrun|]. split; [exact Ht|]. by apply Hup.
Defined.

(** ** The launcher scripts *)

Section Launcher.

Context (w : world).

Local Arguments FS.store : simpl never.

Lemma diverge_siblings (p : path) (a b : string) :
  a ≠ b → diverge (p ++ [a]) (p ++ [b]).
Proof. intros H. induction p as [|c p IH]; simpl; [by left|by right]. Qed.



(** The two batch files are written first. *)
Lemma launcher_batch_files (s : state) :
  FS.isdir (INSTALL_DIR w) (fs s) = true →
  FS.isdir (start_script w) (fs s) = false →
  FS.isdir (stop_script w) (fs s) = false →
  ∃ n2 hd,
    create_startup_scripts w s
    = bind (os_environ_get "USERPROFILE") (λ home,
        bind (write_text (shortcut_vbs w)
                (vbs_text w (shortcut_path home) (path_str (start_script w))))
          (λ _, bind (subprocess_run w (cscript_command w) false)
          (λ _, bind (fs_call "remove" (FS.remove (shortcut_vbs w)))
          (λ _, bind (print ("Startup scripts created in " +:+ path_str (INSTALL_DIR w)))
          (λ _, bind (print ("Desktop shortcut created at " +:+ shortcut_path home))
          (λ _, ret true))))))
        {| fs := n2; environ := environ s; cwd := cwd s; trace := trace s ++ hd |}
    ∧ commands hd = []
    ∧ FS.resolve (start_script w) n2 = Some (File (Text (start_script_text w)))
    ∧ FS.resolve (stop_script w) n2 = Some (File (Text (stop_script_text w)))
    ∧ (∀ q, diverge (start_script w) q → diverge (stop_script w) q →
            FS.resolve q n2 = FS.resolve q (fs s))
    ∧ (∀ q, FS.isdir q n2 = FS.isdir q (fs s)).
Proof.
  intros HI Hstart Hstop.
  destruct (write_file_Some _ "start_api.bat" (Text (start_script_text w)) _ HI Hstart)
    as (n1 & Hw1 & Hr1).
  assert (HI1 : FS.isdir (INSTALL_DIR w) n1 = true)
    by by rewrite (write_file_isdir _ _ _ _ _ Hw1).
  assert (Hstop1 : FS.isdir (stop_script w) n1 = false)
    by by rewrite (write_file_isdir _ _ _ _ _ Hw1).
  destruct (write_file_Some _ "stop_api.bat" (Text (stop_script_text w)) _ HI1 Hstop1)
    as (n2 & Hw2 & Hr2).
  destruct (print_header_trace "Creating Startup Scripts" s) as (hd & Hhd & Hcmd).
  exists n2, hd. split; [|split; [done|split; [|split; [done|split]]]].
  - unfold create_startup_scripts. rewrite bind_print_header, Hhd.
    eapply bind_then; [apply fs_call_returns; exact Hw1|].
    eapply bind_then; [apply fs_call_returns; exact Hw2|].
    reflexivity.
  - rewrite (write_file_frame _ _ _ _ _ Hw2); [done|].
    apply diverge_siblings. discriminate.
  - intros q Hq1 Hq2.
    by rewrite (write_file_frame _ _ _ _ _ Hw2 Hq2), (write_file_frame _ _ _ _ _ Hw1 Hq1).
  - intros q.
    by rewrite (write_file_isdir _ _ _ _ _ Hw2), (write_file_isdir _ _ _ _ _ Hw1).
Qed.


End Launcher.



(** X12: where the process environment lacks USERPROFILE, the Launcher
    Script Generator raises [KeyError] only after it has written both
    batch files: they are in the installation directory, no child
    process has been started, and no shortcut helper has been written. *)
Theorem launcher_fails_half_way (w : world) (s : state) :
  FS.isdir (INSTALL_DIR w) (fs s) = true →
  FS.isdir (start_script w) (fs s) = false →
  FS.isdir (stop_script w) (fs s) = false →
  environ s !! "USERPROFILE" = None →
  ∃ s' new,
    create_startup_scripts w s = (Raise (Exc (KeyError "USERPROFILE")), s')
    ∧ FS.resolve (start_script w) (fs s') = Some (File (Text (start_script_text w)))
    ∧ FS.resolve (stop_script w) (fs s') = Some (File (Text (stop_script_text w)))
    ∧ (∀ q, diverge (start_script w) q → diverge (stop_script w) q →
            FS.resolve q (fs s') = FS.resolve q (fs s))
    ∧ trace s' = trace s ++ new ∧ commands new = [].
Proof.
  intros HI Hstart Hstop Hhome.
  destruct (launcher_batch_files w s HI Hstart Hstop)
    as (n2 & hd & Hrun & Hcmd & Hr1 & Hr2 & Hf2 & _).
  eexists _, hd. split.
  { rewrite Hrun, bind_environ_get. cbn [environ]. by rewrite Hhome. }
  done.
Qed.

Lemma launcher_fails_half_way_witness :
  ∃ s' new,
    create_startup_scripts (Scenario.ready Scenario.app_archive 0)
      {| fs := Dir installed_empty; environ := ∅; cwd := []; trace := [] |}
    = (Raise (Exc (KeyError "USERPROFILE")), s')
    ∧ FS.resolve ["ProgramData"; "CodeExecutionAPI"; "start_api.bat"] (fs s')
      = Some (File (Text (start_script_text (Scenario.ready Scenario.app_archive 0))))
    ∧ FS.resolve ["ProgramData"; "CodeExecutionAPI"; "stop_api.bat"] (fs s')
      = Some (File (Text (stop_script_text (Scenario.ready Scenario.app_archive 0))))
    ∧ (∀ q, diverge ["ProgramData"; "CodeExecutionAPI"; "start_api.bat"] q →
            diverge ["ProgramData"; "CodeExecutionAPI"; "stop_api.bat"] q →
            FS.resolve q (fs s') = FS.resolve q (Dir installed_empty))
    ∧ trace s' = [] ++ new ∧ commands new = [].
Proof.
  apply (launcher_fails_half_way (Scenario.ready Scenario.app_archive 0)
           {| fs := Dir installed_empty; environ := ∅; cwd := []; trace := [] |});
    reflexivity.
Defined.

(** X13: where the script host cannot be started, the Launcher Script
    Generator raises the [OSError] of the failed start, and the shortcut
    helper it wrote stays in the temporary directory. *)
Theorem launcher_helper_left_behind (w : world) (s : state)
    (home msg : string) :
  FS.isdir (INSTALL_DIR w) (fs s) = true →
  FS.isdir (start_script w) (fs s) = false →
  FS.isdir (stop_script w) (fs s) = false →
  environ s !! "USERPROFILE" = Some home →
  FS.isdir (gettempdir w) (fs s) = true →
  FS.isdir (shortcut_vbs w) (fs s) = false →
  child w (cscript_command w) = NotStarted msg →
  ∃ s',
    create_startup_scripts w s = (Raise (Exc (OSError msg)), s')
    ∧ FS.resolve (shortcut_vbs w) (fs s')
      = Some (File (Text (vbs_text w (shortcut_path home)
                            (path_str (start_script w))))).
Proof.
  intros HI Hstart Hstop Hhome HT Hvbs Hc.
  destruct (launcher_batch_files w s HI Hstart Hstop)
    as (n2 & hd & Hrun & Hcmd & Hr1 & Hr2 & Hf2 & Hd2).
  assert (HT2 : FS.isdir (gettempdir w) n2 = true) by by rewrite Hd2.
  assert (Hvbs2 : FS.isdir (shortcut_vbs w) n2 = false) by by rewrite Hd2.
  destruct (write_file_Some _ "create_shortcut.vbs"
              (Text (vbs_text w (shortcut_path home) (path_str (start_script w))))
              _ HT2 Hvbs2) as (n3 & Hw3 & Hr3).
  fold (shortcut_vbs w) in Hw3, Hr3.
  eexists. split.
  { rewrite Hrun, bind_environ_get. cbn [environ]. rewrite Hhome.
    eapply bind_then; [apply fs_call_returns; exact Hw3|].
    apply bind_raises. by apply subprocess_run_not_started. }
  done.
Qed.

Lemma launcher_helper_left_behind_witness :
  ∃ s',
    create_startup_scripts no_script_host (Scenario.machine installed_empty)
    = (Raise (Exc (OSError "The system cannot find the file specified")), s')
    ∧ FS.resolve ["Temp"; "create_shortcut.vbs"] (fs s')
      = Some (File (Text (vbs_text no_script_host (shortcut_path "C:\Users\op")
                            (path_str (start_script no_script_host))))).
Proof.
  apply (launcher_helper_left_behind no_script_host
           (Scenario.machine installed_empty) "C:\Users\op"
           "The system cannot find the file specified");
    reflexivity.
Defined.

(** ** The activator's working directory *)




(** X15: where the installation directory does not exist (or is a
    regular file), the activator raises [OSError] at the change of
    directory: the working directory stays and no child process is
    started. *)
Theorem activator_needs_install_dir (w : world) (s : state) :
  FS.isdir (INSTALL_DIR w) (fs s) = false →
  ∃ msg s' new,
    start_docker_services w s = (Raise (Exc (OSError msg)), s')
    ∧ cwd s' = cwd s ∧ fs s' = fs s
    ∧ trace s' = trace s ++ new
    ∧ commands new = [].
Proof.
  intros Hd.
  destruct (print_header_trace "Starting Services" s) as (hd & Hhd & Hcmd).
  eexists _, _, hd. split.
  { unfold start_docker_services. rewrite bind_print_header, Hhd.
    apply bind_raises. unfold os_chdir. cbn [fs]. rewrite Hd. reflexivity. }
  done.
Qed.

Lemma activator_needs_install_dir_witness :
  ∃ msg s' new,
    start_docker_services (Scenario.ready Scenario.app_archive 0) Scenario.fresh
    = (Raise (Exc (OSError msg)), s')
    ∧ cwd s' = cwd Scenario.fresh ∧ fs s' = fs Scenario.fresh
    ∧ trace s' = trace Scenario.fresh ++ new
    ∧ commands new = [].
Proof.
  apply (activator_needs_install_dir (Scenario.ready Scenario.app_archive 0)
           Scenario.fresh).
  reflexivity.
Defined.

(** ** The events each step can emit *)

Section Alphabet.

Context (w : world) (P : event → Prop).
Hypothesis Hconsole : ∀ e, console e → P e.

Local Ltac talk := try (apply Hconsole; exact I).

Lemma print_header_alphabet message : emits_only P (print_header message).
Proof. apply print_header_emits. intros. talk. Qed.

Lemma download_file_alphabet url dest :
  P (Fetch url dest) → emits_only P (download_file w url dest).
Proof.
  intros H. unfold download_file, urlretrieve.
  emits_all; try (apply report_progress_emits; intros); talk; done.
Qed.

Local Ltac alphabet :=
  emits_all;
  first [ apply print_header_alphabet
        | by apply download_file_alphabet
        | apply Hconsole; exact I
        | done
        | idtac ].

Lemma install_docker_alphabet :
  P (Fetch DOCKER_INSTALLER_URL (docker_installer w)) →
  P (Run (docker_command w) false) →
  emits_only P (install_docker w).
Proof. intros Hf Hr. unfold install_docker. alphabet. Qed.

Lemma install_miniconda_alphabet :
  P (Fetch MINICONDA_INSTALLER_URL (miniconda_installer w)) →
  P (Run (miniconda_command w) false) →
  emits_only P (install_miniconda w).
Proof. intros Hf Hr. unfold install_miniconda. alphabet. Qed.

Lemma download_and_extract_project_alphabet :
  P (Fetch PROJECT_ZIP_URL (scratch_dir w ++ [ZIP_NAME])) →
  emits_only P (download_and_extract_project w).
Proof.
  intros Hf. unfold download_and_extract_project.
  apply emits_bind; [apply print_header_alphabet|intros _].
  apply (emits_bind_when _ (λ d, d = scratch_dir w)).
  - apply emits_mkdtemp.
  - intros s d s' H. unfold mkdtemp, bind, fs_call in H.
    destruct (FS.mkdir _ _); by injection H.
  - intros d ->. alphabet.
Qed.

Lemma create_conda_environment_alphabet :
  P (Run conda_env_list true) → P (Run (conda_env_update w) true) →
  P (Run conda_create true) → P (Run (conda_pip_install w) true) →
  emits_only P (create_conda_environment w).
Proof. intros Hl Hu Hc Hp. unfold create_conda_environment. alphabet. Qed.

Lemma create_startup_scripts_alphabet :
  P (Run (cscript_command w) false) → emits_only P (create_startup_scripts w).
Proof. intros Hc. unfold create_startup_scripts. alphabet. Qed.

Lemma start_docker_services_alphabet :
  P (Run compose_build true) → P (Run compose_up true) →
  emits_only P (start_docker_services w).
Proof. intros Hb Hu. unfold start_docker_services. alphabet. Qed.

End Alphabet.

Section ScriptAlphabet.

Context (w : world) (P : event → Prop).
Hypothesis Hconsole : ∀ e, console e → P e.
Hypothesis Hroutine : ∀ e, e ∈ routine w → P e.
Hypothesis Hdocker :
  OpenKey w DOCKER_KEY ≠ KeyOpened → ∀ e, e ∈ docker_setup w → P e.
Hypothesis Hminiconda :
  ¬ exits_zero w conda_version → ∀ e, e ∈ miniconda_setup w → P e.
Hypothesis Hbrowser : says_yes w → P (Run browser_command true).

Local Ltac talk :=
  emits_all;
  first [ apply print_header_alphabet; exact Hconsole
        | apply Hconsole; exact I
        | idtac ].

Local Ltac listed := apply Hroutine; unfold routine; set_solver.

Lemma main_after_materialize_alphabet : emits_only P (main_after_materialize w).
Proof.
  unfold main_after_materialize.
  apply emits_bind;
    [apply create_conda_environment_alphabet; [exact Hconsole|listed..]|intros _].
  apply emits_bind;
    [apply create_startup_scripts_alphabet; [exact Hconsole|listed]|intros _].
  apply emits_bind;
    [apply start_docker_services_alphabet; [exact Hconsole|listed..]|intros _].
  apply emits_bind; [apply print_header_alphabet; exact Hconsole|intros _].
  do 3 (apply emits_bind; [talk|intros _]).
  apply (emits_bind_when _ (λ a, a = operator w BROWSER_PROMPT)).
  - talk.
  - intros s a s' H. unfold input, bind, emit, ret in H. by injection H.
  - intros a ->. apply emits_bind; [|intros _; talk].
    destruct (String.eqb _ "y") eqn:E; [|talk].
    apply String.eqb_eq in E. talk. by apply Hbrowser.
Qed.

Lemma main_alphabet :
  (¬ elevated w → P (elevation w)) → emits_only P (main w).
Proof.
  intros Hel. unfold main.
  apply (emits_bind_when _ (λ admin, admin = 0%Z → ¬ elevated w)).
  { unfold is_admin. talk. }
  { intros s admin s' H Hadmin (z & Hz & Hnz).
    rewrite (is_admin_elevated w z s Hz) in H. injection H as <- _. done. }
  intros admin Hadmin. apply emits_bind.
  { destruct (admin =? 0)%Z eqn:E; [unfold restart_as_admin|]; talk.
    apply Hel, Hadmin. by apply Z.eqb_eq. }
  intros _.
  apply emits_bind; [apply print_header_alphabet; exact Hconsole|intros _].
  do 4 (apply emits_bind; [talk|intros _]).
  apply (emits_bind_when _ (λ b, b = false → OpenKey w DOCKER_KEY ≠ KeyOpened)).
  { unfold check_docker_installed. talk. }
  { intros s b s' H. rewrite check_docker_installed_runs in H.
    injection H as <- _. by destruct (OpenKey w DOCKER_KEY). }
  intros docker Hd. apply emits_bind.
  { destruct docker; simpl; [talk|].
    apply emits_bind; [talk|intros _]. apply emits_bind; [|intros _; talk].
    apply install_docker_alphabet; [exact Hconsole|..];
      (apply Hdocker; [by apply Hd|unfold docker_setup; set_solver]). }
  intros _.
  apply (emits_bind_when _ (λ b, b = false → ¬ exits_zero w conda_version)).
  { unfold check_conda_installed. talk. listed. }
  { intros s b s' H. rewrite check_conda_installed_runs in H.
    injection H as <- _. intros Hb (r & Hr & Hz). unfold conda_version in Hr.
    rewrite Hr in Hb. apply Z.eqb_eq in Hz. congruence. }
  intros conda Hc. apply emits_bind.
  { destruct conda; simpl; [talk|].
    apply emits_bind; [talk|intros _]. apply emits_bind; [|intros _; talk].
    apply install_miniconda_alphabet; [exact Hconsole|..];
      (apply Hminiconda; [by apply Hc|unfold miniconda_setup; set_solver]). }
  intros _.
  apply emits_bind.
  { apply download_and_extract_project_alphabet; [exact Hconsole|listed]. }
  intros []; simpl; [apply main_after_materialize_alphabet|talk].
Qed.

Lemma script_alphabet :
  (¬ elevated w → P (elevation w)) → emits_only P (script w).
Proof.
  intros Hel. unfold script. apply emits_try; [by apply main_alphabet|].
  intros e. talk.
Qed.

End ScriptAlphabet.

(** ** What the script asks of the outside world *)

(** X16: besides talking to the operator, the script does nothing but
    what is listed: it fetches the three configured artifacts, each to
    its own place, starts the commands of its steps, and asks for
    elevation; no other transfer and no other child process appears in
    any run. *)
Theorem script_asks_only_what_is_listed (w : world) :
  emits_only (allowed w) (script w).
Proof.
  apply script_alphabet; unfold allowed.
  - intros e He. by left.
  - intros e He. by right; right; left.
  - intros _ e He. by right; right; right; left.
  - intros _ e He. by right; right; right; right; left.
  - intros _. by right; right; right; right; right.
  - intros _. by right; left.
Qed.

Ltac distinct :=
  unfold routine, docker_setup, miniconda_setup, elevation, browser_command,
    docker_command, miniconda_command, cscript_command, conda_version,
    conda_env_list, conda_env_update, conda_create, conda_pip_install,
    compose_build, compose_up,
    DOCKER_INSTALLER_URL, MINICONDA_INSTALLER_URL, PROJECT_ZIP_URL in *;
  rewrite ?elem_of_cons, ?elem_of_nil in *;
  intuition (subst; congruence).

(** X17: a prerequisite that its probe finds is left alone: when the
    Docker registry key opens, no run fetches or starts the Docker
    installer; when the version query of the environment manager exits
    with status zero, no run fetches or starts the Miniconda installer. *)
Theorem present_prerequisites_not_reinstalled (w : world) :
  (OpenKey w DOCKER_KEY = KeyOpened →
   emits_only (λ e, e ∉ docker_setup w) (script w))
  ∧ (exits_zero w conda_version →
     emits_only (λ e, e ∉ miniconda_setup w) (script w)).
Proof.
  split; intros Hfound; apply script_alphabet.
  - intros e He. destruct e; try done; distinct.
  - intros e He. distinct.
  - done.
  - intros _ e He. distinct.
  - intros _. distinct.
  - intros _. distinct.
  - intros e He. destruct e; try done; distinct.
  - intros e He. distinct.
  - intros _ e He. distinct.
  - done.
  - intros _. distinct.
  - intros _. distinct.
Qed.

Lemma present_prerequisites_not_reinstalled_witness :
  emits_only (λ e, e ∉ docker_setup (Scenario.ready Scenario.app_archive 0))
    (script (Scenario.ready Scenario.app_archive 0))
  ∧ emits_only (λ e, e ∉ miniconda_setup (Scenario.ready Scenario.app_archive 0))
      (script (Scenario.ready Scenario.app_archive 0)).
Proof.
  destruct (present_prerequisites_not_reinstalled
              (Scenario.ready Scenario.app_archive 0)) as [Hd Hm].
  split; [apply Hd; reflexivity|apply Hm].
  eexists. split; reflexivity.
Defined.

(** X18: an elevated process never asks for elevation: no run of it
    sends a request to the shell. *)
Theorem elevated_process_never_asks_for_elevation (w : world) :
  elevated w → emits_only no_shell_request (script w).
Proof.
  intros Hel. apply script_alphabet; unfold no_shell_request.
  - intros e He. destruct e; try done; by intros ? ? ?.
  - intros e He verb file params ->. distinct.
  - intros _ e He verb file params ->. distinct.
  - intros _ e He verb file params ->. distinct.
  - intros _ verb file params. discriminate.
  - intros Hn. by destruct Hn.
Qed.

Lemma elevated_process_never_asks_for_elevation_witness :
  emits_only no_shell_request (script (Scenario.ready Scenario.app_archive 0)).
Proof.
  apply (elevated_process_never_asks_for_elevation
           (Scenario.ready Scenario.app_archive 0)).
  exists 1%Z. split; [reflexivity|discriminate].
Defined.

(** X19: a remediation that raises ends the installation.  When Docker
    is missing, its installer is fetched but cannot be started, the
    [OSError] of the failed start leaves [install_docker] and [main]; the
    script reports it and prompts, and nothing else happens after the
    failed start: no Miniconda probe, no materialization. *)
Theorem unstartable_installer_aborts_installation (w : world) (s : state)
    (msg : string) :
  elevated w → OpenKey w DOCKER_KEY ≠ KeyOpened →
  fetch_succeeds w DOCKER_INSTALLER_URL (docker_installer w) (fs s) →
  child w (docker_command w) = NotStarted msg →
  ∃ s1,
    install_docker w (log (Print "Docker Desktop is not installed.") (greeted w s))
    = (Raise (Exc (OSError msg)), s1)
    ∧ script w s
      = (Ok tt, log (Input "Press Enter to exit...")
                  (log (Print ("An error occurred during installation: " +:+ msg)) s1)).
Proof.
  intros Hel Hkey Hf Hc.
  set (sD := log (Print "Docker Desktop is not installed.") (greeted w s)).
  destruct (install_docker_with_artifact w sD Hf) as (s1 & H).
  rewrite Hc in H. exists s1. split; [exact H|].
  assert (Hmain : main w s = (Raise (Exc (OSError msg)), s1)).
  { rewrite (main_elevated w s Hel). apply bind_raises.
    unfold docker_block.
    rewrite (bind_returns _ _ _ _ _ (check_docker_installed_runs w _)).
    destruct (OpenKey w DOCKER_KEY); [done| |]; simpl;
      rewrite bind_print; apply bind_raises; exact H. }
  unfold script. eapply try_catches; [exact Hmain|reflexivity|].
  rewrite bind_print, bind_input. reflexivity.
Qed.

Lemma unstartable_installer_aborts_installation_witness :
  ∃ s1,
    install_docker blocked_installer
      (log (Print "Docker Desktop is not installed.")
         (greeted blocked_installer Scenario.fresh))
    = (Raise (Exc (OSError "Access is denied")), s1)
    ∧ script blocked_installer Scenario.fresh
      = (Ok tt, log (Input "Press Enter to exit...")
                  (log (Print ("An error occurred during installation: "
                               +:+ "Access is denied")) s1)).
Proof.
  apply (unstartable_installer_aborts_installation blocked_installer
           Scenario.fresh "Access is denied").
  - exists 1%Z. split; [reflexivity|discriminate].
  - discriminate.
  - eexists _, _. split; [reflexivity|]. eexists. vm_compute. reflexivity.
  - reflexivity.
Defined.

(** ** Opening the browser *)

Lemma lower_ascii_y (c : ascii) :
  Str.lower_ascii c = "y"%char ↔ c = "y"%char ∨ c = "Y"%char.
Proof.
  destruct c as [[] [] [] [] [] [] [] []]; vm_compute;
    (split; [intros [=]; auto | intros [[=]|[=]]; reflexivity]) || (split; [done|by intros [|]]).
Qed.

Lemma lower_y (a : string) : Str.lower a = "y" ↔ a = "y" ∨ a = "Y".
Proof.
  destruct a as [|c [|c' a]].
  - split; [done|by intros [|]].
  - simpl. split.
    + intros [= H]. apply lower_ascii_y in H as [->| ->]; auto.
    + intros [[= ->]|[= ->]]; reflexivity.
  - simpl. split; [done|by intros [|]].
Qed.

(** X20: at the end of a run that reaches the completion message, the
    browser command is started exactly when the operator answers [y] or
    [Y] to the last question; any other answer (also [yes], or nothing)
    starts nothing. *)
Theorem browser_opened_only_on_yes (w : world) (s : state) :
  best_effort_calls_exit w → launcher_ready w s →
  ∃ s' new,
    main_after_materialize w s = (Ok tt, s')
    ∧ trace s' = trace s ++ new
    ∧ (Run browser_command true ∈ new
       ↔ operator w BROWSER_PROMPT = "y" ∨ operator w BROWSER_PROMPT = "Y").
Proof.
  intros (Hl & Hu & Hc & Hp & Hb & Hup) Hready.
  set (P := λ e, e ≠ Run browser_command true).
  assert (Hconsole : ∀ e, console e → P e) by (intros e He ->; destruct He).
  destruct (create_conda_environment_returns w s Hl Hu Hc Hp) as (s1 & H1 & Hfs & Henv).
  destruct (create_startup_scripts_returns w s1) as (s2 & H2 & HI);
    [by apply (launcher_ready_same w s)|].
  destruct (start_docker_services_returns w s2 HI Hb Hup) as (s3 & H3).
  destruct (emits_run P _ _ _ _ (create_conda_environment_alphabet w P Hconsole
              ltac:(subst P; distinct) ltac:(subst P; distinct)
              ltac:(subst P; distinct) ltac:(subst P; distinct)) H1)
    as (n1 & Ht1 & Hn1).
  destruct (emits_run P _ _ _ _ (create_startup_scripts_alphabet w P Hconsole
              ltac:(subst P; distinct)) H2) as (n2 & Ht2 & Hn2).
  destruct (emits_run P _ _ _ _ (start_docker_services_alphabet w P Hconsole
              ltac:(subst P; distinct) ltac:(subst P; distinct)) H3)
    as (n3 & Ht3 & Hn3).
  assert (Hbefore : Run browser_command true ∉ n1 ++ n2 ++ n3).
  { rewrite !elem_of_app. rewrite Forall_forall in Hn1, Hn2, Hn3.
    intros [Hin|[Hin|Hin]]; [by apply (Hn1 _ Hin)|by apply (Hn2 _ Hin)|by apply (Hn3 _ Hin)]. }
  destruct Hready as (_ & _ & _ & _ & _ & _ & _ & [ro Ho]).
  unfold main_after_materialize.
  rewrite (bind_returns _ _ _ _ _ H1), (bind_returns _ _ _ _ _ H2),
    (bind_returns _ _ _ _ _ H3).
  rewrite bind_print_header, print_header_runs. cbn [snd].
  rewrite !bind_print, bind_input. fold BROWSER_PROMPT.
  destruct (String.eqb (Str.lower (operator w BROWSER_PROMPT)) "y") eqn:E.
  - apply String.eqb_eq in E. eexists _, _. split.
    { rewrite bind_bind, (bind_returns _ _ _ _ _ (subprocess_run_exited w _ _ _ _ Ho)),
        bind_ret, bind_input. reflexivity. }
    split.
    { cbn [trace log]. rewrite Ht3, Ht2, Ht1, <- !app_assoc. reflexivity. }
    rewrite <- lower_y. split; [done|]. intros _. rewrite !elem_of_app. do 3 right.
    rewrite !elem_of_cons. unfold browser_command. tauto.
  - apply String.eqb_neq in E. eexists _, _. split; [reflexivity|].
    split.
    { cbn [trace log]. rewrite Ht3, Ht2, Ht1, <- !app_assoc. reflexivity. }
    rewrite <- lower_y. split; [|done]. intros Hin. exfalso. apply Hbefore.
    rewrite !elem_of_app in Hin. rewrite !elem_of_app.
    destruct Hin as [?|[?|[?|Hin]]]; [tauto..|].
    rewrite !elem_of_cons, elem_of_nil in Hin.
    intuition discriminate.
Qed.

Lemma browser_opened_only_on_yes_witness :
  ∃ s' new,
    main_after_materialize (Scenario.ready Scenario.app_archive 0)
      (Scenario.machine installed_empty) = (Ok tt, s')
    ∧ trace s' = trace (Scenario.machine installed_empty) ++ new
    ∧ (Run browser_command true ∈ new
       ↔ operator (Scenario.ready Scenario.app_archive 0) BROWSER_PROMPT = "y"
         ∨ operator (Scenario.ready Scenario.app_archive 0) BROWSER_PROMPT = "Y").
Proof.
  apply (browser_opened_only_on_yes (Scenario.ready Scenario.app_archive 0)
           (Scenario.machine installed_empty)).
  - repeat split; eexists; reflexivity.
  - unfold launcher_ready. repeat split; try reflexivity; eexists; reflexivity.
Defined.

(** ** How a run ends *)

Section Exceptions.














End Exceptions.



Section Ending.

Context (w : world).







End Ending.



(** ** Materialization: before the archive is opened *)

Section Prepare.

Context (w : world).

Local Arguments FS.store : simpl never.

(** After a completed download the scratch directory holds the download
    alone, and the installation directory exists with the entries it
    had; nothing else has changed. *)
Lemma materialize_prepares (s : state) (hooks : list hook_call) (body : payload) :
  retrieve w PROJECT_ZIP_URL = Fetched hooks body →
  FS.isdir (gettempdir w) (fs s) = true →
  FS.pathexists (scratch_dir w) (fs s) = false →
  diverge (scratch_dir w) (INSTALL_DIR w) →
  creatable (INSTALL_DIR w) (fs s) →
  ∃ s3,
    download_and_extract_project w s = unpack_and_place w (scratch_dir w) s3
    ∧ FS.resolve (scratch_dir w) (fs s3) = Some (Dir {[ ZIP_NAME := File body ]})
    ∧ FS.resolve (INSTALL_DIR w) (fs s3)
      = Some (Dir (entries_at (INSTALL_DIR w) (fs s)))
    ∧ environ s3 = environ s
    ∧ (∀ q, diverge (scratch_dir w) q → diverge (INSTALL_DIR w) q →
            FS.resolve q (fs s3) = FS.resolve q (fs s)).
Proof.
  intros Hfetch HT Hfresh Hdiv Hcreat.
  set (mt := entries_at (INSTALL_DIR w) (fs s)).
  (* the scratch directory *)
  apply isdir_resolve in HT as [mT HmT].
  assert (Hname : mT !! mkdtemp_name w = None).
  { unfold FS.pathexists, scratch_dir in Hfresh.
    rewrite (resolve_snoc _ _ _ _ HmT) in Hfresh. by destruct (mT !! _). }
  destruct (mkdir_snoc _ _ _ _ HmT Hname) as (n1 & Hmk & HT1).
  fold (scratch_dir w) in Hmk.
  pose proof (mkdir_store _ _ _ Hmk) as Hst1.
  assert (HS1 : FS.resolve (scratch_dir w) n1 = Some (Dir ∅)).
  { unfold scratch_dir. rewrite (resolve_snoc _ _ _ _ HT1). apply lookup_insert_eq. }
  pose proof (store_creatable _ _ _ _ _ Hst1 Hdiv Hcreat) as Hc1.
  (* the download is written into it *)
  destruct (write_file_snoc (scratch_dir w) ZIP_NAME body n1 ∅ HS1)
    as (n2 & Hw2 & HS2); [by intros d|].
  pose proof (write_file_store _ _ _ _ Hw2) as Hst2.
  assert (Hdiv2 : diverge (scratch_dir w ++ [ZIP_NAME]) (INSTALL_DIR w)).
  { rewrite <- (app_nil_r (INSTALL_DIR w)). by apply diverge_app. }
  assert (HI2 : FS.resolve (INSTALL_DIR w) n2 = FS.resolve (INSTALL_DIR w) (fs s)).
  { rewrite (store_frame _ _ _ _ _ Hst2 Hdiv2).
    exact (store_frame _ _ _ _ _ Hst1 Hdiv). }
  pose proof (store_creatable _ _ _ _ _ Hst2 Hdiv2 Hc1) as Hc2.
  set (s1 := (print_header "Downloading and Extracting Project Files" s).2).
  destruct (download_file_runs w PROJECT_ZIP_URL (scratch_dir w ++ [ZIP_NAME])
              (set_fs n1 s1)) as (s3 & [Henv3 _] & Hd3).
  rewrite Hfetch in Hd3. cbn [fs set_fs] in Hd3. rewrite Hw2 in Hd3.
  destruct Hd3 as [Hd3 Hfs3].
  (* the installation directory is created *)
  destruct (makedirs_spec _ _ Hc2) as (n3 & Hmd & HI3 & Hf3).
  assert (Hmt : entries_at (INSTALL_DIR w) n2 = mt).
  { unfold mt, entries_at. by rewrite HI2. }
  rewrite Hmt in HI3.
  exists (log (Print ("Extracting files to " +:+ path_str (INSTALL_DIR w) +:+ "..."))
            (set_fs n3 s3)).
  cbn [fs environ set_fs log].
  split; [|split; [|split; [done|split; [exact Henv3|]]]].
  - unfold scratch_dir, ZIP_NAME in *. unfold download_and_extract_project.
    rewrite bind_print_header. fold s1.
    eapply bind_then.
    { unfold mkdtemp. eapply bind_then; [|reflexivity].
      apply fs_call_returns. exact Hmk. }
    eapply bind_then; [exact Hd3|]. cbn [negb].
    eapply bind_then; [apply fs_call_returns; rewrite Hfs3; exact Hmd|].
    rewrite bind_print. reflexivity.
  - rewrite (Hf3 _ (diverge_sym _ _ Hdiv)). exact HS2.
  - intros q HqS HqI. rewrite (Hf3 q HqI).
    rewrite (store_frame _ _ _ _ _ Hst2 (diverge_snoc _ _ _ HqS)).
    exact (store_frame _ _ _ _ _ Hst1 HqS).
Qed.

End Prepare.

(** X22: the installation directory is created before the download is
    opened as an archive.  When the download completes but is not a zip
    archive, [download_and_extract_project] raises [BadZipFile]; by then
    the installation directory exists (with the entries it had, if it
    existed), nothing has been put into it, and the download is still in
    the scratch directory. *)
Theorem target_created_before_archive_is_opened (w : world) (s : state)
    (hooks : list hook_call) (text : string) :
  retrieve w PROJECT_ZIP_URL = Fetched hooks (Text text) →
  FS.isdir (gettempdir w) (fs s) = true →
  FS.pathexists (scratch_dir w) (fs s) = false →
  diverge (scratch_dir w) (INSTALL_DIR w) →
  creatable (INSTALL_DIR w) (fs s) →
  ∃ msg s',
    download_and_extract_project w s = (Raise (Exc (BadZipFile msg)), s')
    ∧ FS.resolve (INSTALL_DIR w) (fs s')
      = Some (Dir (entries_at (INSTALL_DIR w) (fs s)))
    ∧ FS.resolve (scratch_dir w ++ [ZIP_NAME]) (fs s') = Some (File (Text text)).
Proof.
  intros Hfetch HT Hfresh Hdiv Hcreat.
  destruct (materialize_prepares w s hooks (Text text) Hfetch HT Hfresh Hdiv Hcreat)
    as (s3 & Hrun & HS & HI & _).
  assert (Hzip : FS.resolve (scratch_dir w ++ [ZIP_NAME]) (fs s3)
                 = Some (File (Text text))).
  { rewrite (resolve_snoc _ _ _ _ HS). apply lookup_singleton_eq. }
  eexists _, s3. split; [|done].
  rewrite Hrun. unfold unpack_and_place. apply bind_raises.
  unfold ZipFile_open. rewrite Hzip. reflexivity.
Qed.

Lemma target_created_before_archive_is_opened_witness :
  ∃ msg s',
    download_and_extract_project corrupt_download bare_disk
    = (Raise (Exc (BadZipFile msg)), s')
    ∧ FS.resolve ["ProgramData"; "CodeExecutionAPI"] (fs s')
      = Some (Dir (entries_at ["ProgramData"; "CodeExecutionAPI"] (fs bare_disk)))
    ∧ FS.resolve ["Temp"; "tmp8k2"; "code-execution-api.zip"] (fs s')
      = Some (File (Text "<html>rate limited</html>")).
Proof.
  apply (target_created_before_archive_is_opened corrupt_download bare_disk
           [] "<html>rate limited</html>").
  - reflexivity.
  - reflexivity.
  - reflexivity.
  - simpl. left. discriminate.
  - vm_compute. exact I.
Defined.

(** ** Materialization: an archive that does not list its root *)

Section Unpack.

Context (w : world).

Local Arguments FS.store : simpl never.



End Unpack.

Section Misread.

Context (w : world).

Local Arguments FS.store : simpl never.



End Misread.


(** ** A download that is not an archive *)

Lemma makedirs_keeps_files (p q : path) (n n' : node) (c : payload) :
  FS.makedirs p n = Some n' → FS.resolve q n = Some (File c) →
  FS.resolve q n' = Some (File c).
Proof.
  revert n n' q. induction p as [|a p IH]; intros n n' q Hm Hq.
  - destruct n; simpl in Hm; [done|]. by injection Hm as <-.
  - destruct n as [?|m]; [done|]. simpl in Hm.
    apply bind_Some in Hm as (child' & Hc & [= <-]).
    destruct q as [|b q]; [done|]. simpl in Hq. simpl.
    destruct (decide (a = b)) as [<-|Hne].
    + rewrite lookup_insert_eq. simpl.
      destruct (m !! a) as [x|]; simpl in *; [|done]. by eapply IH.
    + by rewrite lookup_insert_ne.
Qed.

Lemma fs_call_Ok_inv what f s s' :
  fs_call what f s = (Ok tt, s') → ∃ n, f (fs s) = Some n ∧ s' = set_fs n s.
Proof.
  unfold fs_call. destruct (f (fs s)) as [n|]; [|done].
  intros [= <-]. eauto.
Qed.

Section NotAnArchive.

Context (w : world) (hooks : list hook_call) (text : string).
Hypothesis Hfetch : retrieve w PROJECT_ZIP_URL = Fetched hooks (Text text).

Lemma materialize_never_true (s s' : state) :
  download_and_extract_project w s ≠ (Ok true, s').
Proof.
  unfold download_and_extract_project. intros H.
  apply bind_Ok_inv in H as (? & s1 & _ & H).
  apply bind_Ok_inv in H as (temp_dir & s2 & _ & H).
  apply bind_Ok_inv in H as (ok & s3 & Hd & H).
  destruct ok; simpl in H.
  2:{ rewrite bind_print in H. by injection H. }
  (* the download is where the archive is expected *)
  destruct (download_file_runs w PROJECT_ZIP_URL
              (temp_dir ++ ["code-execution-api.zip"]) s2) as (s3' & _ & Hruns).
  rewrite Hfetch in Hruns.
  destruct (FS.write_file _ _ (fs s2)) as [n|] eqn:Hw; destruct Hruns as [Hruns Hfs];
    rewrite Hd in Hruns; [|done].
  injection Hruns as <-.
  apply write_file_resolve in Hw. rewrite <- Hfs in Hw.
  (* creating the installation directory leaves it there *)
  apply bind_Ok_inv in H as ([] & s4 & Hmk & H).
  apply fs_call_Ok_inv in Hmk as (n4 & Hmk & ->).
  pose proof (makedirs_keeps_files _ _ _ _ _ Hmk Hw) as Hzip.
  rewrite bind_print in H.
  apply bind_Ok_inv in H as (members & s5 & Hopen & _).
  unfold ZipFile_open in Hopen. cbn [fs log set_fs] in Hopen.
  by rewrite Hzip in Hopen.
Qed.

Local Ltac emits_main :=
  lazymatch goal with
  | |- emits_only _ (bind (download_and_extract_project _) _) =>
      apply (emits_bind_when _ (λ b, b = false));
      [ apply download_and_extract_project_quiet
      | let s := fresh in let a := fresh in let s' := fresh in
        let H := fresh in
        intros s a s' H; destruct a; [by apply materialize_never_true in H|done]
      | intros ? ->; simpl ]
  | |- emits_only _ (is_admin _) => apply is_admin_quiet
  | |- emits_only _ (restart_as_admin _) => apply restart_as_admin_quiet
  | |- emits_only _ (check_docker_installed _) => apply check_docker_installed_quiet
  | |- emits_only _ (check_conda_installed _) => apply check_conda_installed_quiet
  | |- emits_only _ (install_docker _) => apply install_docker_quiet
  | |- emits_only _ (install_miniconda _) => apply install_miniconda_quiet
  | |- emits_only _ (print_header _) => apply print_header_quiet
  | |- _ => emits_call
  end.

Lemma script_quiet_without_archive : emits_only quiet (script w).
Proof.
  unfold script. apply emits_try.
  - unfold main. repeat emits_main; not_later_step.
  - intros e. emits_all; not_later_step.
Qed.

End NotAnArchive.

(** X24: a download that completes but is not a zip archive stops the
    workflow like a failed transfer does: the materializer never returns
    [True], and no run prints the mark of the provisioner, the script
    generator, the activator or the completion message. *)
Theorem corrupt_download_aborts_workflow (w : world) (hooks : list hook_call)
    (text : string) :
  retrieve w PROJECT_ZIP_URL = Fetched hooks (Text text) →
  (∀ s s', download_and_extract_project w s ≠ (Ok true, s'))
  ∧ emits_only quiet (script w).
Proof.
  intros Hfetch. split.
  - intros s s'. by eapply materialize_never_true.
  - by eapply script_quiet_without_archive.
Qed.

Lemma corrupt_download_aborts_workflow_witness :
  (∀ s s', download_and_extract_project corrupt_download s ≠ (Ok true, s'))
  ∧ emits_only quiet (script corrupt_download).
Proof.
  apply (corrupt_download_aborts_workflow corrupt_download []
           "<html>rate limited</html>").
  reflexivity.
Defined.

(** ** What a successful materialization leaves alone *)




(** ** The machine after a complete run *)

Section CompleteRun.

Context (w : world).

Local Arguments FS.store : simpl never.




End CompleteRun.



